(** * NOSTR Wallet: the Bitcoin transaction builder

    A shallow embedding of the two Bitcoin modules of the wallet: the
    network-parameterised module (getNetwork, getApiUrl,
    nostrPubkeyToBitcoinAddress, createBitcoinTransaction, satsToBTC,
    btcToSats) and its mainnet-only near-duplicate.

    Conventions of the embedding.

    - Satoshi amounts are integers: every value that reaches the PSBT goes
      through [BigInt(...)], which rejects a fractional number, and the
      explorer reports integral values.  They are modelled on [Z].  They are
      JavaScript numbers all the same: a sum or a difference of two of them
      is the exact result rounded to the nearest binary64 value ([Int_add],
      [Int_sub]), which is the exact result below 2^53 and an integer
      everywhere.
    - Every other number (the estimated size, the fee rate, a decimal
      amount) is a finite binary64 value, given by the rational it denotes
      ([Q]); an arithmetic operation on such numbers is the exact operation
      followed by rounding to the nearest binary64 value ([Binary64.fl]).
      A fee rate that is not a number (NaN) is not a value of [Q]: with it
      the fee and the change are NaN and both comparisons of the builder are
      false, which is [createBitcoinTransaction_NaN].
    - A call either returns or throws ([Outcome]); an [async] function that
      throws is a rejected promise.  The module-level [ECPair] variable and
      the ECC engine registered in bitcoinjs-lib are threaded through as
      [World].
    - bitcoinjs-lib, ecpair and Buffer are not part of the repository: they
      are the interface [BitcoinLib].  The random bytes the Schnorr signer
      draws for every signature are the interface [Randomness]. *)

From Stdlib Require Import ZArith QArith Qround Qabs Qpower List String Ascii Bool.
From Stdlib Require Import Lia Lqa.
From Stdlib Require Import DecimalString DecimalN DecimalZ.
Import ListNotations.

Set Implicit Arguments.

Local Open Scope string_scope.
Local Open Scope Z_scope.

(** ** Values *)

Definition Buffer := list Byte.byte.

(** [buf.slice(start, end)] for [0 <= start <= end]. *)
Definition Buffer_slice (b : Buffer) (start stop : nat) : Buffer :=
  firstn (stop - start) (skipn start b).

(** Template-literal rendering of an integral number. *)
Definition Z_toString (z : Z) : string := NilZero.string_of_int (Z.to_int z).

(** The values thrown by the modules, and whatever a library call throws. *)
Inductive Error : Type :=
| InsufficientFunds (need have : Z)
| FailedToGenerateChangeAddress
| LibraryError (message : string).

Definition Error_message (e : Error) : string :=
  match e with
  | InsufficientFunds need have =>
      "Insufficient funds. Need " ++ Z_toString need ++ " sats, have "
        ++ Z_toString have ++ " sats"
  | FailedToGenerateChangeAddress => "Failed to generate change address"
  | LibraryError message => message
  end.

Inductive Outcome (A : Type) : Type :=
| Return (a : A)
| Throw (e : Error).

Arguments Return {A} a.
Arguments Throw {A} e.

Definition Outcome_bind {A B} (o : Outcome A) (k : A -> Outcome B) : Outcome B :=
  match o with
  | Return a => k a
  | Throw e => Throw e
  end.

(** ** The UTXO interface *)

Record UTXOStatus : Type := {
  confirmed : bool;
  block_height : option Z;
  block_hash : option string;
  block_time : option Z
}.

Record UTXO : Type := {
  txid : string;
  vout : Z;
  value : Z;
  status : UTXOStatus
}.

(** ** PSBT data, as the builder fills it in *)

Record PsbtInput : Type := {
  hash : string;
  index : Z;
  witnessUtxo_script : option Buffer;
  witnessUtxo_value : Z;
  tapInternalKey : Buffer
}.

Record PsbtOutput : Type := {
  out_address : string;
  out_value : Z
}.

(** The result of [payments.p2tr]: the fields the modules read. *)
Record Payment : Type := {
  address : option string;
  output : option Buffer
}.

(** ** The libraries

    [p2tr] is [bitcoin.payments.p2tr({ internalPubkey, network })] once an
    ECC engine is registered, and [p2tr_noEcc] is what the same call throws
    when none is: [p2tr] checks the type of its argument before it asks for
    the engine, so this is the type error of the argument, or else the
    missing engine.  [SigState] is what signing and finalising add to a
    PSBT.  [lib_signInput] takes the auxiliary randomness of the signature
    as its last argument: [signSchnorr] is called without extra entropy and
    draws 32 fresh bytes. *)

Class BitcoinLib : Type := {
  Network : Type;
  networks_bitcoin : Network;
  networks_testnet : Network;
  KeyPair : Type;
  Signer : Type;
  SigState : Type;
  Transaction : Type;
  Buffer_from_hex : string -> Buffer;
  fromPrivateKey : Buffer -> Outcome KeyPair;
  publicKey : KeyPair -> Buffer;
  tweak : KeyPair -> Buffer -> Outcome Signer;
  taggedHash : string -> Buffer -> Buffer;
  p2tr : Buffer -> Network -> Outcome Payment;
  p2tr_noEcc : Buffer -> Network -> Error;
  noSignatures : SigState;
  checkInput : Network -> list PsbtInput -> PsbtInput -> Outcome unit;
  checkOutput : Network -> list PsbtOutput -> PsbtOutput -> Outcome unit;
  lib_signInput :
    Network -> list PsbtInput -> list PsbtOutput -> SigState ->
    nat -> Signer -> Buffer -> Outcome SigState;
  lib_finalizeAllInputs :
    Network -> list PsbtInput -> list PsbtOutput -> SigState -> Outcome SigState;
  lib_extractTransaction :
    Network -> list PsbtInput -> list PsbtOutput -> SigState -> Outcome Transaction;
  toHex : Transaction -> string
}.

(** What the signer draws during one call of the builder: [randomBytes i]
    are the bytes drawn for the signature of input [i].  Two calls draw
    independently, so each call has its own. *)
Class Randomness : Type := {
  randomBytes : nat -> Buffer
}.

Section Runtime.

Context {L : BitcoinLib} {R : Randomness}.

(** [ECPairAPI]: the object [ECPairFactory(ecc)] returns. *)
Record ECPairAPI : Type := {
  api_fromPrivateKey : Buffer -> Outcome KeyPair
}.

Definition ECPairFactory : ECPairAPI :=
  {| api_fromPrivateKey := fromPrivateKey |}.

(** The state outside the functions: whether [bitcoin.initEccLib] has run,
    the module-level [let ECPair: ECPairAPI | null], and the console. *)
Record World : Type := {
  eccLib : bool;
  ECPair : option ECPairAPI;
  console : list (string * Error)
}.

Definition M (A : Type) : Type := World -> Outcome A * World.

Definition ret {A} (a : A) : M A := fun w => (Return a, w).

Definition throw {A} (e : Error) : M A := fun w => (Throw e, w).

Definition bind {A B} (m : M A) (k : A -> M B) : M B :=
  fun w =>
    match m w with
    | (Return a, w') => k a w'
    | (Throw e, w') => (Throw e, w')
    end.

Definition lift {A} (o : Outcome A) : M A := fun w => (o, w).

(** [try { body } catch (error) { handler }]. *)
Definition try_catch {A} (body : M A) (handler : Error -> M A) : M A :=
  fun w =>
    match body w with
    | (Return a, w') => (Return a, w')
    | (Throw e, w') => handler e w'
    end.

Definition console_error (label : string) (e : Error) : M unit :=
  fun w =>
    (Return tt,
     {| eccLib := eccLib w; ECPair := ECPair w;
        console := console w ++ [(label, e)] |}).

(** [bitcoin.initEccLib(ecc)]. *)
Definition initEccLib : M unit :=
  fun w =>
    (Return tt, {| eccLib := true; ECPair := ECPair w; console := console w |}).

Definition set_ECPair (api : ECPairAPI) : M unit :=
  fun w =>
    (Return tt,
     {| eccLib := eccLib w; ECPair := Some api; console := console w |}).

(** [payments.p2tr] asks for the registered ECC engine to tweak the internal
    key, and throws when there is none. *)
Definition payments_p2tr (internalPubkey : Buffer) (network : Network) : M Payment :=
  fun w =>
    if eccLib w then (p2tr internalPubkey network, w)
    else (Throw (p2tr_noEcc internalPubkey network), w).

(** ** The PSBT object *)

Record Psbt : Type := {
  psbt_network : Network;
  txInputs : list PsbtInput;
  txOutputs : list PsbtOutput;
  signatures : SigState
}.

Definition Psbt_new (network : Network) : Psbt :=
  {| psbt_network := network; txInputs := []; txOutputs := [];
     signatures := noSignatures |}.

Definition addInput (psbt : Psbt) (i : PsbtInput) : Outcome Psbt :=
  Outcome_bind (checkInput (psbt_network psbt) (txInputs psbt) i) (fun _ =>
  Return {| psbt_network := psbt_network psbt;
            txInputs := txInputs psbt ++ [i];
            txOutputs := txOutputs psbt;
            signatures := signatures psbt |}).

Definition addOutput (psbt : Psbt) (o : PsbtOutput) : Outcome Psbt :=
  Outcome_bind (checkOutput (psbt_network psbt) (txOutputs psbt) o) (fun _ =>
  Return {| psbt_network := psbt_network psbt;
            txInputs := txInputs psbt;
            txOutputs := txOutputs psbt ++ [o];
            signatures := signatures psbt |}).

Definition with_signatures (psbt : Psbt) (s : SigState) : Psbt :=
  {| psbt_network := psbt_network psbt;
     txInputs := txInputs psbt;
     txOutputs := txOutputs psbt;
     signatures := s |}.

(** [psbt.signInput(i, signer)], with the bytes the signer draws. *)
Definition signInput (psbt : Psbt) (i : nat) (signer : Signer) : Outcome Psbt :=
  Outcome_bind
    (lib_signInput (psbt_network psbt) (txInputs psbt) (txOutputs psbt)
       (signatures psbt) i signer (randomBytes i))
    (fun s => Return (with_signatures psbt s)).

Definition finalizeAllInputs (psbt : Psbt) : Outcome Psbt :=
  Outcome_bind
    (lib_finalizeAllInputs (psbt_network psbt) (txInputs psbt) (txOutputs psbt)
       (signatures psbt))
    (fun s => Return (with_signatures psbt s)).

Definition extractTransaction (psbt : Psbt) : Outcome Transaction :=
  lib_extractTransaction (psbt_network psbt) (txInputs psbt) (txOutputs psbt)
    (signatures psbt).

(** The locals of [createBitcoinTransaction] once the key pair, the change
    address and the inputs are in place. *)
Record Funding : Type := {
  keyPair : KeyPair;
  internalPubkey : Buffer;
  changeAddress : string;
  funded : Psbt;
  totalInput : Z
}.

(** The same once the outputs are in place, before signing. *)
Record Draft : Type := {
  funding : Funding;
  change : Z;
  psbt : Psbt
}.

End Runtime.

Declare Scope js_scope.
Delimit Scope js_scope with js.

Notation "x <- m ;; k" := (bind m (fun x => k))
  (at level 100, m at next level, right associativity) : js_scope.
Notation "' p <- m ;; k" := (bind m (fun p => k))
  (at level 100, p pattern, m at next level, right associativity) : js_scope.
Notation "m ;;; k" := (bind m (fun _ => k))
  (at level 100, right associativity) : js_scope.

(** [address || '']: an undefined or empty address becomes the empty string. *)
Definition or_empty (a : option string) : string :=
  match a with
  | Some s => s
  | None => ""
  end.

(** [{ txHex: string; fee: number }] *)
Record TxResult : Type := {
  txHex : string;
  fee : Z
}.

(** ** JavaScript numbers

    A finite binary64 value is the rational it denotes.  [Binary64.fl] rounds
    a rational to the nearest binary64 value, ties to even, with 53
    significant bits and the subnormal exponent floor.  NaN and the
    infinities (overflow) are outside the model.  [a * b] on numbers is
    [fl (a * b)], [a / b] is [fl (a / b)], and a decimal literal denotes
    [fl] of its exact value. *)

Module Binary64.

Definition pow2 (e : Z) : Q := (2 ^ e)%Q.

(** floor(log2 a) for [0 < a]: the quotient of the bit lengths, corrected by
    one comparison. *)
Definition ilog2 (a : Q) : Z :=
  let e := Z.log2 (Qnum a) - Z.log2 (Zpos (Qden a)) in
  if Qle_bool (pow2 e) a then e else e - 1.

Definition round_half_even (q : Q) : Z :=
  let f := Qfloor q in
  match (q - inject_Z f ?= 1 # 2)%Q with
  | Lt => f
  | Gt => f + 1
  | Eq => if Z.even f then f else f + 1
  end.

Definition emin : Z := -1022.

(** The nearest multiple of the unit in the last place of [a], for [0 < a]. *)
Definition round_pos (a : Q) : Q :=
  let e := Z.max (ilog2 a) emin in
  let ulp := pow2 (e - 52) in
  let m := round_half_even (a / ulp) in
  Qred (inject_Z m * ulp).

Definition fl (x : Q) : Q :=
  if Qeq_bool x 0 then 0%Q
  else if Qle_bool 0 x then round_pos (Qabs x)
  else (- round_pos (Qabs x))%Q.

(** The unit roundoff, 2^-53. *)
Definition u : Q := pow2 (-53).

End Binary64.

(** [a + b], [a - b], [a * b] and [a / b] on numbers: the exact result,
    rounded. *)
Definition Number_add (a b : Q) : Q := Binary64.fl (a + b).

Definition Number_sub (a b : Q) : Q := Binary64.fl (a - b).

Definition Number_mul (a b : Q) : Q := Binary64.fl (a * b).

Definition Number_div (a b : Q) : Q := Binary64.fl (a / b).

Notation "a .+ b" := (Number_add a b)
  (at level 50, left associativity) : Q_scope.
Notation "a .- b" := (Number_sub a b)
  (at level 50, left associativity) : Q_scope.
Notation "a .* b" := (Number_mul a b)
  (at level 40, left associativity) : Q_scope.
Notation "a ./ b" := (Number_div a b)
  (at level 40, left associativity) : Q_scope.

(** [a + b] and [a - b] on satoshi amounts.  The operands are integral
    numbers and so is the rounded result (below 2^53 nothing is rounded, from
    2^53 on every binary64 value is an integer), so the floor only changes
    the type. *)
Definition Int_add (a b : Z) : Z := Qfloor (inject_Z a .+ inject_Z b)%Q.

Definition Int_sub (a b : Z) : Z := Qfloor (inject_Z a .- inject_Z b)%Q.

(** [Math.ceil(x)] *)
Definition Math_ceil (x : Q) : Z := Qceiling x.

(** [Math.round(x)]: the nearest integer, a tie going up. *)
Definition Math_round (x : Q) : Z := Qfloor (x + (1 # 2)).

(** The decimal digits of a non-negative integer. *)
Definition digits (n : Z) : string :=
  NilEmpty.string_of_uint (N.to_uint (Z.to_N n)).

Fixpoint zeros (k : nat) : string :=
  match k with
  | O => ""
  | S k' => String "0" (zeros k')
  end.

(** Steps 9 to 11 of [Number.prototype.toFixed]: the digits of [n], padded
    with zeros to more than [f] digits, with a point before the last [f]. *)
Definition fixed_digits (n : Z) (f : nat) : string :=
  let m := if n =? 0 then "0" else digits n in
  if Nat.eqb f 0 then m
  else
    let k := String.length m in
    let m := if (k <=? f)%nat then zeros (f + 1 - k) ++ m else m in
    let k := String.length m in
    substring 0 (k - f) m ++ "." ++ substring (k - f) f m.

(** [x.toFixed(fractionDigits)] for a finite [x]: [n] is the integer for
    which [n / 10^f - x] is closest to zero, the larger one on a tie.  From
    10^21 on the result is in exponent notation, which is not modelled
    ([None]). *)
Definition toFixed (x : Q) (fractionDigits : nat) : option string :=
  let s := if Qle_bool 0 x then "" else "-" in
  let x := Qabs x in
  if Qle_bool (inject_Z (10 ^ 21)) x then None
  else
    let n := Qfloor (x * inject_Z (10 ^ Z.of_nat fractionDigits) + (1 # 2)) in
    Some (s ++ fixed_digits n fractionDigits).

(** ** The network-parameterised module *)

Module Bitcoin.

Inductive BitcoinNetwork : Type := mainnet | testnet | testnet4.

(** A parameter declared [network: BitcoinNetwork = 'mainnet']: [None] is a
    call that leaves the argument out. *)
Definition default_mainnet (network : option BitcoinNetwork) : BitcoinNetwork :=
  match network with
  | Some n => n
  | None => mainnet
  end.

Definition getApiUrl (network : BitcoinNetwork) : string :=
  match network with
  | testnet4 => "https://mempool.space/testnet4/api"
  | testnet => "https://mempool.space/testnet/api"
  | mainnet => "https://mempool.space/api"
  end.

Definition getBlockstreamApiUrl (network : BitcoinNetwork) : string :=
  getApiUrl network.

(** [utxos.length * 57.5 + 2 * 43 + 10.5] *)
Definition estimatedSize (utxos : list UTXO) : Q :=
  (inject_Z (Z.of_nat (List.length utxos)) .* 57.5 .+ 2 .* 43 .+ 10.5)%Q.

(** [Math.ceil(estimatedSize * feeRate)] *)
Definition estimatedFee (utxos : list UTXO) (feeRate : Q) : Z :=
  Math_ceil (estimatedSize utxos .* feeRate)%Q.

Definition dustLimit : Z := 546.

(** [(sats / 100000000).toFixed(8)], for a finite [sats]. *)
Definition satsToBTC (sats : Q) : option string :=
  toFixed (sats ./ 100000000)%Q 8.

(** [Math.round(btc * 100000000)] *)
Definition btcToSats (btc : Q) : Z :=
  Math_round (btc .* 100000000)%Q.

Section WithLib.

Context {L : BitcoinLib} {R : Randomness}.

Local Open Scope js_scope.

Definition getECPair : M ECPairAPI :=
  fun w =>
    match ECPair w with
    | Some api => ret api w
    | None => (initEccLib ;;; set_ECPair ECPairFactory ;;; ret ECPairFactory) w
    end.

Definition getNetwork (network : BitcoinNetwork) : Network :=
  match network with
  | testnet | testnet4 => networks_testnet
  | mainnet => networks_bitcoin
  end.

Definition nostrPubkeyToBitcoinAddress
    (pubkeyHex : string) (network : option BitcoinNetwork) : M string :=
  let network := default_mainnet network in
  try_catch
    (let pubkeyBuffer := Buffer_from_hex pubkeyHex in
     payment <- payments_p2tr pubkeyBuffer (getNetwork network) ;;
     ret (or_empty (address payment)))
    (fun error =>
       console_error "Error generating Bitcoin address:" error ;;;
       ret "").

(** [for (const utxo of utxos) { psbt.addInput(...); totalInput += utxo.value }] *)
Fixpoint addInputs (internalPubkey : Buffer) (btcNetwork : Network)
    (utxos : list UTXO) (psbt : Psbt) (totalInput : Z) : M (Psbt * Z) :=
  match utxos with
  | [] => ret (psbt, totalInput)
  | utxo :: rest =>
      payment <- payments_p2tr internalPubkey btcNetwork ;;
      psbt' <- lift (addInput psbt
                 {| hash := txid utxo;
                    index := vout utxo;
                    witnessUtxo_script := output payment;
                    witnessUtxo_value := value utxo;
                    tapInternalKey := internalPubkey |}) ;;
      addInputs internalPubkey btcNetwork rest psbt'
        (Int_add totalInput (value utxo))
  end.

(** [for (let i = 0; i < utxos.length; i++) psbt.signInput(i, tweakedSigner)],
    with [count] iterations left. *)
Fixpoint signInputs (psbt : Psbt) (i count : nat) (tweakedSigner : Signer)
    : Outcome Psbt :=
  match count with
  | O => Return psbt
  | S count' =>
      Outcome_bind (signInput psbt i tweakedSigner) (fun psbt' =>
      signInputs psbt' (S i) count' tweakedSigner)
  end.

(** [createBitcoinTransaction], first part: the key pair, the change address
    and the inputs. *)
Definition createBitcoinTransaction_inputs
    (privateKeyHex : string) (utxos : list UTXO) (network : option BitcoinNetwork) : M Funding :=
  let network := default_mainnet network in
  let privateKeyBuffer := Buffer_from_hex privateKeyHex in
  api <- getECPair ;;
  keyPair <- lift (api_fromPrivateKey api privateKeyBuffer) ;;
  let internalPubkey := Buffer_slice (publicKey keyPair) 1 33 in
  let btcNetwork := getNetwork network in
  payment <- payments_p2tr internalPubkey btcNetwork ;;
  match address payment with
  | None => throw FailedToGenerateChangeAddress
  | Some changeAddress =>
      if (changeAddress =? "")%string then throw FailedToGenerateChangeAddress
      else
        let psbt := Psbt_new btcNetwork in
        '(psbt, totalInput) <- addInputs internalPubkey btcNetwork utxos psbt 0 ;;
        ret {| keyPair := keyPair;
               internalPubkey := internalPubkey;
               changeAddress := changeAddress;
               funded := psbt;
               totalInput := totalInput |}
  end.

(** Second part: the fee estimate, the funds check and the outputs. *)
Definition createBitcoinTransaction_outputs
    (toAddress : string) (amountSats : Z) (utxos : list UTXO) (feeRate : Q)
    (f : Funding) : M Draft :=
  let estimatedFee := estimatedFee utxos feeRate in
  let change := Int_sub (Int_sub (totalInput f) amountSats) estimatedFee in
  if change <? 0 then
    throw (InsufficientFunds (Int_add amountSats estimatedFee) (totalInput f))
  else
    psbt <- lift (addOutput (funded f)
              {| out_address := toAddress; out_value := amountSats |}) ;;
    psbt <- (if dustLimit <? change then
               lift (addOutput psbt
                 {| out_address := changeAddress f; out_value := change |})
             else ret psbt) ;;
    ret {| funding := f; change := change; psbt := psbt |}.

(** Third part: tweak, sign, finalise, extract.  The returned [fee] is
    [estimatedFee]. *)
Definition createBitcoinTransaction_sign
    (utxos : list UTXO) (feeRate : Q) (draft : Draft) : M TxResult :=
  let f := funding draft in
  tweakedSigner <- lift (tweak (keyPair f)
                     (taggedHash "TapTweak" (internalPubkey f))) ;;
  psbt <- lift (signInputs (psbt draft) 0 (List.length utxos) tweakedSigner) ;;
  psbt <- lift (finalizeAllInputs psbt) ;;
  tx <- lift (extractTransaction psbt) ;;
  ret {| txHex := toHex tx; fee := estimatedFee utxos feeRate |}.

Definition createBitcoinTransaction
    (privateKeyHex toAddress : string) (amountSats : Z) (utxos : list UTXO)
    (feeRate : Q) (network : option BitcoinNetwork) : M TxResult :=
  f <- createBitcoinTransaction_inputs privateKeyHex utxos network ;;
  draft <- createBitcoinTransaction_outputs toAddress amountSats utxos feeRate f ;;
  createBitcoinTransaction_sign utxos feeRate draft.

(** [createBitcoinTransaction] called with a fee rate that is not a number.
    [estimatedFee] and [change] are then NaN, so [change < 0] and
    [change > dustLimit] are both false: the funds are not checked, no
    change output is added, and the call returns [{ txHex, fee: NaN }].  The
    value here is that [txHex]. *)
Definition createBitcoinTransaction_NaN
    (privateKeyHex toAddress : string) (amountSats : Z) (utxos : list UTXO)
    (network : option BitcoinNetwork) : M string :=
  f <- createBitcoinTransaction_inputs privateKeyHex utxos network ;;
  psbt <- lift (addOutput (funded f)
            {| out_address := toAddress; out_value := amountSats |}) ;;
  tweakedSigner <- lift (tweak (keyPair f)
                     (taggedHash "TapTweak" (internalPubkey f))) ;;
  psbt <- lift (signInputs psbt 0 (List.length utxos) tweakedSigner) ;;
  psbt <- lift (finalizeAllInputs psbt) ;;
  tx <- lift (extractTransaction psbt) ;;
  ret (toHex tx).

End WithLib.

End Bitcoin.

(** ** The mainnet-only module *)

Module BitcoinMainnet.

Definition estimatedSize (utxos : list UTXO) : Q :=
  (inject_Z (Z.of_nat (List.length utxos)) .* 57.5 .+ 2 .* 43 .+ 10.5)%Q.

Definition estimatedFee (utxos : list UTXO) (feeRate : Q) : Z :=
  Math_ceil (estimatedSize utxos .* feeRate)%Q.

Definition dustLimit : Z := 546.

(** [(sats / 100000000).toFixed(8)] *)
Definition satsToBTC (sats : Q) : option string :=
  toFixed (sats ./ 100000000)%Q 8.

(** [Math.round(btc * 100000000)] *)
Definition btcToSats (btc : Q) : Z :=
  Math_round (btc .* 100000000)%Q.

Section WithLib.

Context {L : BitcoinLib} {R : Randomness}.

Local Open Scope js_scope.

Definition getECPair : M ECPairAPI :=
  fun w =>
    match ECPair w with
    | Some api => ret api w
    | None => (initEccLib ;;; set_ECPair ECPairFactory ;;; ret ECPairFactory) w
    end.

Definition nostrPubkeyToBitcoinAddress (pubkeyHex : string) : M string :=
  try_catch
    (let pubkeyBuffer := Buffer_from_hex pubkeyHex in
     payment <- payments_p2tr pubkeyBuffer networks_bitcoin ;;
     ret (or_empty (address payment)))
    (fun error =>
       console_error "Error generating Bitcoin address:" error ;;;
       ret "").

Fixpoint addInputs (internalPubkey : Buffer) (utxos : list UTXO)
    (psbt : Psbt) (totalInput : Z) : M (Psbt * Z) :=
  match utxos with
  | [] => ret (psbt, totalInput)
  | utxo :: rest =>
      payment <- payments_p2tr internalPubkey networks_bitcoin ;;
      psbt' <- lift (addInput psbt
                 {| hash := txid utxo;
                    index := vout utxo;
                    witnessUtxo_script := output payment;
                    witnessUtxo_value := value utxo;
                    tapInternalKey := internalPubkey |}) ;;
      addInputs internalPubkey rest psbt' (Int_add totalInput (value utxo))
  end.

Fixpoint signInputs (psbt : Psbt) (i count : nat) (tweakedSigner : Signer)
    : Outcome Psbt :=
  match count with
  | O => Return psbt
  | S count' =>
      Outcome_bind (signInput psbt i tweakedSigner) (fun psbt' =>
      signInputs psbt' (S i) count' tweakedSigner)
  end.

(** [createBitcoinTransaction], first part: the key pair, the change address
    and the inputs. *)
Definition createBitcoinTransaction_inputs
    (privateKeyHex : string) (utxos : list UTXO) : M Funding :=
  let privateKeyBuffer := Buffer_from_hex privateKeyHex in
  api <- getECPair ;;
  keyPair <- lift (api_fromPrivateKey api privateKeyBuffer) ;;
  let internalPubkey := Buffer_slice (publicKey keyPair) 1 33 in
  let btcNetwork := networks_bitcoin in
  payment <- payments_p2tr internalPubkey btcNetwork ;;
  match address payment with
  | None => throw FailedToGenerateChangeAddress
  | Some changeAddress =>
      if (changeAddress =? "")%string then throw FailedToGenerateChangeAddress
      else
        let psbt := Psbt_new btcNetwork in
        '(psbt, totalInput) <- addInputs internalPubkey utxos psbt 0 ;;
        ret {| keyPair := keyPair;
               internalPubkey := internalPubkey;
               changeAddress := changeAddress;
               funded := psbt;
               totalInput := totalInput |}
  end.

(** Second part: the fee estimate, the funds check and the outputs. *)
Definition createBitcoinTransaction_outputs
    (toAddress : string) (amountSats : Z) (utxos : list UTXO) (feeRate : Q)
    (f : Funding) : M Draft :=
  let estimatedFee := estimatedFee utxos feeRate in
  let change := Int_sub (Int_sub (totalInput f) amountSats) estimatedFee in
  if change <? 0 then
    throw (InsufficientFunds (Int_add amountSats estimatedFee) (totalInput f))
  else
    psbt <- lift (addOutput (funded f)
              {| out_address := toAddress; out_value := amountSats |}) ;;
    psbt <- (if dustLimit <? change then
               lift (addOutput psbt
                 {| out_address := changeAddress f; out_value := change |})
             else ret psbt) ;;
    ret {| funding := f; change := change; psbt := psbt |}.

(** Third part: tweak, sign, finalise, extract.  The returned [fee] is
    [estimatedFee]. *)
Definition createBitcoinTransaction_sign
    (utxos : list UTXO) (feeRate : Q) (draft : Draft) : M TxResult :=
  let f := funding draft in
  tweakedSigner <- lift (tweak (keyPair f)
                     (taggedHash "TapTweak" (internalPubkey f))) ;;
  psbt <- lift (signInputs (psbt draft) 0 (List.length utxos) tweakedSigner) ;;
  psbt <- lift (finalizeAllInputs psbt) ;;
  tx <- lift (extractTransaction psbt) ;;
  ret {| txHex := toHex tx; fee := estimatedFee utxos feeRate |}.

Definition createBitcoinTransaction
    (privateKeyHex toAddress : string) (amountSats : Z) (utxos : list UTXO)
    (feeRate : Q) : M TxResult :=
  f <- createBitcoinTransaction_inputs privateKeyHex utxos ;;
  draft <- createBitcoinTransaction_outputs toAddress amountSats utxos feeRate f ;;
  createBitcoinTransaction_sign utxos feeRate draft.

(** The same call with a fee rate that is not a number: no funds check, no
    change output, [{ txHex, fee: NaN }]. *)
Definition createBitcoinTransaction_NaN
    (privateKeyHex toAddress : string) (amountSats : Z) (utxos : list UTXO)
    : M string :=
  f <- createBitcoinTransaction_inputs privateKeyHex utxos ;;
  psbt <- lift (addOutput (funded f)
            {| out_address := toAddress; out_value := amountSats |}) ;;
  tweakedSigner <- lift (tweak (keyPair f)
                     (taggedHash "TapTweak" (internalPubkey f))) ;;
  psbt <- lift (signInputs psbt 0 (List.length utxos) tweakedSigner) ;;
  psbt <- lift (finalizeAllInputs psbt) ;;
  tx <- lift (extractTransaction psbt) ;;
  ret (toHex tx).

End WithLib.

End BitcoinMainnet.

(** ** A stand-in for the libraries

    [TestLib] keeps the validations the builder can run into (key length,
    duplicate inputs, address prefix, unsigned inputs) and replaces the
    cryptography by the identity.  It is used to run the modules on concrete
    inputs.  [from_hex] is [Buffer.from(s, 'hex')]: it decodes pairs of hex
    digits and stops at the first pair that is not one, or at a single last
    digit.  A signature is the randomness it was made with; the
    serialisation of a transaction shows its outputs, and in [signing] also
    its signatures. *)

Module TestLib.

Definition hex_digit (c : ascii) : option N :=
  let n := N_of_ascii c in
  if ((48 <=? n) && (n <=? 57))%N then Some (n - 48)%N
  else if ((97 <=? n) && (n <=? 102))%N then Some (n - 87)%N
  else if ((65 <=? n) && (n <=? 70))%N then Some (n - 55)%N
  else None.

Fixpoint from_hex (s : string) : Buffer :=
  match s with
  | String a (String b rest) =>
      match hex_digit a, hex_digit b with
      | Some x, Some y =>
          match Byte.of_N (16 * x + y) with
          | Some byte => byte :: from_hex rest
          | None => []
          end
      | _, _ => []
      end
  | _ => []
  end.

Definition hex_char (n : N) : ascii :=
  if (n <? 10)%N then ascii_of_N (48 + n) else ascii_of_N (87 + n).

Fixpoint to_hex (b : Buffer) : string :=
  match b with
  | [] => ""
  | byte :: rest =>
      let n := Byte.to_N byte in
      String (hex_char (n / 16)) (String (hex_char (n mod 16)) (to_hex rest))
  end.

Definition same_outpoint (a b : PsbtInput) : bool :=
  (hash a =? hash b)%string && (index a =? index b)%Z.

Definition all_signed (signed : list nat) (count : nat) : bool :=
  forallb (fun i => existsb (Nat.eqb i) signed) (seq 0 count).

Definition show_output (o : PsbtOutput) : string :=
  out_address o ++ ":" ++ Z_toString (out_value o) ++ ";".

Definition show_signature (s : nat * Buffer) : string :=
  "sig:" ++ to_hex (snd s) ++ ";".

(** The stand-in, with the signatures shown in the serialisation or not. *)
Definition make (signatures_shown : bool) : BitcoinLib := {|
  Network := string;
  networks_bitcoin := "bc";
  networks_testnet := "tb";
  KeyPair := Buffer;
  Signer := Buffer;
  SigState := list (nat * Buffer) * bool;
  Transaction := list PsbtInput * list PsbtOutput * list (nat * Buffer);
  Buffer_from_hex := from_hex;
  fromPrivateKey := fun d =>
    if (List.length d =? 32)%nat then Return d
    else Throw (LibraryError "Expected Buffer(Length: 32)");
  publicKey := fun d => Byte.x02 :: d;
  tweak := fun d t => Return (d ++ t)%list;
  taggedHash := fun _ b => b;
  p2tr := fun internalPubkey network =>
    if (List.length internalPubkey =? 32)%nat then
      Return {| address := Some (network ++ "1p" ++ to_hex internalPubkey);
                output := Some (Byte.x51 :: Byte.x20 :: internalPubkey) |}
    else Throw (LibraryError "Expected property internalPubkey of type Buffer(Length: 32)");
  p2tr_noEcc := fun internalPubkey _ =>
    if (List.length internalPubkey =? 32)%nat then
      LibraryError "No ECC Library provided. You must call initEccLib() with a valid TinySecp256k1Interface instance"
    else LibraryError "Expected property internalPubkey of type Buffer(Length: 32)";
  noSignatures := ([], false);
  checkInput := fun _ inputs i =>
    if existsb (same_outpoint i) inputs
    then Throw (LibraryError "Duplicate input detected.")
    else Return tt;
  checkOutput := fun network _ o =>
    if String.prefix (network ++ "1") (out_address o) then Return tt
    else Throw (LibraryError "Address has an invalid prefix");
  lib_signInput := fun _ inputs _ st i signer aux =>
    if (i <? List.length inputs)%nat then Return ((i, aux) :: fst st, snd st)
    else Throw (LibraryError "No input for this index");
  lib_finalizeAllInputs := fun _ inputs _ st =>
    if negb (Nat.eqb (List.length inputs) 0)
       && all_signed (map fst (fst st)) (List.length inputs)
    then Return (fst st, true)
    else Throw (LibraryError "Can not finalize input");
  lib_extractTransaction := fun _ inputs outputs st =>
    if snd st then Return (inputs, outputs, rev (fst st))
    else Throw (LibraryError "Not finalized");
  toHex := fun tx =>
    String.concat "" (map show_output (snd (fst tx)))
    ++ (if signatures_shown
        then String.concat "" (map show_signature (snd tx))
        else "")
|}.

#[export] Instance lib : BitcoinLib := make false.

(** The stand-in whose transactions show their signatures. *)
Definition signing : BitcoinLib := make true.

(** A signer that draws the byte [b], 32 times, for every signature. *)
Definition draws (b : Byte.byte) : Randomness :=
  {| randomBytes := fun _ => repeat b 32 |}.

#[export] Instance randomness : Randomness := draws Byte.x00.

(** A fresh page: no ECC engine registered yet, [ECPair] still [null]. *)
Definition fresh : World :=
  {| eccLib := false; ECPair := None; console := [] |}.

(** After the entry point has run [bitcoin.initEccLib(ecc)]. *)
Definition started : World :=
  {| eccLib := true; ECPair := None; console := [] |}.

(** The same state for [signing]. *)
Definition signing_started : @World signing :=
  {| eccLib := true; ECPair := None; console := [] |}.

(** After the builder has called [getECPair()] on a fresh page. *)
Definition loaded : World :=
  {| eccLib := true; ECPair := Some ECPairFactory; console := [] |}.

Definition privateKeyHex : string :=
  "0101010101010101010101010101010101010101010101010101010101010101".

Definition ownAddress : string :=
  "bc1p0101010101010101010101010101010101010101010101010101010101010101".

Definition toAddress : string :=
  "bc1p0202020202020202020202020202020202020202020202020202020202020202".

Definition utxo (id : string) (v : Z) : UTXO :=
  {| txid := id; vout := 0; value := v;
     status := {| confirmed := true; block_height := None;
                  block_hash := None; block_time := None |} |}.

End TestLib.

(** ** Vocabulary of the specification *)

(** The sum of the supplied outputs' values. *)
Definition sum_values (utxos : list UTXO) : Z :=
  fold_right Z.add 0 (map value utxos).

(** The same sum the way the code adds it up, from 0 and one value after
    the other, every step rounded. *)
Definition rounded_sum (utxos : list UTXO) : Z :=
  fold_left (fun sum utxo => Int_add sum (value utxo)) utxos 0.

(** The range in which the builder's arithmetic is exact: values that are
    not negative and add up to less than 2^53 satoshis (some 90 million
    BTC), an amount that is not negative, a fee rate that is a number and
    not negative, and an amount plus fee below 2^53. *)
Definition exact_range (utxos : list UTXO) (amountSats : Z) (feeRate : Q)
    : Prop :=
  Forall (fun utxo => 0 <= value utxo) utxos /\
  sum_values utxos < 2 ^ 53 /\
  0 <= amountSats /\
  (0 <= feeRate)%Q /\
  amountSats + Bitcoin.estimatedFee utxos feeRate < 2 ^ 53.

(** A call of the builder that returns [result] and leaves the state [w']:
    a call of the network-parameterised module, or a call of the
    mainnet-only module, [network] then being mainnet or left out. *)
Definition built {L : BitcoinLib} {R : Randomness}
    (privateKeyHex toAddress : string) (amountSats : Z) (utxos : list UTXO)
    (feeRate : Q) (network : option Bitcoin.BitcoinNetwork) (w : World)
    (result : TxResult) (w' : World) : Prop :=
  Bitcoin.createBitcoinTransaction privateKeyHex toAddress amountSats utxos
    feeRate network w = (Return result, w') \/
  (Bitcoin.default_mainnet network = Bitcoin.mainnet /\
   BitcoinMainnet.createBitcoinTransaction privateKeyHex toAddress amountSats
     utxos feeRate w = (Return result, w')).

(** The same for a fee rate that is not a number: the call returns
    [{ txHex, fee: NaN }]. *)
Definition built_NaN {L : BitcoinLib} {R : Randomness}
    (privateKeyHex toAddress : string) (amountSats : Z) (utxos : list UTXO)
    (network : option Bitcoin.BitcoinNetwork) (w : World)
    (txHex : string) (w' : World) : Prop :=
  Bitcoin.createBitcoinTransaction_NaN privateKeyHex toAddress amountSats utxos
    network w = (Return txHex, w') \/
  (Bitcoin.default_mainnet network = Bitcoin.mainnet /\
   BitcoinMainnet.createBitcoinTransaction_NaN privateKeyHex toAddress
     amountSats utxos w = (Return txHex, w')).

(** A key text [payments.p2tr] rejects: the buffer it decodes to is not 32
    bytes long and fails the type check of [internalPubkey], or it is 32
    bytes that are not the x coordinate of a curve point and fails the
    tweak.  This is about the decoded buffer, not about the text: a text of
    the wrong length can decode to 32 good bytes. *)
Definition rejected {L : BitcoinLib} (pubkeyHex : string) (network : Network)
    : Prop :=
  exists e, p2tr (Buffer_from_hex pubkeyHex) network = Throw e.

(** The entry point of the application registers the ECC engine before it
    renders anything: [bitcoin.initEccLib(ecc)]. *)
Definition main {L : BitcoinLib} : M unit := initEccLib.

(** The states of the running application: after the entry point, and after
    any call into the module from such a state, whatever the signer
    draws. *)
Inductive running {L : BitcoinLib} : World -> Prop :=
| running_main w :
    running (snd (main w))
| running_address pubkeyHex network w :
    running w ->
    running (snd (Bitcoin.nostrPubkeyToBitcoinAddress pubkeyHex network w))
| running_transaction (R : Randomness)
    privateKeyHex toAddress amountSats utxos feeRate network w :
    running w ->
    running (snd (Bitcoin.createBitcoinTransaction privateKeyHex toAddress
                    amountSats utxos feeRate network w)).

(** The rational a decimal numeral denotes: an optional minus sign, digits,
    and optionally a point followed by digits. *)
Definition is_digit (c : ascii) : bool :=
  let n := N_of_ascii c in ((48 <=? n) && (n <=? 57))%N.

Fixpoint all_digits (s : string) : bool :=
  match s with
  | "" => true
  | String c r => is_digit c && all_digits r
  end.

Fixpoint digits_value (s : string) (acc : Z) : Z :=
  match s with
  | "" => acc
  | String c r => digits_value r (10 * acc + (Z.of_N (N_of_ascii c) - 48))
  end.

Fixpoint split_dot (s : string) : string * option string :=
  match s with
  | "" => ("", None)
  | String c r =>
      if Ascii.eqb c "." then ("", Some r)
      else let (a, b) := split_dot r in (String c a, b)
  end.

Definition nonempty (s : string) : bool :=
  match s with
  | "" => false
  | _ => true
  end.

Definition unsigned_value (s : string) : option Q :=
  match split_dot s with
  | (a, Some b) =>
      if all_digits a && all_digits b && nonempty a && nonempty b then
        Some (digits_value (a ++ b) 0 # Z.to_pos (10 ^ Z.of_nat (String.length b)))
      else None
  | (a, None) =>
      if all_digits a && nonempty a then Some (inject_Z (digits_value a 0))
      else None
  end.

Definition decimal_value (s : string) : option Q :=
  match s with
  | "" => None
  | String c r =>
      if Ascii.eqb c "-" then option_map Qopp (unsigned_value r)
      else unsigned_value s
  end.

(** ** nostr-tools, the explorer and the page

    [nip19.decode], [parseFloat] and [fetch] are not part of the repository.
    The first two are the interface [Platform]; [parseFloat] returns NaN
    ([None]) or a finite number, an infinite result being outside the model.
    Every function below awaits at most one [fetch], so [fetch] is taken as
    the answer the network gives to a request, and a rejected promise is a
    [Throw]. *)

(** [new Error(message)] in the callers: an error is known by its message. *)
Definition Error_of (message : string) : Error := LibraryError message.

(** What [nip19.decode] returns: the [type] tag with its [data], a hex string
    for an npub and the key bytes for an nsec. *)
Inductive Decoded : Type :=
| Decoded_npub (data : string)
| Decoded_nsec (data : Buffer)
| Decoded_other (type : string).

Class Platform : Type := {
  nip19_decode : string -> Outcome Decoded;
  parseFloat : string -> option Q
}.

#[local] Set Warnings "-register-all".

(** A parsed JSON document.  An object is the map from its keys to its
    values. *)
Inductive JSON : Type :=
| JSON_null
| JSON_boolean (b : bool)
| JSON_number (x : Q)
| JSON_string (s : string)
| JSON_array (items : list JSON)
| JSON_object (members : string -> option JSON).

(** [data.key] for a key that names no built-in property: [undefined]
    ([None]) unless [data] is an object holding the key; reading a property
    of [null] throws. *)
Definition JSON_get (data : JSON) (key : string) : Outcome (option JSON) :=
  match data with
  | JSON_null =>
      Throw (LibraryError
               ("Cannot read properties of null (reading '" ++ key ++ "')"))
  | JSON_object members => Return (members key)
  | _ => Return None
  end.

(** The values that count as false in a condition. *)
Definition falsy (v : option JSON) : bool :=
  match v with
  | None => true
  | Some JSON_null => true
  | Some (JSON_boolean b) => negb b
  | Some (JSON_number x) => Qeq_bool x 0
  | Some (JSON_string s) => (s =? "")%string
  | Some (JSON_array _) => false
  | Some (JSON_object _) => false
  end.

(** [v || d] *)
Definition or_else (v : option JSON) (d : JSON) : JSON :=
  match v with
  | Some a => if falsy v then d else a
  | None => d
  end.

(** [fetch(url)] and [fetch(url, { method, body })]. *)
Record Request : Type := {
  url : string;
  method : string;
  body : option string
}.

(** The parts of a response the modules read: [response.ok], and what
    [response.text()] and [response.json()] resolve to. *)
Record Response : Type := {
  ok : bool;
  text : Outcome string;
  json : Outcome JSON
}.

Definition Fetch : Type := Request -> Outcome Response.

Definition GET (u : string) : Request :=
  {| url := u; method := "GET"; body := None |}.

(** [s.replace(pattern, replacement)] for a string pattern and a replacement
    without [$]: the first occurrence is replaced. *)
Fixpoint String_replace (s pattern replacement : string) : string :=
  if String.prefix pattern s then
    replacement
      ++ substring (String.length pattern)
           (String.length s - String.length pattern) s
  else
    match s with
    | "" => ""
    | String c r => String c (String_replace r pattern replacement)
    end.

(** ** The rest of the network-parameterised module *)

Module BitcoinIO.

Import Bitcoin.

(** The object [getFeeRates] resolves to. *)
Record FeeRates : Type := {
  fastestFee : JSON;
  halfHourFee : JSON;
  hourFee : JSON;
  economyFee : JSON;
  minimumFee : JSON
}.

Section WithLib.

Context {L : BitcoinLib} {P : Platform}.

Local Open Scope js_scope.

Definition npubToBitcoinAddress
    (npub : string) (network : option BitcoinNetwork) : M string :=
  let network := default_mainnet network in
  try_catch
    (decoded <- lift (nip19_decode npub) ;;
     match decoded with
     | Decoded_npub pubkeyHex =>
         nostrPubkeyToBitcoinAddress pubkeyHex (Some network)
     | _ => throw (Error_of "Invalid npub format")
     end)
    (fun error =>
       console_error "Error converting npub to Bitcoin address:" error ;;;
       throw error).

End WithLib.

Section WithFetch.

Variable fetch : Fetch.

Definition fetchUTXOs (address : string) (network : option BitcoinNetwork)
    : Outcome JSON :=
  let network := default_mainnet network in
  let apiUrl := getApiUrl network in
  Outcome_bind (fetch (GET (apiUrl ++ "/address/" ++ address ++ "/utxo")))
    (fun response =>
  if negb (ok response) then Throw (Error_of "Failed to fetch UTXOs")
  else json response).

Definition getFeeRates (network : option BitcoinNetwork) : Outcome FeeRates :=
  let network := default_mainnet network in
  let apiUrl := getApiUrl network in
  Outcome_bind (fetch (GET (apiUrl ++ "/v1/fees/recommended")))
    (fun response =>
  if negb (ok response) then Throw (Error_of "Failed to fetch fee estimates")
  else
    Outcome_bind (json response) (fun data =>
    Outcome_bind (JSON_get data "fastestFee") (fun fastest =>
    Outcome_bind (JSON_get data "halfHourFee") (fun halfHour =>
    Outcome_bind (JSON_get data "hourFee") (fun hour =>
    Outcome_bind (JSON_get data "economyFee") (fun economy =>
    Outcome_bind (JSON_get data "minimumFee") (fun minimum =>
    Return {| fastestFee := or_else fastest (JSON_number 1);
              halfHourFee := or_else halfHour (JSON_number 1);
              hourFee := or_else hour (JSON_number 1);
              economyFee := or_else economy (JSON_number 1);
              minimumFee := or_else minimum (JSON_number 1) |}))))))).

Definition broadcastTransaction
    (txHex : string) (network : option BitcoinNetwork) : Outcome string :=
  let network := default_mainnet network in
  let apiUrl := getApiUrl network in
  Outcome_bind
    (fetch {| url := apiUrl ++ "/tx"; method := "POST"; body := Some txHex |})
    (fun response =>
  if negb (ok response) then
    Outcome_bind (text response) (fun error =>
    Throw (Error_of ("Failed to broadcast transaction: " ++ error)))
  else text response).

End WithFetch.

End BitcoinIO.

(** ** The rest of the mainnet-only module *)

Module BitcoinMainnetIO.

Section WithLib.

Context {L : BitcoinLib} {P : Platform}.

Local Open Scope js_scope.

Definition npubToBitcoinAddress (npub : string) : M string :=
  try_catch
    (decoded <- lift (nip19_decode npub) ;;
     match decoded with
     | Decoded_npub pubkeyHex =>
         BitcoinMainnet.nostrPubkeyToBitcoinAddress pubkeyHex
     | _ => throw (Error_of "Invalid npub format")
     end)
    (fun error =>
       console_error "Error converting npub to Bitcoin address:" error ;;;
       throw error).

End WithLib.

Section WithFetch.

Variable fetch : Fetch.

Definition fetchUTXOs (address : string) : Outcome JSON :=
  Outcome_bind
    (fetch (GET ("https://blockstream.info/api/address/" ++ address
                 ++ "/utxo")))
    (fun response =>
  if negb (ok response) then Throw (Error_of "Failed to fetch UTXOs")
  else json response).

Definition broadcastTransaction (txHex : string) : Outcome string :=
  Outcome_bind
    (fetch {| url := "https://blockstream.info/api/tx"; method := "POST";
              body := Some txHex |})
    (fun response =>
  if negb (ok response) then
    Outcome_bind (text response) (fun error =>
    Throw (Error_of ("Failed to broadcast transaction: " ++ error)))
  else text response).

End WithFetch.

End BitcoinMainnetIO.

(** ** The main page *)

Record User : Type := {
  pubkey : string
}.

Module Index.

Import Bitcoin.

Section WithLib.

Context {L : BitcoinLib}.

Local Open Scope js_scope.

(** The body of [useMemo(() => { ... }, [user, network])]. *)
Definition bitcoinAddress (user : option User) (network : BitcoinNetwork)
    : M string :=
  match user with
  | None => ret ""
  | Some user =>
      try_catch
        (let pubkeyBuffer := Buffer_from_hex (pubkey user) in
         payment <- payments_p2tr pubkeyBuffer (getNetwork network) ;;
         ret (or_empty (address payment)))
        (fun error =>
           console_error "Error generating Bitcoin address:" error ;;;
           ret "")
  end.

End WithLib.

(** [(sats: number) => (sats / 100000000).toFixed(8)] *)
Definition satsToBTC (sats : Q) : option string :=
  toFixed (sats ./ 100000000)%Q 8.

End Index.

(** ** The send dialog *)

Module SendBitcoinDialog.

Import Bitcoin.

Inductive FeeSpeed : Type := fastest | halfHour | hour | economy.

(** [feeRates] as its type declares it: numbers.  What [getFeeRates] passes
    on is whatever the explorer sent; a rate that is not a number is outside
    this record. *)
Record FeeRates : Type := {
  fastestFee : Q;
  halfHourFee : Q;
  hourFee : Q;
  economyFee : Q;
  minimumFee : Q
}.

(** What [mutationFn] resolves to: [{ txId, fee }]. *)
Record Sent : Type := {
  txId : string;
  sentFee : Z
}.

Section WithLib.

Context {L : BitcoinLib} {R : Randomness} {P : Platform}.

(** What one rendering of the component reads from its hooks: the user, the
    two values of [useNsecAccess], the configured network, the input fields
    and the data of the two queries ([None] while [undefined]). *)
Record Dialog : Type := {
  user : option User;
  hasNsecAccess : bool;
  getPrivateKey : M (option string);
  network : BitcoinNetwork;
  recipient : string;
  amount : string;
  feeSpeed : FeeSpeed;
  utxos : option (list UTXO);
  feeRates : option FeeRates
}.

Local Open Scope js_scope.

(** [user ? nostrPubkeyToBitcoinAddress(user.pubkey, network) : ''] *)
Definition senderAddress (d : Dialog) : M string :=
  match user d with
  | Some u => nostrPubkeyToBitcoinAddress (pubkey u) (Some (network d))
  | None => ret ""
  end.

(** [utxos?.reduce((sum, utxo) => sum + utxo.value, 0) || 0] *)
Definition totalBalance (d : Dialog) : Z :=
  match utxos d with
  | Some utxos => fold_left (fun sum utxo => Int_add sum (value utxo)) utxos 0
  | None => 0
  end.

(** The Send Max button: [setAmount(satsToBTC(totalBalance))]. *)
Definition sendMax (d : Dialog) : option Dialog :=
  match satsToBTC (inject_Z (totalBalance d)) with
  | Some a =>
      Some {| user := user d; hasNsecAccess := hasNsecAccess d;
              getPrivateKey := getPrivateKey d; network := network d;
              recipient := recipient d; amount := a; feeSpeed := feeSpeed d;
              utxos := utxos d; feeRates := feeRates d |}
  | None => None
  end.

(** The [try { ... } catch { ... }] that parses the recipient. *)
Definition recipientAddress (d : Dialog) : M string :=
  try_catch
    (if String.prefix "npub1" (recipient d) then
       BitcoinIO.npubToBitcoinAddress (recipient d) (Some (network d))
     else if String.prefix "bc1" (recipient d)
             || String.prefix "tb1" (recipient d) then
       ret (recipient d)
     else throw (Error_of "Invalid recipient format"))
    (fun _ => throw (Error_of "Invalid recipient address or npub")).

(** [feeRateMap[feeSpeed]] *)
Definition feeRateMap (feeRates : FeeRates) (speed : FeeSpeed) : Q :=
  match speed with
  | fastest => fastestFee feeRates
  | halfHour => halfHourFee feeRates
  | hour => hourFee feeRates
  | economy => economyFee feeRates
  end.

Definition is_some {A} (o : option A) : bool :=
  match o with
  | Some _ => true
  | None => false
  end.

Variable fetch : Fetch.

Definition mutationFn (d : Dialog) : M Sent :=
  if negb (is_some (user d)) || negb (hasNsecAccess d) then
    throw (Error_of "You must be logged in with nsec to send Bitcoin")
  else
    privateKey <- getPrivateKey d ;;
    match privateKey with
    | None => throw (Error_of "Failed to access private key")
    | Some privateKey =>
    if (privateKey =? "")%string then
      throw (Error_of "Failed to access private key")
    else
    match utxos d with
    | None | Some [] => throw (Error_of "No UTXOs available")
    | Some utxos =>
    match feeRates d with
    | None => throw (Error_of "Fee rates not loaded")
    | Some feeRates =>
    recipientAddress <- recipientAddress d ;;
    match parseFloat (amount d) with
    | None => throw (Error_of "Invalid amount")
    | Some btc =>
    let amountSats := btcToSats btc in
    if amountSats <=? 0 then throw (Error_of "Invalid amount")
    else
    let feeRate := feeRateMap feeRates (feeSpeed d) in
    built <- createBitcoinTransaction privateKey recipientAddress amountSats
               utxos feeRate (Some (network d)) ;;
    txId <- lift (BitcoinIO.broadcastTransaction fetch (txHex built)
                    (Some (network d))) ;;
    ret {| txId := txId; sentFee := fee built |}
    end end end end.

(** The explorer link of the success screen:
    [getApiUrl(network).replace('/api', '')], then [/tx/] and the id. *)
Definition explorerUrl (network : BitcoinNetwork) : string :=
  String_replace (getApiUrl network) "/api" "".

Definition explorerTxUrl (network : BitcoinNetwork) (txId : string) : string :=
  explorerUrl network ++ "/tx/" ++ txId.

End WithLib.

End SendBitcoinDialog.

(** A stand-in for nostr-tools and [parseFloat]: an npub is [npub1] followed
    by the key in hex, and [parseFloat] reads decimal numerals. *)

Module TestPlatform.

#[export] Instance platform : Platform := {|
  nip19_decode := fun s =>
    if String.prefix "npub1" s then
      Return (Decoded_npub (substring 5 (String.length s - 5) s))
    else if String.prefix "nsec1" s then
      Return (Decoded_nsec
                (TestLib.from_hex (substring 5 (String.length s - 5) s)))
    else Throw (LibraryError "Unknown prefix");
  parseFloat := fun s => option_map Binary64.fl (decimal_value s)
|}.

End TestPlatform.

(** ** Vocabulary of the further properties *)

(** The input [psbt.addInput({ ... })] receives for one supplied output,
    [payment] being what [p2tr] returned for the internal key. *)
Definition inputOf (internalPubkey : Buffer) (payment : Payment) (utxo : UTXO)
    : PsbtInput :=
  {| hash := txid utxo;
     index := vout utxo;
     witnessUtxo_script := output payment;
     witnessUtxo_value := value utxo;
     tapInternalKey := internalPubkey |}.

(** The value a list of outputs carries. *)
Definition sum_outputs (outputs : list PsbtOutput) : Z :=
  fold_right Z.add 0 (map out_value outputs).

(** The state [getECPair] leaves: unchanged once [ECPair] is set, and
    otherwise with the ECC engine registered and [ECPair] created. *)
Definition initialised {L : BitcoinLib} (w : World) : World :=
  match ECPair w with
  | Some _ => w
  | None =>
      {| eccLib := true; ECPair := Some ECPairFactory; console := console w |}
  end.

(** Signing the inputs [indices] of a PSBT one after the other. *)
Definition signEach {L : BitcoinLib} {R : Randomness} (signer : Signer)
    (indices : list nat) (psbt : Psbt) : Outcome Psbt :=
  fold_left (fun acc i => Outcome_bind acc (fun p => signInput p i signer))
    indices (Return psbt).

(** The state after [console.error(label, e)]. *)
Definition logged {L : BitcoinLib} (w : World) (label : string) (e : Error)
    : World :=
  {| eccLib := eccLib w; ECPair := ECPair w;
     console := console w ++ [(label, e)] |}.

(** The requests under an API base, and two networks that answer them
    alike. *)
Definition under (base : string) (req : Request) : bool :=
  String.prefix (base ++ "/") (url req).

Definition agree_under (base : string) (fetch fetch' : Fetch) : Prop :=
  forall req, under base req = true -> fetch req = fetch' req.

(** The fields of the object [getFeeRates] returns, with the keys they are
    read from. *)
Definition fee_fields : list ((BitcoinIO.FeeRates -> JSON) * string) :=
  [(BitcoinIO.fastestFee, "fastestFee");
   (BitcoinIO.halfHourFee, "halfHourFee");
   (BitcoinIO.hourFee, "hourFee");
   (BitcoinIO.economyFee, "economyFee");
   (BitcoinIO.minimumFee, "minimumFee")].

(** A page of the stand-in: the user holds the test key, is logged in with
    an nsec, and both queries have answered. *)
Module TestPage.

Import TestLib TestPlatform SendBitcoinDialog.

Definition rates : FeeRates :=
  {| fastestFee := 20; halfHourFee := 10; hourFee := 5; economyFee := 2;
     minimumFee := 1 |}.

Definition dialog (amount : string) : Dialog :=
  {| user := Some {| pubkey := privateKeyHex |};
     hasNsecAccess := true;
     getPrivateKey := ret (Some privateKeyHex);
     network := Bitcoin.mainnet;
     recipient := toAddress;
     amount := amount;
     feeSpeed := halfHour;
     utxos := Some [utxo "aa" 100000];
     feeRates := Some rates |}.

(** An explorer that accepts every request and answers with [reply]. *)
Definition accepting (reply : string) (data : JSON) : Fetch :=
  fun _ => Return {| ok := true; text := Return reply; json := Return data |}.

Definition recommended : JSON :=
  JSON_object (fun key =>
    if (key =? "fastestFee")%string then Some (JSON_number 12)
    else if (key =? "hourFee")%string then Some (JSON_number 0)
    else None).

End TestPage.

(** * Proofs *)

Section MonadFacts.

Context {L : BitcoinLib} {R : Randomness}.

Lemma bind_Return_inv {A B} (m : M A) (k : A -> M B) w b w' :
  bind m k w = (Return b, w') ->
  exists a w1, m w = (Return a, w1) /\ k a w1 = (Return b, w').
Proof.
  unfold bind. destruct (m w) as [[a | e] w1]; intros H.
  - exists a, w1. split; [reflexivity | exact H].
  - discriminate H.
Qed.

Lemma bind_Return {A B} (m : M A) (k : A -> M B) w a w1 :
  m w = (Return a, w1) -> bind m k w = k a w1.
Proof. unfold bind. intros ->. reflexivity. Qed.

Lemma bind_Throw {A B} (m : M A) (k : A -> M B) w e w1 :
  m w = (Throw e, w1) -> bind m k w = (Throw e, w1).
Proof. unfold bind. intros ->. reflexivity. Qed.

Lemma lift_inv {A} (o : Outcome A) w r w' :
  lift o w = (r, w') -> o = r /\ w' = w.
Proof. unfold lift. intros H. inversion H. split; reflexivity. Qed.

Lemma ret_inv {A} (a : A) w r w' :
  ret a w = (r, w') -> r = Return a /\ w' = w.
Proof. unfold ret. intros H. inversion H. split; reflexivity. Qed.

Lemma Outcome_bind_Return_inv {A B} (o : Outcome A) (k : A -> Outcome B) b :
  Outcome_bind o k = Return b -> exists a, o = Return a /\ k a = Return b.
Proof.
  destruct o as [a | e]; simpl; intros H.
  - exists a. split; [reflexivity | exact H].
  - discriminate H.
Qed.

Lemma payments_p2tr_world internalPubkey network w r w' :
  payments_p2tr internalPubkey network w = (r, w') -> w' = w.
Proof.
  unfold payments_p2tr. destruct (eccLib w); intros H; inversion H; reflexivity.
Qed.

Lemma payments_p2tr_Return internalPubkey network w payment w' :
  payments_p2tr internalPubkey network w = (Return payment, w') ->
  p2tr internalPubkey network = Return payment /\ eccLib w = true /\ w' = w.
Proof.
  unfold payments_p2tr. destruct (eccLib w); intros H; inversion H.
  repeat split; reflexivity.
Qed.

Lemma payments_p2tr_started internalPubkey network w :
  eccLib w = true ->
  payments_p2tr internalPubkey network w = (p2tr internalPubkey network, w).
Proof. unfold payments_p2tr. intros ->. reflexivity. Qed.

Lemma addInput_Return psbt i psbt' :
  addInput psbt i = Return psbt' ->
  psbt_network psbt' = psbt_network psbt /\
  txInputs psbt' = (txInputs psbt ++ [i])%list /\
  txOutputs psbt' = txOutputs psbt.
Proof.
  unfold addInput. intros H.
  apply Outcome_bind_Return_inv in H. destruct H as [[] [_ H]].
  inversion H. simpl. repeat split; reflexivity.
Qed.

Lemma addOutput_Return psbt o psbt' :
  addOutput psbt o = Return psbt' ->
  psbt_network psbt' = psbt_network psbt /\
  txInputs psbt' = txInputs psbt /\
  txOutputs psbt' = (txOutputs psbt ++ [o])%list.
Proof.
  unfold addOutput. intros H.
  apply Outcome_bind_Return_inv in H. destruct H as [[] [_ H]].
  inversion H. simpl. repeat split; reflexivity.
Qed.

Lemma signInput_Return psbt i signer psbt' :
  signInput psbt i signer = Return psbt' ->
  txInputs psbt' = txInputs psbt /\ txOutputs psbt' = txOutputs psbt.
Proof.
  unfold signInput. intros H.
  apply Outcome_bind_Return_inv in H. destruct H as [s [_ H]].
  inversion H. simpl. split; reflexivity.
Qed.

Lemma finalizeAllInputs_Return psbt psbt' :
  finalizeAllInputs psbt = Return psbt' ->
  txInputs psbt' = txInputs psbt /\ txOutputs psbt' = txOutputs psbt.
Proof.
  unfold finalizeAllInputs. intros H.
  apply Outcome_bind_Return_inv in H. destruct H as [s [_ H]].
  inversion H. simpl. split; reflexivity.
Qed.

End MonadFacts.

(** ** The decimal conversions *)

Section Rounding.

Import Binary64.

Local Open Scope Q_scope.

Lemma pow2_pos e : 0 < pow2 e.
Proof. unfold pow2. apply Qpower_0_lt. reflexivity. Qed.

Lemma pow2_add a b : pow2 (a + b) == pow2 a * pow2 b.
Proof. unfold pow2. apply Qpower_plus. discriminate. Qed.

Lemma pow2_nonneg_Z e : (0 <= e)%Z -> pow2 e == inject_Z (2 ^ e).
Proof. intros H. unfold pow2. rewrite Zpower_Qpower by exact H. reflexivity. Qed.


Lemma pow2_le_mono a b : (a <= b)%Z -> pow2 a <= pow2 b.
Proof.
  intros H. replace b with (a + (b - a))%Z by lia.
  rewrite pow2_add.
  rewrite <- (Qmult_1_r (pow2 a)) at 1.
  apply Qmult_le_l; [apply pow2_pos |].
  rewrite pow2_nonneg_Z by lia.
  change 1 with (inject_Z 1). rewrite <- Zle_Qle.
  assert (0 < 2 ^ (b - a))%Z by (apply Z.pow_pos_nonneg; lia). lia.
Qed.

Lemma ilog2_lower a : 0 < a -> pow2 (ilog2 a) <= a.
Proof.
  intros Ha. unfold ilog2.
  destruct (Qle_bool (pow2 (Z.log2 (Qnum a) - Z.log2 (Z.pos (Qden a)))) a) eqn:E.
  - apply Qle_bool_iff. exact E.
  - destruct a as [n d]. simpl Qnum in *. simpl Qden in *. clear E.
    assert (Hn : (0 < n)%Z).
    { unfold Qlt in Ha. simpl in Ha. lia. }
    pose proof (Z.log2_spec n Hn) as [Hln _].
    pose proof (Z.log2_spec (Z.pos d) (Pos2Z.is_pos d)) as [_ Hld].
    pose proof (Z.log2_nonneg n) as Hln0.
    pose proof (Z.log2_nonneg (Z.pos d)) as Hld0.
    replace (Z.log2 n - Z.log2 (Z.pos d) - 1)%Z
      with (Z.log2 n - Z.succ (Z.log2 (Z.pos d)))%Z by lia.
    unfold pow2. rewrite Qpower_minus by discriminate.
    fold (pow2 (Z.log2 n)). fold (pow2 (Z.succ (Z.log2 (Z.pos d)))).
    rewrite !pow2_nonneg_Z by lia.
    assert (Hpos : (0 < 2 ^ Z.succ (Z.log2 (Z.pos d)))%Z)
      by (apply Z.pow_pos_nonneg; lia).
    apply Qle_shift_div_r.
    + change 0 with (inject_Z 0). rewrite <- Zlt_Qlt. exact Hpos.
    + generalize dependent (2 ^ Z.succ (Z.log2 (Z.pos d)))%Z.
      generalize dependent (2 ^ Z.log2 n)%Z.
      intros A HA P HP HP0.
      unfold Qle, Qmult, inject_Z. simpl.
      rewrite Pos.mul_1_r, !Z.mul_1_r. nia.
Qed.

Lemma round_half_even_error q :
  q - (1 # 2) <= inject_Z (round_half_even q) <= q + (1 # 2).
Proof.
  unfold round_half_even.
  pose proof (Qfloor_le q) as Hlo. pose proof (Qlt_floor q) as Hhi.
  rewrite inject_Z_plus in Hhi. change (inject_Z 1) with 1 in Hhi.
  destruct (q - inject_Z (Qfloor q) ?= 1 # 2) eqn:E.
  - apply Qeq_alt in E.
    destruct (Z.even (Qfloor q)).
    + split; lra.
    + rewrite inject_Z_plus. change (inject_Z 1) with 1. split; lra.
  - apply Qlt_alt in E. split; lra.
  - apply Qgt_alt in E. rewrite inject_Z_plus. change (inject_Z 1) with 1.
    split; lra.
Qed.

Lemma Qabs_pos_eq a : 0 < a -> Qabs a = a.
Proof.
  destruct a as [[| p | p] d]; intros H; try reflexivity;
    unfold Qlt in H; simpl in H; lia.
Qed.

Lemma Qabs_neg_eq a : a < 0 -> Qabs a = - a.
Proof.
  destruct a as [[| p | p] d]; intros H; try reflexivity;
    unfold Qlt in H; simpl in H; lia.
Qed.

Lemma round_pos_error a :
  0 < a -> pow2 emin <= a -> a - a * u <= round_pos a <= a + a * u.
Proof.
  intros Ha Hmin. unfold round_pos. rewrite Qred_correct.
  set (e := Z.max (ilog2 a) emin).
  assert (He : pow2 e <= a).
  { unfold e. destruct (Z.max_spec (ilog2 a) emin) as [[_ ->] | [_ ->]].
    - exact Hmin.
    - apply ilog2_lower. exact Ha. }
  set (ulp := pow2 (e - 52)).
  assert (Hulp : 0 < ulp) by apply pow2_pos.
  pose proof (round_half_even_error (a / ulp)) as [Hlo Hhi].
  set (m := inject_Z (round_half_even (a / ulp))) in *.
  assert (Hhalf : ulp * (1 # 2) == pow2 e * u).
  { unfold ulp, u. rewrite <- pow2_add.
    replace (e + -53)%Z with (e - 52 + -1)%Z by lia.
    rewrite pow2_add. reflexivity. }
  assert (Ha' : a == a / ulp * ulp) by (field; lra).
  assert (Hu : 0 < u) by apply pow2_pos.
  assert (H1 : (a / ulp - (1 # 2)) * ulp <= m * ulp)
    by (apply Qmult_le_compat_r; lra).
  assert (H2 : m * ulp <= (a / ulp + (1 # 2)) * ulp)
    by (apply Qmult_le_compat_r; lra).
  assert (H3 : pow2 e * u <= a * u)
    by (apply Qmult_le_compat_r; lra).
  split.
  - setoid_replace (a - a * u) with (a / ulp * ulp - a * u)
      by (rewrite <- Ha'; reflexivity).
    lra.
  - setoid_replace (a + a * u) with (a / ulp * ulp + a * u)
      by (rewrite <- Ha'; reflexivity).
    lra.
Qed.

Lemma fl_pos x : 0 < x -> fl x = round_pos x.
Proof.
  intros Hx. unfold fl.
  destruct (Qeq_bool x 0) eqn:E0.
  { apply Qeq_bool_iff in E0. lra. }
  destruct (Qle_bool 0 x) eqn:E1.
  - rewrite Qabs_pos_eq by exact Hx. reflexivity.
  - assert (Qle_bool 0 x = true) by (apply Qle_bool_iff; lra). congruence.
Qed.

Lemma fl_neg x : x < 0 -> fl x = - round_pos (- x).
Proof.
  intros Hx. unfold fl.
  destruct (Qeq_bool x 0) eqn:E0.
  { apply Qeq_bool_iff in E0. lra. }
  destruct (Qle_bool 0 x) eqn:E1.
  - apply Qle_bool_iff in E1. lra.
  - rewrite Qabs_neg_eq by exact Hx. reflexivity.
Qed.

Lemma fl_zero x : x == 0 -> fl x = 0.
Proof.
  intros Hx. unfold fl. apply Qeq_bool_iff in Hx. rewrite Hx. reflexivity.
Qed.

Lemma Qfloor_unique q z : inject_Z z <= q -> q < inject_Z z + 1 -> Qfloor q = z.
Proof.
  intros Hlo Hhi.
  pose proof (Qfloor_le q) as H1. pose proof (Qlt_floor q) as H2.
  rewrite inject_Z_plus in H2. change (inject_Z 1) with 1 in H2.
  assert (H3 : inject_Z (Qfloor q) < inject_Z z + 1) by lra.
  assert (H4 : inject_Z z < inject_Z (Qfloor q) + 1) by lra.
  change 1 with (inject_Z 1) in H3, H4.
  rewrite <- inject_Z_plus, <- Zlt_Qlt in H3, H4. lia.
Qed.

Lemma Math_round_unique x z :
  inject_Z z - (1 # 2) <= x -> x < inject_Z z + (1 # 2) -> Math_round x = z.
Proof.
  intros Hlo Hhi. unfold Math_round. apply Qfloor_unique; lra.
Qed.

Lemma ilog2_upper a : 0 < a -> a < pow2 (ilog2 a + 1).
Proof.
  intros Ha. unfold ilog2.
  destruct (Qle_bool (pow2 (Z.log2 (Qnum a) - Z.log2 (Z.pos (Qden a)))) a) eqn:E.
  - destruct a as [n d]. simpl Qnum in *. simpl Qden in *. clear E.
    assert (Hn : (0 < n)%Z).
    { unfold Qlt in Ha. simpl in Ha. lia. }
    pose proof (Z.log2_spec n Hn) as [_ Hln].
    pose proof (Z.log2_spec (Z.pos d) (Pos2Z.is_pos d)) as [Hld _].
    pose proof (Z.log2_nonneg n) as Hln0.
    pose proof (Z.log2_nonneg (Z.pos d)) as Hld0.
    replace (Z.log2 n - Z.log2 (Z.pos d) + 1)%Z
      with (Z.succ (Z.log2 n) - Z.log2 (Z.pos d))%Z by lia.
    unfold pow2. rewrite Qpower_minus by discriminate.
    fold (pow2 (Z.succ (Z.log2 n))). fold (pow2 (Z.log2 (Z.pos d))).
    rewrite !pow2_nonneg_Z by lia.
    assert (Hpos : (0 < 2 ^ Z.log2 (Z.pos d))%Z)
      by (apply Z.pow_pos_nonneg; lia).
    apply Qlt_shift_div_l.
    + change 0 with (inject_Z 0). rewrite <- Zlt_Qlt. exact Hpos.
    + generalize dependent (2 ^ Z.log2 (Z.pos d))%Z.
      generalize dependent (2 ^ Z.succ (Z.log2 n))%Z.
      intros A HA P HP HP0.
      unfold Qlt, Qmult, inject_Z. simpl.
      rewrite ?Pos.mul_1_r, ?Z.mul_1_r.
      assert (n * P <= n * Z.pos d)%Z by (apply Z.mul_le_mono_nonneg_l; lia).
      assert (n * Z.pos d < A * Z.pos d)%Z by (apply Z.mul_lt_mono_pos_r; lia).
      lia.
  - rewrite Z.sub_add.
    apply Qnot_le_lt. intros H. apply Qle_bool_iff in H. congruence.
Qed.

Lemma pow2_lt_inv a b : pow2 a < pow2 b -> (a < b)%Z.
Proof.
  intros H. destruct (Z_lt_le_dec a b) as [Hlt | Hle]; [exact Hlt |].
  apply pow2_le_mono in Hle. lra.
Qed.

Lemma round_half_even_Z q z : q == inject_Z z -> round_half_even q = z.
Proof.
  intros H. unfold round_half_even.
  rewrite (Qfloor_comp _ _ H), Qfloor_Z.
  assert (E : (q - inject_Z z ?= 1 # 2) = Lt).
  { apply (proj1 (Qlt_alt _ _)). rewrite H. lra. }
  rewrite E. reflexivity.
Qed.

(** A positive multiple of 2^k with less than 54 bits is its own rounding. *)
Lemma round_pos_exact a z k :
  a == inject_Z z * pow2 k -> (0 < z < 2 ^ 53)%Z -> (emin - 52 <= k)%Z ->
  round_pos a == a.
Proof.
  intros Ha Hz Hk.
  assert (Hpk : 0 < pow2 k) by apply pow2_pos.
  assert (Hz1 : 1 <= inject_Z z).
  { change 1 with (inject_Z 1). rewrite <- Zle_Qle. lia. }
  assert (Hz2 : inject_Z z < pow2 53).
  { rewrite pow2_nonneg_Z by lia. rewrite <- Zlt_Qlt. lia. }
  assert (Hpos : 0 < a) by (rewrite Ha; nra).
  unfold round_pos. rewrite Qred_correct.
  set (e := Z.max (ilog2 a) emin).
  assert (He : (e <= k + 52)%Z).
  { assert (Hi : (ilog2 a < 53 + k)%Z).
    { apply pow2_lt_inv. apply Qle_lt_trans with a.
      - apply ilog2_lower. exact Hpos.
      - rewrite Ha, pow2_add. apply Qmult_lt_compat_r; assumption. }
    unfold e. lia. }
  set (ulp := pow2 (e - 52)).
  assert (Hulp : 0 < ulp) by apply pow2_pos.
  assert (Hq : a / ulp == inject_Z (z * 2 ^ (k - (e - 52)))).
  { rewrite inject_Z_mult, <- pow2_nonneg_Z by lia.
    rewrite Ha. unfold ulp.
    replace k with ((k - (e - 52)) + (e - 52))%Z at 1 by lia.
    rewrite pow2_add. field. fold ulp. lra. }
  rewrite (round_half_even_Z Hq), <- Hq. field. lra.
Qed.

Lemma fl_exact x z k :
  x == inject_Z z * pow2 k -> (Z.abs z < 2 ^ 53)%Z -> (emin - 52 <= k)%Z ->
  fl x == x.
Proof.
  intros Hx Hz Hk.
  assert (Hpk : 0 < pow2 k) by apply pow2_pos.
  destruct (Z.lt_trichotomy z 0) as [Hneg | [Hzero | Hpos]].
  - assert (Hz1 : inject_Z z <= -1).
    { change (-1) with (inject_Z (-1)). rewrite <- Zle_Qle. lia. }
    assert (Hx0 : x < 0) by (rewrite Hx; nra).
    rewrite (fl_neg Hx0).
    rewrite (@round_pos_exact (- x) (- z) k); [ring | | lia | exact Hk].
    rewrite Hx, inject_Z_opp. ring.
  - subst z. rewrite fl_zero; [symmetry |]; rewrite Hx; ring.
  - assert (Hz1 : 1 <= inject_Z z).
    { change 1 with (inject_Z 1). rewrite <- Zle_Qle. lia. }
    assert (Hx0 : 0 < x) by (rewrite Hx; nra).
    rewrite (fl_pos Hx0).
    apply (@round_pos_exact x z k); [exact Hx | lia | exact Hk].
Qed.

(** Half-integers below 2^52 in magnitude are binary64 values. *)
Lemma fl_half x z : x == z # 2 -> (Z.abs z < 2 ^ 53)%Z -> fl x == x.
Proof.
  intros Hx Hz. apply (@fl_exact x z (-1)); [| exact Hz | unfold emin; lia].
  rewrite Hx. unfold Qeq, Qmult, inject_Z, pow2. simpl. lia.
Qed.

Lemma ilog2_unique a e :
  0 < a -> pow2 e <= a -> a < pow2 (e + 1) -> ilog2 a = e.
Proof.
  intros Ha Hlo Hhi.
  pose proof (ilog2_lower Ha) as Hlo'. pose proof (ilog2_upper Ha) as Hhi'.
  assert (H1 : (ilog2 a < e + 1)%Z) by (apply pow2_lt_inv; lra).
  assert (H2 : (e < ilog2 a + 1)%Z) by (apply pow2_lt_inv; lra).
  lia.
Qed.

Lemma round_half_even_comp q q' :
  q == q' -> round_half_even q = round_half_even q'.
Proof.
  intros H. unfold round_half_even.
  rewrite (Qfloor_comp _ _ H).
  assert (E : (q - inject_Z (Qfloor q') ?= 1 # 2)
              = (q' - inject_Z (Qfloor q') ?= 1 # 2))
    by (rewrite H; reflexivity).
  rewrite E. reflexivity.
Qed.

Lemma round_pos_comp a b : 0 < a -> a == b -> round_pos a = round_pos b.
Proof.
  intros Ha Hab. unfold round_pos.
  assert (Hb : 0 < b) by (rewrite <- Hab; exact Ha).
  assert (He : ilog2 a = ilog2 b).
  { apply ilog2_unique; [exact Ha | |]; rewrite Hab.
    - apply ilog2_lower. exact Hb.
    - apply ilog2_upper. exact Hb. }
  rewrite He.
  set (ulp := pow2 (Z.max (ilog2 b) emin - 52)).
  assert (Hq : a / ulp == b / ulp) by (rewrite Hab; reflexivity).
  rewrite (round_half_even_comp Hq). reflexivity.
Qed.

(** Rounding depends on the value only, not on the fraction that gives it. *)
Lemma fl_comp x y : x == y -> fl x = fl y.
Proof.
  intros Hxy.
  destruct (Qlt_le_dec 0 x) as [Hpos | Hle].
  - rewrite (fl_pos Hpos), fl_pos by (rewrite <- Hxy; exact Hpos).
    apply round_pos_comp; assumption.
  - destruct (Qlt_le_dec x 0) as [Hneg | Hge].
    + rewrite (fl_neg Hneg), fl_neg by (rewrite <- Hxy; exact Hneg).
      f_equal. apply round_pos_comp; [lra | rewrite Hxy; reflexivity].
    + rewrite (@fl_zero x), (@fl_zero y); [reflexivity | rewrite <- Hxy |]; lra.
Qed.

(** Below 2^k the rounding error is at most half a unit in the last place
    of that binade, 2^(k - 54). *)
Lemma round_pos_near a k :
  0 < a -> a < pow2 k -> (emin < k)%Z ->
  a - pow2 (k - 54) <= round_pos a <= a + pow2 (k - 54).
Proof.
  intros Ha Hk Hmin. unfold round_pos. rewrite Qred_correct.
  set (e := Z.max (ilog2 a) emin).
  assert (He : (e <= k - 1)%Z).
  { assert (Hi : (ilog2 a < k)%Z).
    { apply pow2_lt_inv. apply Qle_lt_trans with a; [| exact Hk].
      apply ilog2_lower. exact Ha. }
    unfold e. lia. }
  set (ulp := pow2 (e - 52)).
  assert (Hulp : 0 < ulp) by apply pow2_pos.
  pose proof (round_half_even_error (a / ulp)) as [Hlo Hhi].
  set (m := inject_Z (round_half_even (a / ulp))) in *.
  assert (Hhalf : ulp * (1 # 2) <= pow2 (k - 54)).
  { setoid_replace (ulp * (1 # 2)) with (pow2 (e - 53)).
    - apply pow2_le_mono. lia.
    - unfold ulp. replace (e - 53)%Z with (e - 52 + -1)%Z by lia.
      rewrite pow2_add. reflexivity. }
  assert (Ha' : a == a / ulp * ulp) by (field; lra).
  assert (H1 : (a / ulp - (1 # 2)) * ulp <= m * ulp)
    by (apply Qmult_le_compat_r; lra).
  assert (H2 : m * ulp <= (a / ulp + (1 # 2)) * ulp)
    by (apply Qmult_le_compat_r; lra).
  split.
  - setoid_replace (a - pow2 (k - 54)) with (a / ulp * ulp - pow2 (k - 54))
      by (rewrite <- Ha'; reflexivity).
    lra.
  - setoid_replace (a + pow2 (k - 54)) with (a / ulp * ulp + pow2 (k - 54))
      by (rewrite <- Ha'; reflexivity).
    lra.
Qed.

Lemma fl_near x k :
  - pow2 k < x -> x < pow2 k -> (emin < k)%Z ->
  x - pow2 (k - 54) <= fl x <= x + pow2 (k - 54).
Proof.
  intros Hlo Hhi Hmin.
  assert (Hp : 0 < pow2 (k - 54)) by apply pow2_pos.
  destruct (Qlt_le_dec 0 x) as [Hpos | Hle].
  - rewrite (fl_pos Hpos). apply round_pos_near; assumption.
  - destruct (Qlt_le_dec x 0) as [Hneg | Hge].
    + rewrite (fl_neg Hneg).
      destruct (@round_pos_near (- x) k) as [H1 H2]; [lra | lra | exact Hmin |].
      split; lra.
    + rewrite (@fl_zero x) by lra. split; lra.
Qed.

Lemma fl_nonneg x : 0 <= x -> 0 <= fl x.
Proof.
  intros Hx. destruct (Qlt_le_dec 0 x) as [Hpos | Hle].
  - rewrite (fl_pos Hpos). unfold round_pos. rewrite Qred_correct.
    set (ulp := pow2 (Z.max (ilog2 x) emin - 52)).
    assert (Hulp : 0 < ulp) by apply pow2_pos.
    pose proof (round_half_even_error (x / ulp)) as [Hlo _].
    assert (Hq : 0 <= x / ulp).
    { apply Qle_shift_div_l; [exact Hulp | lra]. }
    assert (Hm : (0 <= round_half_even (x / ulp))%Z).
    { assert (H1 : inject_Z (-1) < inject_Z (round_half_even (x / ulp))).
      { change (inject_Z (-1)) with (-1). lra. }
      rewrite <- Zlt_Qlt in H1. lia. }
    rewrite Zle_Qle in Hm. apply Qmult_le_0_compat; [exact Hm | lra].
  - rewrite (@fl_zero x) by lra. lra.
Qed.

(** An integer below 2^53 in magnitude is a binary64 value. *)
Lemma fl_Z z : (Z.abs z < 2 ^ 53)%Z -> fl (inject_Z z) == inject_Z z.
Proof.
  intros Hz. apply (@fl_exact (inject_Z z) z 0); [| exact Hz | unfold emin; lia].
  unfold pow2. simpl. ring.
Qed.

(** From 2^53 on the binary64 values are integers. *)
Lemma round_pos_integer a :
  pow2 53 <= a -> exists n : Z, round_pos a == inject_Z n.
Proof.
  intros Ha.
  assert (Hpos : 0 < a).
  { apply Qlt_le_trans with (pow2 53); [apply pow2_pos | exact Ha]. }
  unfold round_pos.
  assert (Hi : (53 <= ilog2 a)%Z).
  { assert (H : (53 < ilog2 a + 1)%Z).
    { apply pow2_lt_inv. apply Qle_lt_trans with a; [exact Ha |].
      apply ilog2_upper. exact Hpos. }
    lia. }
  set (e := Z.max (ilog2 a) emin).
  assert (He : (0 <= e - 52)%Z) by (unfold e; lia).
  exists (round_half_even (a / pow2 (e - 52)) * 2 ^ (e - 52))%Z.
  rewrite Qred_correct, inject_Z_mult, <- pow2_nonneg_Z by exact He.
  reflexivity.
Qed.

Lemma fl_integer z : exists n : Z, fl (inject_Z z) == inject_Z n.
Proof.
  destruct (Z_lt_le_dec (Z.abs z) (2 ^ 53)) as [Hs | Hb].
  - exists z. apply (@fl_Z z Hs).
  - assert (Hp : pow2 53 == inject_Z (2 ^ 53)) by (apply pow2_nonneg_Z; lia).
    destruct (Z_lt_le_dec z 0) as [Hneg | Hpos].
    + assert (Hx : inject_Z z < 0).
      { change 0 with (inject_Z 0). rewrite <- Zlt_Qlt. exact Hneg. }
      rewrite (fl_neg Hx).
      destruct (@round_pos_integer (- inject_Z z)) as [n Hn].
      { rewrite Hp, <- inject_Z_opp, <- Zle_Qle. lia. }
      exists (- n)%Z. rewrite Hn, inject_Z_opp. reflexivity.
    + assert (Hx : 0 < inject_Z z).
      { change 0 with (inject_Z 0). rewrite <- Zlt_Qlt.
        assert (0 < 2 ^ 53)%Z by lia. lia. }
      rewrite (fl_pos Hx).
      apply round_pos_integer.
      rewrite Hp, <- Zle_Qle. lia.
Qed.

(** The floor in [Int_add] and [Int_sub] loses nothing. *)
Lemma Int_add_integral a b :
  inject_Z (Int_add a b) == inject_Z a .+ inject_Z b.
Proof.
  unfold Int_add, Number_add.
  destruct (fl_integer (a + b)) as [n Hn].
  rewrite (@fl_comp (inject_Z a + inject_Z b) (inject_Z (a + b)))
    by (rewrite inject_Z_plus; reflexivity).
  rewrite (Qfloor_comp _ _ Hn), Qfloor_Z. symmetry. exact Hn.
Qed.

Lemma Int_sub_integral a b :
  inject_Z (Int_sub a b) == inject_Z a .- inject_Z b.
Proof.
  unfold Int_sub, Number_sub.
  destruct (fl_integer (a - b)) as [n Hn].
  rewrite (@fl_comp (inject_Z a - inject_Z b) (inject_Z (a - b)))
    by (unfold Z.sub; rewrite inject_Z_plus, inject_Z_opp; reflexivity).
  rewrite (Qfloor_comp _ _ Hn), Qfloor_Z. symmetry. exact Hn.
Qed.

(** Below 2^53 they are the exact sum and difference. *)
Lemma Int_add_exact a b : (Z.abs (a + b) < 2 ^ 53)%Z -> Int_add a b = (a + b)%Z.
Proof.
  intros H. unfold Int_add, Number_add.
  rewrite (@fl_comp (inject_Z a + inject_Z b) (inject_Z (a + b)))
    by (rewrite inject_Z_plus; reflexivity).
  rewrite (Qfloor_comp _ _ (@fl_Z _ H)). apply Qfloor_Z.
Qed.

Lemma Int_sub_exact a b : (Z.abs (a - b) < 2 ^ 53)%Z -> Int_sub a b = (a - b)%Z.
Proof.
  intros H. unfold Int_sub, Number_sub.
  rewrite (@fl_comp (inject_Z a - inject_Z b) (inject_Z (a - b)))
    by (unfold Z.sub; rewrite inject_Z_plus, inject_Z_opp; reflexivity).
  rewrite (Qfloor_comp _ _ (@fl_Z _ H)). apply Qfloor_Z.
Qed.

End Rounding.

Section Decimal.

Lemma digits_value_app a : forall b acc,
  digits_value (a ++ b) acc = digits_value b (digits_value a acc).
Proof. induction a as [| c a IH]; intros b acc; simpl; [reflexivity | apply IH]. Qed.

Lemma all_digits_app a : forall b,
  all_digits (a ++ b) = all_digits a && all_digits b.
Proof.
  induction a as [| c a IH]; intros b; simpl; [reflexivity |].
  rewrite IH, andb_assoc. reflexivity.
Qed.

Lemma length_app a : forall b,
  String.length (a ++ b) = (String.length a + String.length b)%nat.
Proof. induction a as [| c a IH]; intros b; simpl; [reflexivity | rewrite IH; reflexivity]. Qed.

Lemma is_digit_not_dot c : is_digit c = true -> Ascii.eqb c "." = false.
Proof.
  intros H. destruct (Ascii.eqb c ".") eqn:E; [| reflexivity].
  apply Ascii.eqb_eq in E. subst c. discriminate H.
Qed.

Lemma is_digit_not_minus c : is_digit c = true -> Ascii.eqb c "-" = false.
Proof.
  intros H. destruct (Ascii.eqb c "-") eqn:E; [| reflexivity].
  apply Ascii.eqb_eq in E. subst c. discriminate H.
Qed.

Lemma split_dot_app a : forall b,
  all_digits a = true -> split_dot (a ++ String "." b) = (a, Some b).
Proof.
  induction a as [| c a IH]; intros b H; simpl in *.
  - reflexivity.
  - apply andb_prop in H. destruct H as [Hc Ha].
    rewrite (@is_digit_not_dot c Hc), (IH b Ha). reflexivity.
Qed.

Lemma digits_value_acc d : forall acc : positive,
  digits_value (NilEmpty.string_of_uint d) (Z.pos acc)
  = Z.pos (Pos.of_uint_acc d acc).
Proof.
  induction d; intros acc;
    cbn [NilEmpty.string_of_uint digits_value Pos.of_uint_acc];
    try reflexivity; rewrite <- IHd; f_equal;
    rewrite ?Pos2Z.inj_add, Pos2Z.inj_mul;
    match goal with
    | |- context [Z.of_N (N_of_ascii ?c) - 48] =>
        let v := eval vm_compute in (Z.of_N (N_of_ascii c) - 48) in
        change (Z.of_N (N_of_ascii c) - 48) with v
    end; lia.
Qed.

Lemma digits_value_of_uint d :
  digits_value (NilEmpty.string_of_uint d) 0 = Z.of_N (Pos.of_uint d).
Proof.
  induction d; cbn [NilEmpty.string_of_uint digits_value Pos.of_uint];
    try reflexivity; try exact IHd;
    rewrite N2Z.inj_pos, <- digits_value_acc; reflexivity.
Qed.

Lemma all_digits_of_uint d : all_digits (NilEmpty.string_of_uint d) = true.
Proof. induction d; simpl; try reflexivity; exact IHd. Qed.

Lemma digits_value_digits n : 0 <= n -> digits_value (digits n) 0 = n.
Proof.
  intros H. unfold digits. rewrite digits_value_of_uint.
  change (Pos.of_uint (N.to_uint (Z.to_N n))) with (N.of_uint (N.to_uint (Z.to_N n))).
  rewrite DecimalN.Unsigned.of_to. lia.
Qed.

Lemma all_digits_zeros k : all_digits (zeros k) = true.
Proof. induction k; simpl; [reflexivity | exact IHk]. Qed.

Lemma digits_value_zeros k : digits_value (zeros k) 0 = 0.
Proof. induction k; simpl; [reflexivity | exact IHk]. Qed.

Lemma length_zeros k : String.length (zeros k) = k.
Proof. induction k; simpl; [reflexivity | rewrite IHk; reflexivity]. Qed.

Lemma substring_0_length s : substring 0 (String.length s) s = s.
Proof. induction s as [| c s IH]; simpl; [reflexivity | rewrite IH; reflexivity]. Qed.

Lemma substring_split s : forall j,
  (j <= String.length s)%nat ->
  substring 0 j s ++ substring j (String.length s - j) s = s.
Proof.
  induction s as [| c s IH]; intros j Hj; simpl in Hj.
  - assert (j = 0)%nat by lia. subst j. reflexivity.
  - destruct j as [| j].
    + simpl. rewrite substring_0_length. reflexivity.
    + simpl. rewrite IH by lia. reflexivity.
Qed.

Lemma length_substring_0 s : forall j,
  (j <= String.length s)%nat -> String.length (substring 0 j s) = j.
Proof.
  induction s as [| c s IH]; intros j Hj; simpl in Hj.
  - assert (j = 0)%nat by lia. subst j. reflexivity.
  - destruct j as [| j]; simpl; [reflexivity |]. rewrite IH by lia. reflexivity.
Qed.

Lemma fixed_digits_8 n :
  0 <= n ->
  exists a b,
    fixed_digits n 8 = a ++ String "." b /\
    all_digits a = true /\ all_digits b = true /\
    nonempty a = true /\ String.length b = 8%nat /\
    digits_value (a ++ b) 0 = n.
Proof.
  intros Hn. unfold fixed_digits.
  set (m0 := if n =? 0 then "0" else digits n).
  assert (Hd0 : all_digits m0 = true).
  { unfold m0. destruct (n =? 0); [reflexivity | apply all_digits_of_uint]. }
  assert (Hv0 : digits_value m0 0 = n).
  { unfold m0. destruct (n =? 0) eqn:E.
    - apply Z.eqb_eq in E. subst n. reflexivity.
    - apply digits_value_digits. exact Hn. }
  cbn [Nat.eqb].
  set (m := if (String.length m0 <=? 8)%nat
            then zeros (8 + 1 - String.length m0) ++ m0 else m0).
  assert (Hd : all_digits m = true).
  { unfold m. destruct (String.length m0 <=? 8)%nat; [| exact Hd0].
    rewrite all_digits_app, all_digits_zeros, Hd0. reflexivity. }
  assert (Hv : digits_value m 0 = n).
  { unfold m. destruct (String.length m0 <=? 8)%nat; [| exact Hv0].
    rewrite digits_value_app, digits_value_zeros. exact Hv0. }
  assert (Hl : (9 <= String.length m)%nat).
  { unfold m. destruct (String.length m0 <=? 8)%nat eqn:E.
    - apply Nat.leb_le in E. rewrite length_app, length_zeros. lia.
    - apply Nat.leb_gt in E. lia. }
  clearbody m. clear m0 Hd0 Hv0.
  set (j := (String.length m - 8)%nat).
  assert (Hj : (j <= String.length m)%nat) by (unfold j; lia).
  replace (substring j 8 m) with (substring j (String.length m - j) m)
    by (f_equal; unfold j; lia).
  pose proof (@substring_split m j Hj) as Hsplit.
  pose proof (@length_substring_0 m j Hj) as Hla.
  set (a := substring 0 j m) in *.
  set (b := substring j (String.length m - j) m) in *.
  exists a, b.
  assert (Hab : all_digits a && all_digits b = true)
    by (rewrite <- all_digits_app, Hsplit; exact Hd).
  apply andb_prop in Hab. destruct Hab as [Ha Hb].
  assert (Hlb : String.length b = 8%nat).
  { assert (H := length_app a b). rewrite Hsplit, Hla in H. lia. }
  repeat split; try assumption.
  - destruct a; [simpl in Hla; unfold j in Hla; lia | reflexivity].
  - rewrite Hsplit. exact Hv.
Qed.

Lemma unsigned_value_fixed_digits n :
  0 <= n ->
  unsigned_value (fixed_digits n 8) = Some (n # 100000000) /\
  exists c r, fixed_digits n 8 = String c r /\ is_digit c = true.
Proof.
  intros Hn.
  destruct (@fixed_digits_8 n Hn) as (a & b & -> & Ha & Hb & Hna & Hlb & Hv).
  split.
  - unfold unsigned_value. rewrite (@split_dot_app a b Ha).
    rewrite Ha, Hb, Hna. simpl andb.
    assert (Hnb : nonempty b = true) by (destruct b; [discriminate Hlb | reflexivity]).
    rewrite Hnb, Hv, Hlb. reflexivity.
  - destruct a as [| c a]; [discriminate Hna |].
    exists c, (a ++ String "." b). split; [reflexivity |].
    simpl in Ha. apply andb_prop in Ha. tauto.
Qed.

Lemma decimal_value_fixed_digits s :
  exists v,
    decimal_value ((if s <? 0 then "-" else "") ++ fixed_digits (Z.abs s) 8)
    = Some v /\ (v == s # 100000000)%Q.
Proof.
  destruct (@unsigned_value_fixed_digits (Z.abs s) (Z.abs_nonneg s))
    as (Hu & c & r & Hc & Hd).
  destruct (s <? 0) eqn:E.
  - apply Z.ltb_lt in E.
    exists (- (Z.abs s # 100000000))%Q. split.
    + change ("-" ++ fixed_digits (Z.abs s) 8)
        with (String "-" (fixed_digits (Z.abs s) 8)).
      unfold decimal_value. rewrite Ascii.eqb_refl, Hu. reflexivity.
    + unfold Qeq, Qopp. simpl. lia.
  - apply Z.ltb_ge in E.
    exists (Z.abs s # 100000000)%Q. split.
    + change ("" ++ fixed_digits (Z.abs s) 8) with (fixed_digits (Z.abs s) 8).
      unfold decimal_value. rewrite Hc, (@is_digit_not_minus c Hd), <- Hc.
      exact Hu.
    + unfold Qeq. simpl. lia.
Qed.

End Decimal.

Section Conversions.

Import Binary64.

Local Open Scope Q_scope.

Lemma Qmake_1e8 s : s # 100000000 == inject_Z s * (1 # 100000000).
Proof. unfold Qeq, Qmult, inject_Z. simpl. lia. Qed.

Lemma pow2_25 : pow2 25 = 33554432.
Proof. vm_compute. reflexivity. Qed.

Lemma pow2_52 : pow2 52 = 4503599627370496.
Proof. vm_compute. reflexivity. Qed.

Lemma pow2_m29 : pow2 (25 - 54) = 1 # 536870912.
Proof. vm_compute. reflexivity. Qed.

Lemma pow2_m2 : pow2 (52 - 54) = 1 # 4.
Proof. vm_compute. reflexivity. Qed.

Lemma sats_bound s :
  (Z.abs s < 2 ^ 25 * 10 ^ 8)%Z ->
  - (3355443199999999) <= inject_Z s <= 3355443199999999.
Proof.
  intros Hs. change (2 ^ 25 * 10 ^ 8)%Z with 3355443200000000%Z in Hs.
  change (- (3355443199999999)) with (inject_Z (-3355443199999999)).
  change 3355443199999999 with (inject_Z 3355443199999999).
  rewrite <- !Zle_Qle. lia.
Qed.

Lemma btcToSats_fl s :
  (Z.abs s < 2 ^ 25 * 10 ^ 8)%Z ->
  Bitcoin.btcToSats (fl (s # 100000000)) = s.
Proof.
  intros Hs. unfold Bitcoin.btcToSats, Number_mul.
  pose proof (sats_bound s Hs) as Hb.
  pose proof (Qmake_1e8 s) as Hd.
  destruct (@fl_near (s # 100000000) 25) as [Hlo1 Hhi1];
    [rewrite pow2_25, Hd; lra | rewrite pow2_25, Hd; lra | unfold emin; lia |].
  rewrite pow2_m29 in Hlo1, Hhi1.
  set (x1 := fl (s # 100000000)) in *.
  destruct (@fl_near (x1 * 100000000) 52) as [Hlo2 Hhi2];
    [rewrite pow2_52; lra | rewrite pow2_52; lra | unfold emin; lia |].
  rewrite pow2_m2 in Hlo2, Hhi2.
  apply Math_round_unique; lra.
Qed.

Lemma satsToBTC_fl s :
  (Z.abs s < 2 ^ 25 * 10 ^ 8)%Z ->
  Bitcoin.satsToBTC (inject_Z s)
  = Some ((if (s <? 0)%Z then "-" else "") ++ fixed_digits (Z.abs s) 8)%string.
Proof.
  intros Hs. unfold Bitcoin.satsToBTC, Number_div, toFixed.
  pose proof (sats_bound s Hs) as Hb.
  assert (Hd : inject_Z s / 100000000 == inject_Z s * (1 # 100000000))
    by reflexivity.
  change (inject_Z (10 ^ Z.of_nat 8)) with 100000000.
  change (inject_Z (10 ^ 21)) with 1000000000000000000000.
  destruct (@fl_near (inject_Z s / 100000000) 25) as [Hlo Hhi];
    [rewrite pow2_25, Hd; lra | rewrite pow2_25, Hd; lra | unfold emin; lia |].
  rewrite pow2_m29 in Hlo, Hhi.
  set (x := fl (inject_Z s / 100000000)) in *.
  set (y := inject_Z s / 100000000) in *.
  destruct (Z.lt_trichotomy s 0) as [Hneg | [Hzero | Hpos]].
  - assert (Hs1 : inject_Z s <= -1).
    { change (-1) with (inject_Z (-1)). rewrite <- Zle_Qle. lia. }
    assert (Hx : x < 0) by lra.
    rewrite (@Qabs_neg_eq x Hx).
    destruct (Qle_bool 0 x) eqn:E1; [apply Qle_bool_iff in E1; lra |].
    destruct (Qle_bool 1000000000000000000000 (- x)) eqn:E2;
      [apply Qle_bool_iff in E2; lra |].
    replace (s <? 0)%Z with true by (symmetry; apply Z.ltb_lt; exact Hneg).
    rewrite (@Qfloor_unique _ (Z.abs s)); [reflexivity | |];
      rewrite Z.abs_neq by lia; rewrite inject_Z_opp; lra.
  - subst s. reflexivity.
  - assert (Hs1 : 1 <= inject_Z s).
    { change 1 with (inject_Z 1). rewrite <- Zle_Qle. lia. }
    assert (Hx : 0 < x) by lra.
    rewrite (@Qabs_pos_eq x Hx).
    destruct (Qle_bool 0 x) eqn:E1;
      [| assert (Qle_bool 0 x = true) by (apply Qle_bool_iff; lra); congruence].
    destruct (Qle_bool 1000000000000000000000 x) eqn:E2;
      [apply Qle_bool_iff in E2; lra |].
    replace (s <? 0)%Z with false by (symmetry; apply Z.ltb_ge; lia).
    rewrite (@Qfloor_unique _ (Z.abs s)); [reflexivity | |];
      rewrite Z.abs_eq by lia; lra.
Qed.

(** C9, amended.  For every amount d with at most 8 decimal places and of
    magnitude below 2^25 = 33,554,432 BTC (satoshi value s = d * 10^8),
    [btcToSats] applied to the number the decimal denotes returns s, and
    [satsToBTC] of that returns a numeral that denotes d exactly.  Both
    modules define the two conversions alike. *)
Theorem btcToSats_satsToBTC_round_trip d s :
  d == s # 100000000 ->
  (Z.abs s < 2 ^ 25 * 10 ^ 8)%Z ->
  Bitcoin.btcToSats (fl d) = s /\
  (exists str v,
      Bitcoin.satsToBTC (inject_Z (Bitcoin.btcToSats (fl d))) = Some str /\
      decimal_value str = Some v /\
      v == d) /\
  BitcoinMainnet.btcToSats (fl d) = Bitcoin.btcToSats (fl d) /\
  BitcoinMainnet.satsToBTC (inject_Z s) = Bitcoin.satsToBTC (inject_Z s).
Proof.
  intros Hd Hs. rewrite (fl_comp Hd).
  split; [exact (@btcToSats_fl s Hs) | split; [| split; reflexivity]].
  rewrite (@btcToSats_fl s Hs).
  destruct (decimal_value_fixed_digits s) as (v & Hv & Heq).
  eexists. exists v. split; [apply satsToBTC_fl; exact Hs |].
  split; [exact Hv | rewrite Hd; exact Heq].
Qed.

End Conversions.

(** ** The builder of the network-parameterised module *)

Tactic Notation "bind_inv" hyp(H) "as" ident(a) ident(w) ident(E) :=
  apply bind_Return_inv in H; destruct H as (a & w & E & H).

Tactic Notation "lift_inv" hyp(H) :=
  let Hw := fresh "Hw" in
  apply lift_inv in H; destruct H as [H Hw]; subst.

Section BuilderFacts.

Context {L : BitcoinLib} {R : Randomness}.

Lemma addInputs_world internalPubkey btcNetwork utxos :
  forall psbt total w r w',
    Bitcoin.addInputs internalPubkey btcNetwork utxos psbt total w = (r, w') ->
    w' = w.
Proof.
  induction utxos as [| utxo rest IH]; intros psbt total w r w' H; simpl in H.
  - apply ret_inv in H. tauto.
  - unfold bind at 1 in H.
    destruct (payments_p2tr internalPubkey btcNetwork w) as [[payment | e] w1] eqn:E1.
    + apply payments_p2tr_world in E1. subst w1.
      unfold bind at 1 in H. unfold lift at 1 in H.
      destruct (addInput psbt _) as [psbt1 | e].
      * eapply IH. exact H.
      * inversion H. reflexivity.
    + apply payments_p2tr_world in E1. inversion H. subst. reflexivity.
Qed.

Lemma addInputs_Return internalPubkey btcNetwork utxos :
  forall psbt total w psbt' total' w',
    Bitcoin.addInputs internalPubkey btcNetwork utxos psbt total w
      = (Return (psbt', total'), w') ->
    total' = fold_left (fun sum utxo => Int_add sum (value utxo)) utxos total /\
    txOutputs psbt' = txOutputs psbt /\
    map witnessUtxo_value (txInputs psbt')
      = (map witnessUtxo_value (txInputs psbt) ++ map value utxos)%list.
Proof.
  induction utxos as [| utxo rest IH]; intros psbt total w psbt' total' w' H;
    simpl in H.
  - apply ret_inv in H. destruct H as [H _]. inversion H. subst.
    simpl. rewrite app_nil_r. repeat split; reflexivity.
  - bind_inv H as payment w1 E1. bind_inv H as psbt1 w2 E2. lift_inv E2.
    apply addInput_Return in E2. destruct E2 as (_ & Hin & Hout).
    apply IH in H. destruct H as (Ht & Ho & Hv).
    split; [| split].
    + rewrite Ht. reflexivity.
    + rewrite Ho. exact Hout.
    + rewrite Hv, Hin, map_app. simpl. rewrite <- app_assoc. reflexivity.
Qed.

Lemma sum_values_nonneg utxos :
  Forall (fun utxo => 0 <= value utxo) utxos -> 0 <= sum_values utxos.
Proof.
  induction 1 as [| utxo rest Hv _ IH]; unfold sum_values in *; simpl; lia.
Qed.

(** Values that are not negative and add up to less than 2^53 are added up
    without rounding. *)
Lemma rounded_fold_exact utxos :
  Forall (fun utxo => 0 <= value utxo) utxos ->
  forall acc,
    0 <= acc ->
    acc + sum_values utxos < 2 ^ 53 ->
    fold_left (fun sum utxo => Int_add sum (value utxo)) utxos acc
    = acc + sum_values utxos.
Proof.
  induction 1 as [| utxo rest Hv Hrest IH]; intros acc Hacc Hb; simpl.
  - unfold sum_values. simpl. lia.
  - pose proof (sum_values_nonneg Hrest) as Hs.
    assert (Hsum : sum_values (utxo :: rest) = value utxo + sum_values rest)
      by reflexivity.
    rewrite Hsum in *.
    rewrite Int_add_exact by lia.
    rewrite IH by lia. lia.
Qed.

Lemma rounded_sum_exact utxos :
  Forall (fun utxo => 0 <= value utxo) utxos ->
  sum_values utxos < 2 ^ 53 ->
  rounded_sum utxos = sum_values utxos.
Proof.
  intros Hv Hb. unfold rounded_sum.
  rewrite rounded_fold_exact by (assumption || lia). lia.
Qed.

Lemma estimatedFee_nonneg utxos feeRate :
  (0 <= feeRate)%Q -> 0 <= Bitcoin.estimatedFee utxos feeRate.
Proof.
  intros Hr. unfold Bitcoin.estimatedFee, Math_ceil, Number_mul.
  assert (Hs : (0 <= Bitcoin.estimatedSize utxos)%Q).
  { unfold Bitcoin.estimatedSize, Number_add, Number_mul.
    assert (Hn : (0 <= inject_Z (Z.of_nat (List.length utxos)))%Q).
    { change 0%Q with (inject_Z 0). rewrite <- Zle_Qle. lia. }
    assert (H1 : (0 <= Binary64.fl
                        (inject_Z (Z.of_nat (List.length utxos)) * 57.5))%Q).
    { apply fl_nonneg. apply Qmult_le_0_compat; [exact Hn | discriminate]. }
    assert (H2 : (0 <= Binary64.fl (2 * 43))%Q) by (vm_compute; discriminate).
    apply fl_nonneg.
    assert (H3 : (0 <= Binary64.fl
                        (Binary64.fl
                           (inject_Z (Z.of_nat (List.length utxos)) * 57.5)
                         + Binary64.fl (2 * 43)))%Q)
      by (apply fl_nonneg; lra).
    assert (H4 : (0 <= 10.5)%Q) by discriminate.
    lra. }
  assert (Hx : (0 <= Binary64.fl (Bitcoin.estimatedSize utxos * feeRate))%Q)
    by (apply fl_nonneg; apply Qmult_le_0_compat; assumption).
  pose proof (Qle_ceiling (Binary64.fl (Bitcoin.estimatedSize utxos * feeRate)))
    as Hc.
  assert (H0 : (inject_Z 0 <= inject_Z
                  (Qceiling (Binary64.fl
                               (Bitcoin.estimatedSize utxos * feeRate))))%Q).
  { change (inject_Z 0) with 0%Q. lra. }
  rewrite <- Zle_Qle in H0. exact H0.
Qed.

(** The builder's arithmetic within the exact range. *)
Lemma exact_range_arith utxos amountSats feeRate :
  exact_range utxos amountSats feeRate ->
  0 <= sum_values utxos /\
  0 <= Bitcoin.estimatedFee utxos feeRate /\
  rounded_sum utxos = sum_values utxos /\
  Int_sub (Int_sub (sum_values utxos) amountSats)
    (Bitcoin.estimatedFee utxos feeRate)
  = sum_values utxos - amountSats - Bitcoin.estimatedFee utxos feeRate /\
  Int_add amountSats (Bitcoin.estimatedFee utxos feeRate)
  = amountSats + Bitcoin.estimatedFee utxos feeRate.
Proof.
  intros (Hv & Hs & Ha & Hr & Hb).
  pose proof (sum_values_nonneg Hv) as Hs0.
  pose proof (estimatedFee_nonneg utxos Hr) as Hf.
  split; [exact Hs0 | split; [exact Hf |]].
  split; [apply rounded_sum_exact; assumption |].
  split.
  - rewrite (@Int_sub_exact (sum_values utxos) amountSats) by lia.
    apply Int_sub_exact. lia.
  - apply Int_add_exact. lia.
Qed.

Lemma signInputs_Return tweakedSigner count :
  forall psbt i psbt',
    Bitcoin.signInputs psbt i count tweakedSigner = Return psbt' ->
    txInputs psbt' = txInputs psbt /\ txOutputs psbt' = txOutputs psbt.
Proof.
  induction count as [| count IH]; intros psbt i psbt' H; simpl in H.
  - inversion H. split; reflexivity.
  - apply Outcome_bind_Return_inv in H. destruct H as (psbt1 & H1 & H).
    apply signInput_Return in H1. apply IH in H.
    destruct H1 as [Hi1 Ho1]. destruct H as [Hi Ho].
    split; congruence.
Qed.

(** What the first part leaves behind when it returns. *)
Lemma createBitcoinTransaction_inputs_Return
    privateKeyHex utxos network w f w' :
  Bitcoin.createBitcoinTransaction_inputs privateKeyHex utxos network w
    = (Return f, w') ->
  internalPubkey f = Buffer_slice (publicKey (keyPair f)) 1 33 /\
  (exists payment,
      p2tr (internalPubkey f)
        (Bitcoin.getNetwork (Bitcoin.default_mainnet network)) = Return payment /\
      address payment = Some (changeAddress f)) /\
  changeAddress f <> "" /\
  totalInput f = rounded_sum utxos /\
  txOutputs (funded f) = [] /\
  map witnessUtxo_value (txInputs (funded f)) = map value utxos.
Proof.
  unfold Bitcoin.createBitcoinTransaction_inputs. intros H.
  bind_inv H as api w1 E1. bind_inv H as kp w2 E2. lift_inv E2.
  bind_inv H as payment w3 E3.
  apply payments_p2tr_Return in E3. destruct E3 as (Hp & _ & ->).
  destruct (address payment) as [addr |] eqn:Ha; [| discriminate H].
  destruct (addr =? "")%string eqn:Hne; [discriminate H |].
  bind_inv H as r w4 E4. destruct r as [psbt1 total].
  apply addInputs_Return in E4. simpl in E4. destruct E4 as (Ht & Ho & Hv).
  apply ret_inv in H. destruct H as [H _]. inversion H. subst f. simpl.
  repeat split; try assumption; try reflexivity.
  - exists payment. split; assumption.
  - intros ->. discriminate Hne.
Qed.

(** The second part either reports insufficient funds or adds the outputs. *)
Lemma createBitcoinTransaction_outputs_Return
    toAddress amountSats utxos feeRate f w draft w' :
  Bitcoin.createBitcoinTransaction_outputs toAddress amountSats utxos feeRate f w
    = (Return draft, w') ->
  w' = w /\
  funding draft = f /\
  change draft
  = Int_sub (Int_sub (totalInput f) amountSats)
      (Bitcoin.estimatedFee utxos feeRate) /\
  0 <= change draft /\
  txInputs (psbt draft) = txInputs (funded f) /\
  txOutputs (psbt draft)
    = (txOutputs (funded f)
       ++ {| out_address := toAddress; out_value := amountSats |}
          :: (if Bitcoin.dustLimit <? change draft
              then [{| out_address := changeAddress f;
                       out_value := change draft |}]
              else []))%list.
Proof.
  unfold Bitcoin.createBitcoinTransaction_outputs. intros H.
  set (c := Int_sub (Int_sub (totalInput f) amountSats)
              (Bitcoin.estimatedFee utxos feeRate)) in *.
  destruct (c <? 0) eqn:Hneg; [discriminate H |].
  apply Z.ltb_ge in Hneg.
  bind_inv H as psbt2 w5 E5. lift_inv E5. apply addOutput_Return in E5.
  destruct E5 as (_ & Hin1 & Hout1).
  bind_inv H as psbt3 w6 E6.
  apply ret_inv in H. destruct H as [H ->]. inversion H. subst draft.
  simpl. clear H.
  destruct (Bitcoin.dustLimit <? c).
  - lift_inv E6. apply addOutput_Return in E6.
    destruct E6 as (_ & Hin2 & Hout2).
    repeat split; try assumption; try reflexivity.
    + congruence.
    + rewrite Hout2, Hout1, <- app_assoc. reflexivity.
  - apply ret_inv in E6. destruct E6 as [E6 ->]. inversion E6. subst.
    repeat split; try assumption; reflexivity.
Qed.

Lemma createBitcoinTransaction_outputs_insufficient
    toAddress amountSats utxos feeRate f w :
  Int_sub (Int_sub (totalInput f) amountSats)
    (Bitcoin.estimatedFee utxos feeRate) < 0 ->
  Bitcoin.createBitcoinTransaction_outputs toAddress amountSats utxos feeRate f w
    = (Throw (InsufficientFunds
                (Int_add amountSats (Bitcoin.estimatedFee utxos feeRate))
                (totalInput f)), w).
Proof.
  intros Hlt. unfold Bitcoin.createBitcoinTransaction_outputs.
  apply Z.ltb_lt in Hlt. rewrite Hlt. reflexivity.
Qed.

(** The third part returns the estimated fee and the serialisation of a
    transaction extracted from a PSBT with the draft's inputs and outputs. *)
Lemma createBitcoinTransaction_sign_Return utxos feeRate draft w result w' :
  Bitcoin.createBitcoinTransaction_sign utxos feeRate draft w
    = (Return result, w') ->
  w' = w /\
  fee result = Bitcoin.estimatedFee utxos feeRate /\
  exists signed tx,
    txInputs signed = txInputs (psbt draft) /\
    txOutputs signed = txOutputs (psbt draft) /\
    extractTransaction signed = Return tx /\
    txHex result = toHex tx.
Proof.
  unfold Bitcoin.createBitcoinTransaction_sign. intros H.
  bind_inv H as signer w2 E2. lift_inv E2.
  bind_inv H as psbt1 w3 E3. lift_inv E3.
  bind_inv H as psbt2 w4 E4. lift_inv E4.
  bind_inv H as tx w5 E5. lift_inv E5.
  apply ret_inv in H. destruct H as [H ->]. inversion H. subst result.
  simpl. split; [reflexivity | split; [reflexivity |]].
  exists psbt2, tx.
  apply signInputs_Return in E3. apply finalizeAllInputs_Return in E4.
  destruct E3 as [Hi1 Ho1]. destruct E4 as [Hi2 Ho2].
  repeat split; try assumption; try reflexivity; congruence.
Qed.

(** A returned result went through the three parts. *)
Lemma createBitcoinTransaction_Return
    privateKeyHex toAddress amountSats utxos feeRate network w result w' :
  Bitcoin.createBitcoinTransaction privateKeyHex toAddress amountSats
    utxos feeRate network w = (Return result, w') ->
  exists f draft,
    Bitcoin.createBitcoinTransaction_inputs privateKeyHex utxos network w
      = (Return f, w') /\
    Bitcoin.createBitcoinTransaction_outputs toAddress amountSats utxos feeRate
      f w' = (Return draft, w') /\
    Bitcoin.createBitcoinTransaction_sign utxos feeRate draft w'
      = (Return result, w').
Proof.
  unfold Bitcoin.createBitcoinTransaction. intros H.
  bind_inv H as f w1 E1. bind_inv H as draft w2 E2.
  pose proof (createBitcoinTransaction_outputs_Return _ _ _ _ _ _ E2) as (-> & _).
  pose proof (createBitcoinTransaction_sign_Return _ _ _ _ H) as (-> & _).
  exists f, draft. repeat split; assumption.
Qed.

(** The key pair of a build comes from the private key, through the
    [ECPair] the call leaves behind. *)
Lemma createBitcoinTransaction_inputs_keyPair
    privateKeyHex utxos network w f w' :
  Bitcoin.createBitcoinTransaction_inputs privateKeyHex utxos network w
    = (Return f, w') ->
  exists api,
    ECPair w' = Some api /\
    api_fromPrivateKey api (Buffer_from_hex privateKeyHex)
    = Return (keyPair f).
Proof.
  unfold Bitcoin.createBitcoinTransaction_inputs. intros H.
  bind_inv H as api w1 E1. bind_inv H as kp w2 E2. lift_inv E2.
  bind_inv H as payment w3 E3.
  apply payments_p2tr_world in E3. subst w3.
  destruct (address payment) as [addr |]; [| discriminate H].
  destruct (addr =? "")%string; [discriminate H |].
  bind_inv H as r w4 E4. destruct r as [psbt1 total].
  apply addInputs_world in E4. subst w4.
  apply ret_inv in H. destruct H as [H ->]. inversion H. subst f. simpl.
  exists api. split; [| exact E2].
  unfold Bitcoin.getECPair in E1.
  destruct (ECPair w) as [api0 |] eqn:Ew.
  - apply ret_inv in E1. destruct E1 as [E1 ->]. inversion E1. subst api0.
    exact Ew.
  - inversion E1. reflexivity.
Qed.

(** What a returned result consists of: the fee is the estimate, and the
    transaction comes from a PSBT with the destination output and, when the
    change the code computes exceeds the dust limit, the change output. *)
Lemma createBitcoinTransaction_outcome
    privateKeyHex toAddress amountSats utxos feeRate network w result w' :
  Bitcoin.createBitcoinTransaction privateKeyHex toAddress amountSats
    utxos feeRate network w = (Return result, w') ->
  exists f signed tx,
    Bitcoin.createBitcoinTransaction_inputs privateKeyHex utxos network w
      = (Return f, w') /\
    fee result = Bitcoin.estimatedFee utxos feeRate /\
    0 <= Int_sub (Int_sub (rounded_sum utxos) amountSats)
           (Bitcoin.estimatedFee utxos feeRate) /\
    extractTransaction signed = Return tx /\
    txHex result = toHex tx /\
    txOutputs signed
    = {| out_address := toAddress; out_value := amountSats |}
      :: (if 546 <? Int_sub (Int_sub (rounded_sum utxos) amountSats)
                      (Bitcoin.estimatedFee utxos feeRate)
          then [{| out_address := changeAddress f;
                   out_value := Int_sub (Int_sub (rounded_sum utxos) amountSats)
                                  (Bitcoin.estimatedFee utxos feeRate) |}]
          else []).
Proof.
  intros H.
  apply createBitcoinTransaction_Return in H.
  destruct H as (f & draft & Hin & Hout & Hsign).
  pose proof (createBitcoinTransaction_inputs_Return _ _ _ _ Hin)
    as (_ & _ & _ & Ht & Hno & _).
  apply createBitcoinTransaction_outputs_Return in Hout.
  destruct Hout as (_ & _ & Hc & Hpos & _ & Ho).
  apply createBitcoinTransaction_sign_Return in Hsign.
  destruct Hsign as (_ & Hfee & signed & tx & _ & Hso & Hx & Hhex).
  rewrite Ht in Hc. rewrite Hno in Ho. simpl in Ho.
  rewrite <- Hso, Hc in Ho. rewrite Hc in Hpos.
  exists f, signed, tx. repeat split; assumption.
Qed.

(** With too little on the inputs the builder throws what its first part
    throws, or else the insufficient-funds error. *)
Lemma createBitcoinTransaction_short
    privateKeyHex toAddress amountSats utxos feeRate network w :
  exact_range utxos amountSats feeRate ->
  sum_values utxos < amountSats + Bitcoin.estimatedFee utxos feeRate ->
  Bitcoin.createBitcoinTransaction privateKeyHex toAddress amountSats utxos
    feeRate network w
  = match Bitcoin.createBitcoinTransaction_inputs privateKeyHex utxos
            network w with
    | (Return f, w1) =>
        (Throw (InsufficientFunds
                  (amountSats + Bitcoin.estimatedFee utxos feeRate)
                  (sum_values utxos)), w1)
    | (Throw e, w1) => (Throw e, w1)
    end.
Proof.
  intros Hrange Hlt.
  destruct (exact_range_arith Hrange) as (_ & _ & Hsum & Hsub & Hadd).
  unfold Bitcoin.createBitcoinTransaction. unfold bind at 1.
  destruct (Bitcoin.createBitcoinTransaction_inputs privateKeyHex utxos
              network w) as [[f | e] w1] eqn:Hin; [| reflexivity].
  apply createBitcoinTransaction_inputs_Return in Hin.
  destruct Hin as (_ & _ & _ & Ht & _).
  rewrite Hsum in Ht.
  unfold bind.
  rewrite createBitcoinTransaction_outputs_insufficient
    by (rewrite Ht, Hsub; lia).
  rewrite Ht, Hadd. reflexivity.
Qed.

End BuilderFacts.

(** ** The builder of the mainnet-only module *)

Section MainnetBuilder.

Context {L : BitcoinLib} {R : Randomness}.

Lemma bind_ext {A B} (m : M A) (k1 k2 : A -> M B) w :
  (forall a w1, k1 a w1 = k2 a w1) -> bind m k1 w = bind m k2 w.
Proof.
  intros H. unfold bind. destruct (m w) as [[a | e] w1]; [apply H | reflexivity].
Qed.

Lemma mainnet_addInputs internalPubkey utxos :
  forall psbt total w,
    BitcoinMainnet.addInputs internalPubkey utxos psbt total w
    = Bitcoin.addInputs internalPubkey networks_bitcoin utxos psbt total w.
Proof.
  induction utxos as [| utxo rest IH]; intros psbt total w; simpl.
  - reflexivity.
  - apply bind_ext. intros payment w1.
    apply bind_ext. intros psbt1 w2.
    apply IH.
Qed.

Lemma mainnet_signInputs tweakedSigner count :
  forall psbt i,
    BitcoinMainnet.signInputs psbt i count tweakedSigner
    = Bitcoin.signInputs psbt i count tweakedSigner.
Proof.
  induction count as [| count IH]; intros psbt i; simpl.
  - reflexivity.
  - destruct (signInput psbt i tweakedSigner); simpl; [apply IH | reflexivity].
Qed.

Lemma mainnet_estimatedFee utxos feeRate :
  BitcoinMainnet.estimatedFee utxos feeRate = Bitcoin.estimatedFee utxos feeRate.
Proof.
  unfold BitcoinMainnet.estimatedFee, Bitcoin.estimatedFee,
    BitcoinMainnet.estimatedSize, Bitcoin.estimatedSize.
  reflexivity.
Qed.

Lemma mainnet_nostrPubkeyToBitcoinAddress pubkeyHex network w :
  Bitcoin.default_mainnet network = Bitcoin.mainnet ->
  BitcoinMainnet.nostrPubkeyToBitcoinAddress pubkeyHex w
  = Bitcoin.nostrPubkeyToBitcoinAddress pubkeyHex network w.
Proof.
  intros Hn.
  unfold BitcoinMainnet.nostrPubkeyToBitcoinAddress,
    Bitcoin.nostrPubkeyToBitcoinAddress.
  rewrite Hn. reflexivity.
Qed.

Lemma mainnet_createBitcoinTransaction_inputs privateKeyHex utxos network w :
  Bitcoin.default_mainnet network = Bitcoin.mainnet ->
  BitcoinMainnet.createBitcoinTransaction_inputs privateKeyHex utxos w
  = Bitcoin.createBitcoinTransaction_inputs privateKeyHex utxos network w.
Proof.
  intros Hn.
  unfold BitcoinMainnet.createBitcoinTransaction_inputs,
    Bitcoin.createBitcoinTransaction_inputs.
  rewrite Hn. simpl Bitcoin.getNetwork.
  change BitcoinMainnet.getECPair with Bitcoin.getECPair.
  apply bind_ext. intros api w1.
  apply bind_ext. intros kp w2.
  apply bind_ext. intros payment w3.
  destruct (address payment) as [addr |]; [| reflexivity].
  destruct (addr =? "")%string; [reflexivity |].
  unfold bind. rewrite mainnet_addInputs. reflexivity.
Qed.

Lemma mainnet_createBitcoinTransaction_outputs
    toAddress amountSats utxos feeRate f w :
  BitcoinMainnet.createBitcoinTransaction_outputs toAddress amountSats utxos
    feeRate f w
  = Bitcoin.createBitcoinTransaction_outputs toAddress amountSats utxos
      feeRate f w.
Proof.
  unfold BitcoinMainnet.createBitcoinTransaction_outputs,
    Bitcoin.createBitcoinTransaction_outputs.
  rewrite mainnet_estimatedFee. reflexivity.
Qed.

Lemma mainnet_createBitcoinTransaction_sign utxos feeRate draft w :
  BitcoinMainnet.createBitcoinTransaction_sign utxos feeRate draft w
  = Bitcoin.createBitcoinTransaction_sign utxos feeRate draft w.
Proof.
  unfold BitcoinMainnet.createBitcoinTransaction_sign,
    Bitcoin.createBitcoinTransaction_sign.
  rewrite mainnet_estimatedFee.
  apply bind_ext. intros signer w1.
  rewrite mainnet_signInputs. reflexivity.
Qed.

Lemma mainnet_createBitcoinTransaction
    privateKeyHex toAddress amountSats utxos feeRate network w :
  Bitcoin.default_mainnet network = Bitcoin.mainnet ->
  BitcoinMainnet.createBitcoinTransaction privateKeyHex toAddress amountSats
    utxos feeRate w
  = Bitcoin.createBitcoinTransaction privateKeyHex toAddress amountSats
      utxos feeRate network w.
Proof.
  intros Hn.
  unfold BitcoinMainnet.createBitcoinTransaction,
    Bitcoin.createBitcoinTransaction.
  unfold bind at 1 3.
  rewrite (mainnet_createBitcoinTransaction_inputs _ _ _ _ Hn).
  destruct (Bitcoin.createBitcoinTransaction_inputs _ _ _ w) as [[f | e] w1];
    [| reflexivity].
  unfold bind. rewrite mainnet_createBitcoinTransaction_outputs.
  destruct (Bitcoin.createBitcoinTransaction_outputs _ _ _ _ _ w1)
    as [[draft | e] w2]; [| reflexivity].
  apply mainnet_createBitcoinTransaction_sign.
Qed.

(** A result of either builder is a result of the network-parameterised
    one. *)
Lemma built_Return
    privateKeyHex toAddress amountSats utxos feeRate network w result w' :
  built privateKeyHex toAddress amountSats utxos feeRate network w result w' ->
  Bitcoin.createBitcoinTransaction privateKeyHex toAddress amountSats
    utxos feeRate network w = (Return result, w').
Proof.
  intros [H | [Hn H]]; [exact H |].
  rewrite <- (mainnet_createBitcoinTransaction _ _ _ _ _ _ _ Hn). exact H.
Qed.

(** The same for a fee rate that is not a number. *)
Lemma mainnet_createBitcoinTransaction_NaN
    privateKeyHex toAddress amountSats utxos network w :
  Bitcoin.default_mainnet network = Bitcoin.mainnet ->
  BitcoinMainnet.createBitcoinTransaction_NaN privateKeyHex toAddress
    amountSats utxos w
  = Bitcoin.createBitcoinTransaction_NaN privateKeyHex toAddress amountSats
      utxos network w.
Proof.
  intros Hn.
  unfold BitcoinMainnet.createBitcoinTransaction_NaN,
    Bitcoin.createBitcoinTransaction_NaN.
  unfold bind at 1 7.
  rewrite (mainnet_createBitcoinTransaction_inputs _ _ _ _ Hn).
  destruct (Bitcoin.createBitcoinTransaction_inputs _ _ _ w) as [[f | e] w1];
    [| reflexivity].
  apply bind_ext. intros psbt1 w2.
  apply bind_ext. intros signer w3.
  rewrite mainnet_signInputs. reflexivity.
Qed.

(** With a fee rate that is not a number the transaction has the
    destination output and no other. *)
Lemma built_NaN_Return
    privateKeyHex toAddress amountSats utxos network w txHex w' :
  built_NaN privateKeyHex toAddress amountSats utxos network w txHex w' ->
  exists f signed tx,
    Bitcoin.createBitcoinTransaction_inputs privateKeyHex utxos network w
      = (Return f, w') /\
    extractTransaction signed = Return tx /\
    txHex = toHex tx /\
    txOutputs signed
    = [{| out_address := toAddress; out_value := amountSats |}].
Proof.
  intros H.
  assert (H0 : Bitcoin.createBitcoinTransaction_NaN privateKeyHex toAddress
                 amountSats utxos network w = (Return txHex, w')).
  { destruct H as [H | [Hn H]]; [exact H |].
    rewrite <- (mainnet_createBitcoinTransaction_NaN _ _ _ _ _ _ Hn). exact H. }
  clear H. unfold Bitcoin.createBitcoinTransaction_NaN in H0.
  bind_inv H0 as f w1 Hin.
  bind_inv H0 as psbt1 w2 E1. lift_inv E1.
  bind_inv H0 as signer w3 E2. lift_inv E2.
  bind_inv H0 as psbt2 w4 E3. lift_inv E3.
  bind_inv H0 as psbt3 w5 E4. lift_inv E4.
  bind_inv H0 as tx w6 E5. lift_inv E5.
  apply ret_inv in H0. destruct H0 as [H0 ->]. inversion H0.
  pose proof (createBitcoinTransaction_inputs_Return _ _ _ _ Hin)
    as (_ & _ & _ & _ & Hno & _).
  apply addOutput_Return in E1. destruct E1 as (_ & _ & Ho1).
  apply signInputs_Return in E3. destruct E3 as [_ Ho2].
  apply finalizeAllInputs_Return in E4. destruct E4 as [_ Ho3].
  exists f, psbt3, tx.
  split; [exact Hin | split; [exact E5 | split; [reflexivity |]]].
  rewrite Ho3, Ho2, Ho1, Hno. reflexivity.
Qed.

End MainnetBuilder.

(** ** The fee, the funds check and the outputs *)

Section BuilderClaims.

Context {L : BitcoinLib} {R : Randomness}.

Ltac Qeq_lia :=
  unfold Qeq, Qmult, Qplus, inject_Z; cbn [Qnum Qden];
  rewrite ?Pos2Z.inj_mul; lia.

(** The size estimate is exact: with n inputs, (115 n + 193) / 2. *)
Lemma estimatedSize_exact utxos :
  (115 * Z.of_nat (List.length utxos) + 193 < 2 ^ 53)%Z ->
  (Bitcoin.estimatedSize utxos
   == 115 * Z.of_nat (List.length utxos) + 193 # 2)%Q.
Proof.
  intros Hn. unfold Bitcoin.estimatedSize, Number_add, Number_mul.
  set (n := Z.of_nat (List.length utxos)) in *.
  assert (Hn0 : (0 <= n)%Z) by (unfold n; lia).
  assert (E1 : (inject_Z n * 57.5 == 115 * n # 2)%Q)
    by Qeq_lia.
  assert (H1 : (Binary64.fl (inject_Z n * 57.5) == 115 * n # 2)%Q).
  { rewrite (fl_half E1); [exact E1 | lia]. }
  assert (H2 : (Binary64.fl (2 * 43) == 86)%Q) by (vm_compute; reflexivity).
  assert (E3 : (Binary64.fl (inject_Z n * 57.5) + Binary64.fl (2 * 43)
                == 115 * n + 172 # 2)%Q).
  { rewrite H1, H2. Qeq_lia. }
  assert (H3 : (Binary64.fl (Binary64.fl (inject_Z n * 57.5)
                             + Binary64.fl (2 * 43))
                == 115 * n + 172 # 2)%Q).
  { rewrite (fl_half E3); [exact E3 | lia]. }
  assert (E4 : (Binary64.fl (Binary64.fl (inject_Z n * 57.5)
                             + Binary64.fl (2 * 43)) + 10.5
                == 115 * n + 193 # 2)%Q).
  { rewrite H3. Qeq_lia. }
  rewrite (fl_half E4); [exact E4 | lia].
Qed.

(** Two numbers half a unit apart have ceilings one unit apart. *)
Lemma Qceiling_near (x y : Q) :
  (x - (1 # 2) <= y <= x + (1 # 2))%Q ->
  Qceiling x - 1 <= Qceiling y <= Qceiling x + 1.
Proof.
  intros [Hlo Hhi].
  pose proof (Qle_ceiling x) as Hx1. pose proof (Qceiling_lt x) as Hx2.
  pose proof (Qle_ceiling y) as Hy1. pose proof (Qceiling_lt y) as Hy2.
  unfold Z.sub in Hx2, Hy2. rewrite inject_Z_plus, inject_Z_opp in Hx2, Hy2.
  change (inject_Z 1) with 1%Q in Hx2, Hy2.
  split.
  - assert (H : (inject_Z (Qceiling x + - (2)) < inject_Z (Qceiling y))%Q).
    { rewrite inject_Z_plus, inject_Z_opp. change (inject_Z 2) with 2%Q. lra. }
    rewrite <- Zlt_Qlt in H. lia.
  - assert (H : (inject_Z (Qceiling y) < inject_Z (Qceiling x + 2))%Q).
    { rewrite inject_Z_plus. change (inject_Z 2) with 2%Q. lra. }
    rewrite <- Zlt_Qlt in H. lia.
Qed.

(** C1, amended.  Whenever the builder of either module returns, with n
    supplied outputs and a fee rate r that is a number, the returned fee is
    Math.ceil((n * 57.5 + 2 * 43 + 10.5) * r) as binary64 arithmetic
    evaluates it: the amount and the presence of a change output play no
    part in it.  For an integral rate with (115 n + 193) |r| < 2^53 nothing
    is rounded and the fee is the ceiling of the exact product
    (57.5 n + 2 * 43 + 10.5) r; for any rate with a product below 2^53 in
    magnitude it is within one satoshi of that ceiling. *)
Theorem createBitcoinTransaction_fee
    privateKeyHex toAddress amountSats utxos feeRate network w result w' :
  built privateKeyHex toAddress amountSats utxos feeRate network w result w' ->
  let n := inject_Z (Z.of_nat (List.length utxos)) in
  fee result = Math_ceil ((n .* 57.5 .+ 2 .* 43 .+ 10.5) .* feeRate)%Q /\
  (forall r : Z,
      (feeRate == inject_Z r)%Q ->
      ((115 * Z.of_nat (List.length utxos) + 193) * Z.abs r < 2 ^ 53)%Z ->
      fee result = Qceiling ((57.5 * n + 2 * 43 + 10.5) * inject_Z r)%Q) /\
  ((115 * Z.of_nat (List.length utxos) + 193 < 2 ^ 53)%Z ->
   (Qabs ((57.5 * n + 2 * 43 + 10.5) * feeRate) < inject_Z (2 ^ 53))%Q ->
   Qceiling ((57.5 * n + 2 * 43 + 10.5) * feeRate)%Q - 1
   <= fee result
   <= Qceiling ((57.5 * n + 2 * 43 + 10.5) * feeRate)%Q + 1).
Proof.
  intros H n.
  apply built_Return in H.
  apply createBitcoinTransaction_Return in H.
  destruct H as (f & draft & _ & _ & H).
  apply createBitcoinTransaction_sign_Return in H.
  destruct H as (_ & -> & _).
  set (k := Z.of_nat (List.length utxos)) in *.
  assert (Hk0 : (0 <= k)%Z) by (unfold k; lia).
  split; [reflexivity | split].
  - intros r Hr Hb.
    unfold Bitcoin.estimatedFee, Math_ceil, Number_mul.
    apply Qceiling_comp.
    assert (Hexact : ((57.5 * n + 2 * 43 + 10.5) * inject_Z r
                      == (115 * k + 193) * r # 2)%Q).
    { unfold n. Qeq_lia. }
    rewrite Hexact.
    destruct (Z.eq_dec r 0) as [-> | Hr0].
    + rewrite fl_zero; [| rewrite Hr; ring].
      rewrite Z.mul_0_r. reflexivity.
    + assert (Hk : (115 * k + 193 < 2 ^ 53)%Z) by nia.
      pose proof (estimatedSize_exact utxos Hk) as Hs. fold k in Hs.
      assert (Habs : (Z.abs ((115 * k + 193) * r) < 2 ^ 53)%Z).
      { rewrite Z.abs_mul, (Z.abs_eq (115 * k + 193)) by lia. exact Hb. }
      assert (Hx : (Bitcoin.estimatedSize utxos * feeRate
                    == (115 * k + 193) * r # 2)%Q).
      { rewrite Hs, Hr. Qeq_lia. }
      rewrite (fl_half Hx Habs). exact Hx.
  - intros Hk Hb.
    pose proof (estimatedSize_exact utxos Hk) as Hs. fold k in Hs.
    set (x := ((57.5 * n + 2 * 43 + 10.5) * feeRate)%Q) in *.
    assert (Hx : (Bitcoin.estimatedSize utxos * feeRate == x)%Q).
    { rewrite Hs. unfold x, n.
      assert (E : ((115 * k + 193 # 2)
                   == 57.5 * inject_Z k + 2 * 43 + 10.5)%Q) by Qeq_lia.
      rewrite E. reflexivity. }
    unfold Bitcoin.estimatedFee, Math_ceil, Number_mul.
    rewrite (fl_comp Hx).
    apply Qceiling_near.
    assert (Hp : (Binary64.pow2 53 == inject_Z (2 ^ 53))%Q)
      by (apply pow2_nonneg_Z; lia).
    assert (Hh : (Binary64.pow2 (53 - 54) == 1 # 2)%Q)
      by (vm_compute; reflexivity).
    apply Qabs_Qlt_condition in Hb. destruct Hb as [Hb1 Hb2].
    destruct (@fl_near x 53) as [H1 H2];
      [rewrite Hp; exact Hb1 | rewrite Hp; exact Hb2
       | unfold Binary64.emin; lia |].
    rewrite Hh in H1, H2. split; assumption.
Qed.

(** C2, amended.  Within the exact range, when the supplied values sum to
    less than amountSats plus the estimated fee, neither builder returns a
    result; and once the key pair, the change address and the inputs are in
    place, the builder throws the insufficient-funds error with
    required = amountSats + estimatedFee and available = the sum of the
    supplied values.  What the earlier steps throw is thrown instead. *)
Theorem createBitcoinTransaction_insufficient_funds
    privateKeyHex toAddress amountSats utxos feeRate network w :
  exact_range utxos amountSats feeRate ->
  sum_values utxos < amountSats + Bitcoin.estimatedFee utxos feeRate ->
  (forall result w',
      ~ built privateKeyHex toAddress amountSats utxos feeRate network w
          result w') /\
  (forall f w1,
      Bitcoin.createBitcoinTransaction_inputs privateKeyHex utxos network w
        = (Return f, w1) ->
      Bitcoin.createBitcoinTransaction privateKeyHex toAddress amountSats
        utxos feeRate network w
      = (Throw (InsufficientFunds
                  (amountSats + Bitcoin.estimatedFee utxos feeRate)
                  (sum_values utxos)), w1)) /\
  (forall e w1,
      Bitcoin.createBitcoinTransaction_inputs privateKeyHex utxos network w
        = (Throw e, w1) ->
      Bitcoin.createBitcoinTransaction privateKeyHex toAddress amountSats
        utxos feeRate network w = (Throw e, w1)) /\
  (forall f w1,
      BitcoinMainnet.createBitcoinTransaction_inputs privateKeyHex utxos w
        = (Return f, w1) ->
      BitcoinMainnet.createBitcoinTransaction privateKeyHex toAddress
        amountSats utxos feeRate w
      = (Throw (InsufficientFunds
                  (amountSats + Bitcoin.estimatedFee utxos feeRate)
                  (sum_values utxos)), w1)) /\
  (forall e w1,
      BitcoinMainnet.createBitcoinTransaction_inputs privateKeyHex utxos w
        = (Throw e, w1) ->
      BitcoinMainnet.createBitcoinTransaction privateKeyHex toAddress
        amountSats utxos feeRate w = (Throw e, w1)).
Proof.
  intros Hrange Hlt.
  assert (Hshort : forall network0,
            Bitcoin.createBitcoinTransaction privateKeyHex toAddress
              amountSats utxos feeRate network0 w
            = match Bitcoin.createBitcoinTransaction_inputs privateKeyHex
                      utxos network0 w with
              | (Return f, w1) =>
                  (Throw (InsufficientFunds
                            (amountSats + Bitcoin.estimatedFee utxos feeRate)
                            (sum_values utxos)), w1)
              | (Throw e, w1) => (Throw e, w1)
              end)
    by (intros network0; apply createBitcoinTransaction_short; assumption).
  assert (E1 : BitcoinMainnet.createBitcoinTransaction_inputs privateKeyHex
                 utxos w
               = Bitcoin.createBitcoinTransaction_inputs privateKeyHex utxos
                   None w)
    by (apply mainnet_createBitcoinTransaction_inputs; reflexivity).
  assert (E2 : BitcoinMainnet.createBitcoinTransaction privateKeyHex
                 toAddress amountSats utxos feeRate w
               = Bitcoin.createBitcoinTransaction privateKeyHex toAddress
                   amountSats utxos feeRate None w)
    by (apply mainnet_createBitcoinTransaction; reflexivity).
  split; [| split; [| split; [| split]]].
  - intros result w' H. apply built_Return in H.
    rewrite Hshort in H. revert H.
    destruct (Bitcoin.createBitcoinTransaction_inputs privateKeyHex utxos
                network w) as [[f | e] w1]; intros H; congruence.
  - intros f w1 Hin. rewrite Hshort, Hin. reflexivity.
  - intros e w1 Hin. rewrite Hshort, Hin. reflexivity.
  - intros f w1 Hin. rewrite E1 in Hin. rewrite E2, Hshort, Hin. reflexivity.
  - intros e w1 Hin. rewrite E1 in Hin. rewrite E2, Hshort, Hin. reflexivity.
Qed.

(** C3.  A transaction returned by either builder comes from a PSBT whose
    outputs are the destination output for amountSats, followed by one
    change output exactly when the change the code computes,
    totalInput - amountSats - estimatedFee, exceeds 546.  The change output
    pays the address derived from the key pair of the private key, the
    signer's own.  A change of 546 adds no change output, a change of 547
    adds one.  Within the exact range the computed change is the difference
    of the sum of the supplied values, the amount and the fee.  With a fee
    rate that is not a number the change is NaN, which exceeds nothing:
    there is the destination output and no other. *)
Theorem createBitcoinTransaction_change_output
    privateKeyHex toAddress amountSats utxos network w :
  let destination :=
    {| out_address := toAddress; out_value := amountSats |} in
  (forall feeRate result w',
      built privateKeyHex toAddress amountSats utxos feeRate network w
        result w' ->
      let totalInput := rounded_sum utxos in
      let estimatedFee := Bitcoin.estimatedFee utxos feeRate in
      let change := Int_sub (Int_sub totalInput amountSats) estimatedFee in
      exists api keyPair payment changeAddress signed tx,
        ECPair w' = Some api /\
        api_fromPrivateKey api (Buffer_from_hex privateKeyHex)
        = Return keyPair /\
        p2tr (Buffer_slice (publicKey keyPair) 1 33)
          (Bitcoin.getNetwork (Bitcoin.default_mainnet network))
        = Return payment /\
        address payment = Some changeAddress /\
        extractTransaction signed = Return tx /\
        txHex result = toHex tx /\
        0 <= change /\
        txOutputs signed
        = destination
          :: (if 546 <? change
              then [{| out_address := changeAddress; out_value := change |}]
              else []) /\
        (546 < change <-> List.length (txOutputs signed) = 2%nat) /\
        (change = 546 -> txOutputs signed = [destination]) /\
        (change = 547 ->
           txOutputs signed
           = [destination;
              {| out_address := changeAddress; out_value := 547 |}]) /\
        (exact_range utxos amountSats feeRate ->
         change = sum_values utxos - amountSats - estimatedFee)) /\
  (forall txHex w',
      built_NaN privateKeyHex toAddress amountSats utxos network w txHex w' ->
      exists signed tx,
        extractTransaction signed = Return tx /\
        txHex = toHex tx /\
        txOutputs signed = [destination]).
Proof.
  intros destination. split.
  - intros feeRate result w' H totalInput0 estimatedFee0 change0.
    apply built_Return in H.
    destruct (createBitcoinTransaction_outcome _ _ _ _ _ _ _ H)
      as (f & signed & tx & Hin & _ & Hpos & Hx & Hhex & Ho).
    fold totalInput0 estimatedFee0 change0 destination in Hpos, Ho.
    pose proof (createBitcoinTransaction_inputs_Return _ _ _ _ Hin)
      as (Hipk & (payment & Hp & Ha) & _).
    destruct (createBitcoinTransaction_inputs_keyPair _ _ _ _ Hin)
      as (api & Hapi & Hkp).
    rewrite Hipk in Hp.
    exists api, (keyPair f), payment, (changeAddress f), signed, tx.
    repeat (split; [assumption |]).
    split; [| split; [| split]].
    + rewrite Ho. destruct (546 <? change0) eqn:E; simpl.
      * apply Z.ltb_lt in E. split; [reflexivity | intros _; exact E].
      * apply Z.ltb_ge in E. split; [lia | discriminate].
    + intros E. rewrite Ho, E. reflexivity.
    + intros E. rewrite Ho, E. reflexivity.
    + intros Hrange.
      destruct (exact_range_arith Hrange) as (_ & _ & Hsum & Hsub & _).
      unfold change0, totalInput0, estimatedFee0. rewrite Hsum. exact Hsub.
  - intros txHex0 w' H.
    destruct (built_NaN_Return H) as (f & signed & tx & _ & Hx & Hhex & Ho).
    exists signed, tx. repeat split; assumption.
Qed.

(** C4, amended.  For a result returned by either builder within the exact
    range, the total input equals change + amountSats + fee with
    0 <= change, the fee being the estimate.  With a change output
    (change > 546) that output carries the change; without one the change,
    at most 546, is left to the miners on top of the returned fee, so that
    fee + amountSats <= totalInput <= fee + amountSats + 546, with equality
    on the left only for a change of 0. *)
Theorem createBitcoinTransaction_balance
    privateKeyHex toAddress amountSats utxos feeRate network w result w' :
  built privateKeyHex toAddress amountSats utxos feeRate network w result w' ->
  exact_range utxos amountSats feeRate ->
  let destination :=
    {| out_address := toAddress; out_value := amountSats |} in
  exists change signed tx,
    extractTransaction signed = Return tx /\
    txHex result = toHex tx /\
    fee result = Bitcoin.estimatedFee utxos feeRate /\
    sum_values utxos = change + amountSats + fee result /\
    0 <= change /\
    (546 < change ->
     exists changeAddress,
       txOutputs signed
       = [destination;
          {| out_address := changeAddress; out_value := change |}]) /\
    (change <= 546 ->
     txOutputs signed = [destination] /\
     fee result + amountSats <= sum_values utxos
       <= fee result + amountSats + 546) /\
    (fee result + amountSats = sum_values utxos <-> change = 0).
Proof.
  intros H Hrange destination.
  apply built_Return in H.
  destruct (createBitcoinTransaction_outcome _ _ _ _ _ _ _ H)
    as (f & signed & tx & _ & Hfee & Hpos & Hx & Hhex & Ho).
  destruct (exact_range_arith Hrange) as (_ & _ & Hsum & Hsub & _).
  rewrite Hsum, Hsub in Hpos, Ho. fold destination in Ho.
  set (change0 := sum_values utxos - amountSats
                  - Bitcoin.estimatedFee utxos feeRate) in *.
  exists change0, signed, tx.
  split; [exact Hx | split; [exact Hhex | split; [exact Hfee |]]].
  rewrite Hfee.
  split; [unfold change0; lia | split; [exact Hpos |]].
  split; [| split].
  - intros Hgt. exists (changeAddress f). rewrite Ho.
    destruct (546 <? change0) eqn:E; [reflexivity |].
    apply Z.ltb_ge in E. lia.
  - intros Hle. split; [| unfold change0 in *; lia].
    rewrite Ho.
    destruct (546 <? change0) eqn:E; [| reflexivity].
    apply Z.ltb_lt in E. lia.
  - unfold change0. lia.
Qed.

(** C5, amended.  One supplied output of 100,000 satoshis, an amount of
    50,000 and a fee rate of 10 sat/vB: a returned result has fee 1540
    (154 vbytes), the change is 48460, above the dust limit, and the
    transaction has the destination output and the change output. *)
Theorem createBitcoinTransaction_scenario
    privateKeyHex toAddress utxo network w result w' :
  value utxo = 100000 ->
  Bitcoin.createBitcoinTransaction privateKeyHex toAddress 50000
    [utxo] 10 network w = (Return result, w') ->
  fee result = 1540 /\
  exists f draft,
    Bitcoin.createBitcoinTransaction_inputs privateKeyHex [utxo] network w
      = (Return f, w') /\
    Bitcoin.createBitcoinTransaction_outputs toAddress 50000 [utxo] 10 f w'
      = (Return draft, w') /\
    change draft = 48460 /\
    Bitcoin.dustLimit < change draft /\
    txOutputs (psbt draft)
    = [{| out_address := toAddress; out_value := 50000 |};
       {| out_address := changeAddress f; out_value := 48460 |}].
Proof.
  intros Hv H.
  apply createBitcoinTransaction_Return in H.
  destruct H as (f & draft & Hin & Hout & Hsign).
  assert (Hfee : Bitcoin.estimatedFee [utxo] 10 = 1540)
    by (vm_compute; reflexivity).
  pose proof (createBitcoinTransaction_sign_Return _ _ _ _ Hsign)
    as (_ & Hf & _).
  split; [rewrite Hf; exact Hfee |].
  exists f, draft. split; [exact Hin | split; [exact Hout |]].
  apply createBitcoinTransaction_inputs_Return in Hin.
  destruct Hin as (_ & _ & _ & Ht & Hno & _).
  apply createBitcoinTransaction_outputs_Return in Hout.
  destruct Hout as (_ & _ & Hc & _ & _ & Ho).
  assert (Hsum : rounded_sum [utxo] = 100000).
  { unfold rounded_sum. cbn [fold_left]. rewrite Hv. vm_compute. reflexivity. }
  rewrite Ht, Hsum, Hfee in Hc.
  assert (Hch : change draft = 48460).
  { rewrite Hc. vm_compute. reflexivity. }
  rewrite Hno, Hch in Ho. simpl in Ho.
  repeat split; try assumption.
  rewrite Hch. reflexivity.
Qed.

End BuilderClaims.

(** ** Network parameters *)

Section NetworkClaims.

Context {L : BitcoinLib} {R : Randomness}.

(** C6.  Every profile resolves to one of the two chain-parameter sets and
    to an explorer URL; testnet and testnet4 resolve to the same parameters
    and therefore derive the same address from the same key; the three
    explorer URLs are pairwise distinct. *)
Theorem getNetwork_getApiUrl_profiles :
  (forall network,
      Bitcoin.getNetwork network = networks_bitcoin
      \/ Bitcoin.getNetwork network = networks_testnet) /\
  Bitcoin.getNetwork Bitcoin.testnet = Bitcoin.getNetwork Bitcoin.testnet4 /\
  (forall pubkeyHex w,
      Bitcoin.nostrPubkeyToBitcoinAddress pubkeyHex (Some Bitcoin.testnet) w
      = Bitcoin.nostrPubkeyToBitcoinAddress pubkeyHex (Some Bitcoin.testnet4) w) /\
  Bitcoin.getApiUrl Bitcoin.mainnet = "https://mempool.space/api" /\
  Bitcoin.getApiUrl Bitcoin.testnet = "https://mempool.space/testnet/api" /\
  Bitcoin.getApiUrl Bitcoin.testnet4 = "https://mempool.space/testnet4/api" /\
  Bitcoin.getApiUrl Bitcoin.mainnet <> Bitcoin.getApiUrl Bitcoin.testnet /\
  Bitcoin.getApiUrl Bitcoin.mainnet <> Bitcoin.getApiUrl Bitcoin.testnet4 /\
  Bitcoin.getApiUrl Bitcoin.testnet <> Bitcoin.getApiUrl Bitcoin.testnet4.
Proof.
  split; [| split; [| split]].
  - intros [ | | ]; simpl; auto.
  - reflexivity.
  - intros pubkeyHex w. reflexivity.
  - repeat split; try reflexivity; simpl; discriminate.
Qed.

End NetworkClaims.

(** ** Address derivation *)

Section AddressFacts.

Context {L : BitcoinLib} {R : Randomness}.

(** The value and the state after [nostrPubkeyToBitcoinAddress], by cases on
    the ECC engine and on what [p2tr] does. *)
Lemma nostrPubkeyToBitcoinAddress_unfold pubkeyHex network w :
  Bitcoin.nostrPubkeyToBitcoinAddress pubkeyHex network w
  = if eccLib w then
      match p2tr (Buffer_from_hex pubkeyHex)
              (Bitcoin.getNetwork (Bitcoin.default_mainnet network)) with
      | Return payment => (Return (or_empty (address payment)), w)
      | Throw e =>
          (Return "",
           {| eccLib := eccLib w; ECPair := ECPair w;
              console := (console w
                          ++ [("Error generating Bitcoin address:", e)])%list |})
      end
    else
      (Return "",
       {| eccLib := eccLib w; ECPair := ECPair w;
          console :=
            (console w
             ++ [("Error generating Bitcoin address:",
                  p2tr_noEcc (Buffer_from_hex pubkeyHex)
                    (Bitcoin.getNetwork (Bitcoin.default_mainnet network)))])%list |}).
Proof.
  unfold Bitcoin.nostrPubkeyToBitcoinAddress, try_catch, bind, payments_p2tr,
    console_error, ret.
  destruct (eccLib w) eqn:E; simpl.
  - destruct (p2tr _ _); simpl; rewrite ?E; reflexivity.
  - rewrite E. reflexivity.
Qed.

Lemma nostrPubkeyToBitcoinAddress_returns pubkeyHex network w :
  exists a w', Bitcoin.nostrPubkeyToBitcoinAddress pubkeyHex network w
               = (Return a, w').
Proof.
  rewrite nostrPubkeyToBitcoinAddress_unfold.
  destruct (eccLib w); [destruct (p2tr _ _) |]; eexists; eexists; reflexivity.
Qed.

Lemma nostrPubkeyToBitcoinAddress_eccLib pubkeyHex network w :
  eccLib (snd (Bitcoin.nostrPubkeyToBitcoinAddress pubkeyHex network w))
  = eccLib w.
Proof.
  rewrite nostrPubkeyToBitcoinAddress_unfold.
  destruct (eccLib w) eqn:E; [destruct (p2tr _ _) |]; simpl; congruence.
Qed.

Lemma getECPair_eccLib w r w' :
  eccLib w = true -> Bitcoin.getECPair w = (r, w') -> eccLib w' = true.
Proof.
  unfold Bitcoin.getECPair. intros Hw.
  destruct (ECPair w); intros H; inversion H; subst; auto.
Qed.

Lemma createBitcoinTransaction_inputs_eccLib privateKeyHex utxos network w :
  eccLib w = true ->
  eccLib (snd (Bitcoin.createBitcoinTransaction_inputs privateKeyHex utxos
                 network w)) = true.
Proof.
  intros Hw. unfold Bitcoin.createBitcoinTransaction_inputs.
  unfold bind at 1.
  destruct (Bitcoin.getECPair w) as [[api | e] w1] eqn:E1;
    apply (getECPair_eccLib _ Hw) in E1; [| exact E1].
  unfold bind at 1, lift at 1.
  destruct (api_fromPrivateKey api _) as [kp | e]; [| exact E1].
  unfold bind at 1.
  destruct (payments_p2tr _ _ w1) as [[payment | e] w2] eqn:E2;
    apply payments_p2tr_world in E2; subst w2; [| exact E1].
  destruct (address payment) as [addr |]; [| exact E1].
  destruct (addr =? "")%string; [exact E1 |].
  unfold bind.
  destruct (Bitcoin.addInputs _ _ _ _ _ w1) as [[[psbt1 total] | e] w3] eqn:E3;
    apply addInputs_world in E3; subst w3; exact E1.
Qed.

Lemma createBitcoinTransaction_outputs_world
    toAddress amountSats utxos feeRate f w :
  snd (Bitcoin.createBitcoinTransaction_outputs toAddress amountSats utxos
         feeRate f w) = w.
Proof.
  unfold Bitcoin.createBitcoinTransaction_outputs.
  destruct (_ <? 0); [reflexivity |].
  unfold bind at 1, lift at 1.
  destruct (addOutput _ _) as [psbt1 | e]; [| reflexivity].
  unfold bind.
  destruct (Bitcoin.dustLimit <? _).
  - unfold lift. destruct (addOutput _ _); reflexivity.
  - reflexivity.
Qed.

Lemma createBitcoinTransaction_sign_world utxos feeRate draft w :
  snd (Bitcoin.createBitcoinTransaction_sign utxos feeRate draft w) = w.
Proof.
  unfold Bitcoin.createBitcoinTransaction_sign, bind, lift.
  destruct (tweak _ _); [| reflexivity].
  destruct (Bitcoin.signInputs _ _ _ _); [| reflexivity].
  destruct (finalizeAllInputs _); [| reflexivity].
  destruct (extractTransaction _); reflexivity.
Qed.

Lemma createBitcoinTransaction_eccLib
    privateKeyHex toAddress amountSats utxos feeRate network w :
  eccLib w = true ->
  eccLib (snd (Bitcoin.createBitcoinTransaction privateKeyHex toAddress
                 amountSats utxos feeRate network w)) = true.
Proof.
  intros Hw.
  pose proof (createBitcoinTransaction_inputs_eccLib privateKeyHex utxos
                network w Hw) as H1.
  unfold Bitcoin.createBitcoinTransaction. unfold bind at 1.
  destruct (Bitcoin.createBitcoinTransaction_inputs _ _ _ w) as [[f | e] w1];
    simpl in H1; [| exact H1].
  unfold bind.
  pose proof (createBitcoinTransaction_outputs_world toAddress amountSats utxos
                feeRate f w1) as H2.
  destruct (Bitcoin.createBitcoinTransaction_outputs _ _ _ _ _ w1)
    as [[draft | e] w2]; simpl in H2; subst w2; [| exact H1].
  rewrite createBitcoinTransaction_sign_world. exact H1.
Qed.

(** The first call of the builder registers the ECC engine. *)
Lemma createBitcoinTransaction_inputs_initial privateKeyHex utxos network w :
  ECPair w = None ->
  eccLib (snd (Bitcoin.createBitcoinTransaction_inputs privateKeyHex utxos
                 network w)) = true.
Proof.
  intros Hn. unfold Bitcoin.createBitcoinTransaction_inputs.
  unfold bind at 1.
  assert (E1 : eccLib (snd (Bitcoin.getECPair w)) = true)
    by (unfold Bitcoin.getECPair; rewrite Hn; reflexivity).
  destruct (Bitcoin.getECPair w) as [[api | e] w1]; simpl in E1; [| exact E1].
  unfold bind at 1, lift at 1.
  destruct (api_fromPrivateKey api _) as [kp | e]; [| exact E1].
  unfold bind at 1.
  destruct (payments_p2tr _ _ w1) as [[payment | e] w2] eqn:E2;
    apply payments_p2tr_world in E2; subst w2; [| exact E1].
  destruct (address payment) as [addr |]; [| exact E1].
  destruct (addr =? "")%string; [exact E1 |].
  unfold bind.
  destruct (Bitcoin.addInputs _ _ _ _ _ w1) as [[[psbt1 total] | e] w3] eqn:E3;
    apply addInputs_world in E3; subst w3; exact E1.
Qed.

End AddressFacts.

Section RunningFacts.

Context {L : BitcoinLib} {R : Randomness}.

(** The ECC engine stays registered while the application runs. *)
Lemma running_eccLib w : running w -> eccLib w = true.
Proof.
  induction 1
    as [w | pubkeyHex network w _ IH | R0 sk to amt utxos r network w _ IH].
  - reflexivity.
  - rewrite nostrPubkeyToBitcoinAddress_eccLib. exact IH.
  - apply (@createBitcoinTransaction_eccLib _ R0). exact IH.
Qed.

Lemma nostrPubkeyToBitcoinAddress_started pubkeyHex network w :
  eccLib w = true ->
  fst (Bitcoin.nostrPubkeyToBitcoinAddress pubkeyHex network w)
  = match p2tr (Buffer_from_hex pubkeyHex)
            (Bitcoin.getNetwork (Bitcoin.default_mainnet network)) with
    | Return payment => Return (or_empty (address payment))
    | Throw _ => Return ""
    end.
Proof.
  intros Hw. rewrite nostrPubkeyToBitcoinAddress_unfold, Hw.
  destruct (p2tr _ _); reflexivity.
Qed.

End RunningFacts.

Section AddressClaims.

Context {L : BitcoinLib} {R : Randomness}.

(** C7, amended.  The address derived from a public key on a network
    depends on one more thing, whether an ECC engine is registered.  In two
    states that agree on that it is the same, and a second call right after
    the first returns the same string again.  Without an engine it is the
    empty string, whatever the key.  The engine is registered in every state
    of the running application, and in the state a call of the builder
    leaves. *)
Theorem nostrPubkeyToBitcoinAddress_deterministic pubkeyHex network w1 w2 :
  eccLib w1 = eccLib w2 ->
  fst (Bitcoin.nostrPubkeyToBitcoinAddress pubkeyHex network w1)
  = fst (Bitcoin.nostrPubkeyToBitcoinAddress pubkeyHex network w2) /\
  fst (Bitcoin.nostrPubkeyToBitcoinAddress pubkeyHex network
         (snd (Bitcoin.nostrPubkeyToBitcoinAddress pubkeyHex network w1)))
  = fst (Bitcoin.nostrPubkeyToBitcoinAddress pubkeyHex network w1) /\
  (eccLib w1 = false ->
   fst (Bitcoin.nostrPubkeyToBitcoinAddress pubkeyHex network w1)
   = Return "") /\
  (running w1 -> eccLib w1 = true) /\
  (forall privateKeyHex toAddress amountSats utxos feeRate network2,
      ECPair w1 = None \/ eccLib w1 = true ->
      eccLib (snd (Bitcoin.createBitcoinTransaction privateKeyHex toAddress
                     amountSats utxos feeRate network2 w1)) = true).
Proof.
  intros Hw.
  assert (Hfst : forall w,
            fst (Bitcoin.nostrPubkeyToBitcoinAddress pubkeyHex network w)
            = if eccLib w then
                match p2tr (Buffer_from_hex pubkeyHex)
                        (Bitcoin.getNetwork (Bitcoin.default_mainnet network))
                with
                | Return payment => Return (or_empty (address payment))
                | Throw _ => Return ""
                end
              else Return "").
  { intros w. rewrite nostrPubkeyToBitcoinAddress_unfold.
    destruct (eccLib w); [destruct (p2tr _ _) |]; reflexivity. }
  split; [rewrite !Hfst, Hw; reflexivity |].
  split; [rewrite !Hfst, nostrPubkeyToBitcoinAddress_eccLib; reflexivity |].
  split; [intros H0; rewrite Hfst, H0; reflexivity |].
  split; [apply running_eccLib |].
  intros privateKeyHex toAddress amountSats utxos feeRate network2 [Hn | He].
  - pose proof (createBitcoinTransaction_inputs_initial privateKeyHex utxos
                  network2 w1 Hn) as H1.
    unfold Bitcoin.createBitcoinTransaction. unfold bind at 1.
    destruct (Bitcoin.createBitcoinTransaction_inputs privateKeyHex utxos
                network2 w1) as [[f | e] w3]; simpl in H1; [| exact H1].
    unfold bind.
    pose proof (createBitcoinTransaction_outputs_world toAddress amountSats
                  utxos feeRate f w3) as H2.
    destruct (Bitcoin.createBitcoinTransaction_outputs toAddress amountSats
                utxos feeRate f w3) as [[draft | e] w4]; simpl in H2; subst w4;
      [| exact H1].
    rewrite createBitcoinTransaction_sign_world. exact H1.
  - apply createBitcoinTransaction_eccLib. exact He.
Qed.

End AddressClaims.

(** ** The two modules *)

Section Equivalence.

Context {L : BitcoinLib} {R : Randomness}.

(** C10, amended.  The two builders are the same function of their
    arguments, the state, and the bytes the signer draws: with the same
    draws the mainnet-only builder and the parameterised builder called with
    'mainnet' (or with the network left out) return the same result or throw
    the same error and leave the same state behind.  The draws are not an
    argument, so two calls draw independently; then two returned results
    still have the same fee, leave the same state and spend the same inputs
    to the same outputs, and everything before the signing is the same.  The
    two address derivations agree. *)
Theorem mainnet_module_agrees :
  (forall privateKeyHex toAddress amountSats utxos feeRate w,
      BitcoinMainnet.createBitcoinTransaction privateKeyHex toAddress
        amountSats utxos feeRate w
      = Bitcoin.createBitcoinTransaction privateKeyHex toAddress
          amountSats utxos feeRate (Some Bitcoin.mainnet) w /\
      BitcoinMainnet.createBitcoinTransaction privateKeyHex toAddress
        amountSats utxos feeRate w
      = Bitcoin.createBitcoinTransaction privateKeyHex toAddress
          amountSats utxos feeRate None w) /\
  (forall (R1 R2 : Randomness) privateKeyHex toAddress amountSats utxos
          feeRate network w result1 w1 result2 w2,
      Bitcoin.default_mainnet network = Bitcoin.mainnet ->
      @BitcoinMainnet.createBitcoinTransaction L R1 privateKeyHex toAddress
        amountSats utxos feeRate w = (Return result1, w1) ->
      @Bitcoin.createBitcoinTransaction L R2 privateKeyHex toAddress
        amountSats utxos feeRate network w = (Return result2, w2) ->
      fee result1 = fee result2 /\
      w1 = w2 /\
      exists signed1 tx1 signed2 tx2,
        extractTransaction signed1 = Return tx1 /\
        txHex result1 = toHex tx1 /\
        extractTransaction signed2 = Return tx2 /\
        txHex result2 = toHex tx2 /\
        txInputs signed1 = txInputs signed2 /\
        txOutputs signed1 = txOutputs signed2) /\
  (forall privateKeyHex toAddress amountSats utxos feeRate network f w,
      Bitcoin.default_mainnet network = Bitcoin.mainnet ->
      BitcoinMainnet.createBitcoinTransaction_inputs privateKeyHex utxos w
      = Bitcoin.createBitcoinTransaction_inputs privateKeyHex utxos network w /\
      BitcoinMainnet.createBitcoinTransaction_outputs toAddress amountSats
        utxos feeRate f w
      = Bitcoin.createBitcoinTransaction_outputs toAddress amountSats utxos
          feeRate f w) /\
  (forall pubkeyHex w,
      BitcoinMainnet.nostrPubkeyToBitcoinAddress pubkeyHex w
      = Bitcoin.nostrPubkeyToBitcoinAddress pubkeyHex None w /\
      BitcoinMainnet.nostrPubkeyToBitcoinAddress pubkeyHex w
      = Bitcoin.nostrPubkeyToBitcoinAddress pubkeyHex (Some Bitcoin.mainnet) w).
Proof.
  split; [| split; [| split]].
  - intros. split; apply mainnet_createBitcoinTransaction; reflexivity.
  - intros R1 R2 privateKeyHex toAddress amountSats utxos feeRate network w
      result1 w1 result2 w2 Hn H1 H2.
    rewrite (@mainnet_createBitcoinTransaction L R1 _ _ _ _ _ _ _ Hn) in H1.
    apply (@createBitcoinTransaction_Return L R1) in H1.
    apply (@createBitcoinTransaction_Return L R2) in H2.
    destruct H1 as (f1 & draft1 & Hin1 & Hout1 & Hsign1).
    destruct H2 as (f2 & draft2 & Hin2 & Hout2 & Hsign2).
    rewrite Hin1 in Hin2. inversion Hin2. subst f2 w2.
    rewrite Hout1 in Hout2. inversion Hout2. subst draft2.
    apply (@createBitcoinTransaction_sign_Return L R1) in Hsign1.
    apply (@createBitcoinTransaction_sign_Return L R2) in Hsign2.
    destruct Hsign1 as (_ & Hf1 & signed1 & tx1 & Hi1 & Ho1 & Hx1 & Hh1).
    destruct Hsign2 as (_ & Hf2 & signed2 & tx2 & Hi2 & Ho2 & Hx2 & Hh2).
    split; [congruence | split; [reflexivity |]].
    exists signed1, tx1, signed2, tx2.
    repeat split; try assumption; congruence.
  - intros privateKeyHex toAddress amountSats utxos feeRate network f w Hn.
    split.
    + apply mainnet_createBitcoinTransaction_inputs. exact Hn.
    + apply mainnet_createBitcoinTransaction_outputs.
  - intros. split; apply mainnet_nostrPubkeyToBitcoinAddress; reflexivity.
Qed.

(** C8, amended.  [nostrPubkeyToBitcoinAddress] never throws, in either
    module, and the only thing it reads from the key text is the buffer
    [Buffer.from(pubkeyHex, 'hex')] decodes.  It returns the empty string
    exactly when no ECC engine is registered, or [payments.p2tr] throws on
    that buffer (a buffer that is not 32 bytes long, or 32 bytes that are no
    x coordinate), or the payment has no address.  So with the type check
    of [p2tr], a text that decodes to a buffer of another length than 32
    bytes gets the empty string.  A text that is malformed but decodes to a
    buffer [p2tr] accepts gets that buffer's address. *)
Theorem nostrPubkeyToBitcoinAddress_malformed pubkeyHex network w :
  (exists a w',
      Bitcoin.nostrPubkeyToBitcoinAddress pubkeyHex network w
      = (Return a, w')) /\
  (rejected pubkeyHex (Bitcoin.getNetwork (Bitcoin.default_mainnet network)) ->
   fst (Bitcoin.nostrPubkeyToBitcoinAddress pubkeyHex network w)
   = Return "") /\
  ((forall internalPubkey btcNetwork,
       List.length internalPubkey <> 32%nat ->
       exists e, p2tr internalPubkey btcNetwork = Throw e) ->
   List.length (Buffer_from_hex pubkeyHex) <> 32%nat ->
   fst (Bitcoin.nostrPubkeyToBitcoinAddress pubkeyHex network w)
   = Return "") /\
  (fst (Bitcoin.nostrPubkeyToBitcoinAddress pubkeyHex network w) = Return ""
   <-> eccLib w = false
       \/ rejected pubkeyHex
            (Bitcoin.getNetwork (Bitcoin.default_mainnet network))
       \/ exists payment,
            p2tr (Buffer_from_hex pubkeyHex)
              (Bitcoin.getNetwork (Bitcoin.default_mainnet network))
            = Return payment /\
            or_empty (address payment) = "") /\
  (forall pubkeyHex',
      Buffer_from_hex pubkeyHex' = Buffer_from_hex pubkeyHex ->
      fst (Bitcoin.nostrPubkeyToBitcoinAddress pubkeyHex' network w)
      = fst (Bitcoin.nostrPubkeyToBitcoinAddress pubkeyHex network w)) /\
  (Bitcoin.default_mainnet network = Bitcoin.mainnet ->
   BitcoinMainnet.nostrPubkeyToBitcoinAddress pubkeyHex w
   = Bitcoin.nostrPubkeyToBitcoinAddress pubkeyHex network w).
Proof.
  assert (Hfst : forall hex,
            fst (Bitcoin.nostrPubkeyToBitcoinAddress hex network w)
            = if eccLib w then
                match p2tr (Buffer_from_hex hex)
                        (Bitcoin.getNetwork (Bitcoin.default_mainnet network))
                with
                | Return payment => Return (or_empty (address payment))
                | Throw _ => Return ""
                end
              else Return "").
  { intros hex. rewrite nostrPubkeyToBitcoinAddress_unfold.
    destruct (eccLib w); [destruct (p2tr _ _) |]; reflexivity. }
  split; [apply nostrPubkeyToBitcoinAddress_returns |].
  assert (Hrej : rejected pubkeyHex
                   (Bitcoin.getNetwork (Bitcoin.default_mainnet network)) ->
                 fst (Bitcoin.nostrPubkeyToBitcoinAddress pubkeyHex network w)
                 = Return "").
  { intros [e He]. rewrite Hfst, He. destruct (eccLib w); reflexivity. }
  split; [exact Hrej |].
  split; [intros Hcheck Hlen; apply Hrej; apply Hcheck; exact Hlen |].
  split; [| split].
  - rewrite Hfst. unfold rejected.
    destruct (eccLib w); [| split; [left; reflexivity | reflexivity]].
    destruct (p2tr (Buffer_from_hex pubkeyHex) _) as [payment | e] eqn:Hp.
    + split.
      * intros H. right. right. exists payment.
        split; [reflexivity | congruence].
      * intros [H | [[e H] | (payment0 & H & Ha)]]; try discriminate H.
        inversion H. subst payment0. rewrite Ha. reflexivity.
    + split; [| reflexivity].
      intros _. right. left. exists e. reflexivity.
  - intros pubkeyHex' Hb. rewrite !Hfst, Hb. reflexivity.
  - intros Hn. apply mainnet_nostrPubkeyToBitcoinAddress. exact Hn.
Qed.

End Equivalence.

(** ** The claims on concrete inputs *)

Section Runs.

Import TestLib.

Ltac in_range :=
  unfold exact_range;
  repeat match goal with
         | |- _ /\ _ => split
         | |- Forall _ _ => constructor
         end;
  try (vm_compute; (reflexivity || discriminate)).

Lemma createBitcoinTransaction_fee_witness :
  Bitcoin.createBitcoinTransaction privateKeyHex toAddress 50000
    [utxo "aa" 100000] 10 None fresh
  = (Return {| txHex := toAddress ++ ":50000;" ++ ownAddress ++ ":48460;";
               fee := 1540 |}, loaded) /\
  1540
  = Qceiling ((57.5 * inject_Z (Z.of_nat (List.length [utxo "aa" 100000]))
               + 2 * 43 + 10.5) * inject_Z 10).
Proof.
  assert (Hrun : Bitcoin.createBitcoinTransaction privateKeyHex toAddress 50000
                   [utxo "aa" 100000] 10 None fresh
                 = (Return {| txHex := toAddress ++ ":50000;" ++ ownAddress
                                         ++ ":48460;";
                              fee := 1540 |}, loaded))
    by reflexivity.
  split; [exact Hrun |].
  refine (proj1 (proj2 (@createBitcoinTransaction_fee lib randomness
                          _ _ _ _ _ _ _ _ _ (or_introl Hrun))) 10 _ _);
    reflexivity.
Defined.

(** C1 as stated fails for a rate that is not integral.  The rate
    3743251638333919 / 2^57, about 0.026 sat/vB, is a binary64 value; with
    one supplied output the exact product with 154 is a little above 4, so
    its ceiling is 5, but the product the code computes rounds to 4 and the
    builder returns a fee of 4. *)
Lemma createBitcoinTransaction_fee_counterexample :
  (Binary64.fl (3743251638333919 # 144115188075855872)
   == 3743251638333919 # 144115188075855872)%Q /\
  Bitcoin.createBitcoinTransaction privateKeyHex toAddress 50000
    [utxo "aa" 100000] (3743251638333919 # 144115188075855872) None fresh
  = (Return {| txHex := toAddress ++ ":50000;" ++ ownAddress ++ ":49996;";
               fee := 4 |}, loaded) /\
  Qceiling ((57.5 * inject_Z (Z.of_nat (List.length [utxo "aa" 100000]))
             + 2 * 43 + 10.5) * (3743251638333919 # 144115188075855872))
  = 5 /\
  4 <> 5.
Proof.
  split; [vm_compute; reflexivity |].
  split; [vm_compute; reflexivity |].
  split; [vm_compute; reflexivity | discriminate].
Qed.

(** C2 as stated fails on an empty private key: the supplied value, 500, is
    below the amount plus the fee, 1000 + 154, and the builder throws what
    the key validation throws, before it looks at the funds.  It also fails
    beyond 2^53 satoshis: the values 2^53 and 3 add up to less than the
    amount 2^53 - 208 plus the fee 212, but the total the code computes is
    rounded to 2^53 + 4, the change is 0, and the builder returns a
    transaction. *)
Lemma createBitcoinTransaction_insufficient_funds_counterexample :
  (sum_values [utxo "aa" 500] < 1000 + Bitcoin.estimatedFee [utxo "aa" 500] 1 /\
   fst (Bitcoin.createBitcoinTransaction "" toAddress 1000 [utxo "aa" 500] 1
          None fresh)
   = Throw (LibraryError "Expected Buffer(Length: 32)") /\
   fst (Bitcoin.createBitcoinTransaction "" toAddress 1000 [utxo "aa" 500] 1
          None fresh)
   <> Throw (InsufficientFunds
               (1000 + Bitcoin.estimatedFee [utxo "aa" 500] 1)
               (sum_values [utxo "aa" 500]))) /\
  (sum_values [utxo "aa" (2 ^ 53); utxo "bb" 3]
   < (2 ^ 53 - 208)
     + Bitcoin.estimatedFee [utxo "aa" (2 ^ 53); utxo "bb" 3] 1 /\
   fst (Bitcoin.createBitcoinTransaction privateKeyHex toAddress (2 ^ 53 - 208)
          [utxo "aa" (2 ^ 53); utxo "bb" 3] 1 None fresh)
   = Return {| txHex := toAddress ++ ":9007199254740784;"; fee := 212 |}).
Proof.
  assert (E : fst (Bitcoin.createBitcoinTransaction "" toAddress 1000
                     [utxo "aa" 500] 1 None fresh)
              = Throw (LibraryError "Expected Buffer(Length: 32)"))
    by reflexivity.
  split.
  - split; [reflexivity | split; [exact E |]].
    rewrite E. discriminate.
  - split; vm_compute; reflexivity.
Qed.

Lemma createBitcoinTransaction_insufficient_funds_witness :
  exact_range [utxo "aa" 100000] 99000 10 /\
  sum_values [utxo "aa" 100000]
    < 99000 + Bitcoin.estimatedFee [utxo "aa" 100000] 10 /\
  fst (Bitcoin.createBitcoinTransaction privateKeyHex toAddress 99000
         [utxo "aa" 100000] 10 None fresh)
  = Throw (InsufficientFunds 100540 100000) /\
  forall result w',
    ~ built privateKeyHex toAddress 99000 [utxo "aa" 100000] 10 None fresh
        result w'.
Proof.
  assert (Hrange : exact_range [utxo "aa" 100000] 99000 10) by in_range.
  assert (Hlt : sum_values [utxo "aa" 100000]
                < 99000 + Bitcoin.estimatedFee [utxo "aa" 100000] 10)
    by reflexivity.
  split; [exact Hrange | split; [exact Hlt | split; [reflexivity |]]].
  exact (proj1 (@createBitcoinTransaction_insufficient_funds lib randomness
                  privateKeyHex toAddress 99000 [utxo "aa" 100000] 10 None
                  fresh Hrange Hlt)).
Defined.

Lemma createBitcoinTransaction_change_output_witness :
  Bitcoin.createBitcoinTransaction privateKeyHex toAddress 97913
    [utxo "aa" 100000] 10 None fresh
  = (Return {| txHex := toAddress ++ ":97913;" ++ ownAddress ++ ":547;";
               fee := 1540 |}, loaded) /\
  exists changeAddress signed tx,
    extractTransaction signed = Return tx /\
    toAddress ++ ":97913;" ++ ownAddress ++ ":547;" = toHex tx /\
    txOutputs signed
    = [{| out_address := toAddress; out_value := 97913 |};
       {| out_address := changeAddress; out_value := 547 |}].
Proof.
  assert (Hrun : Bitcoin.createBitcoinTransaction privateKeyHex toAddress 97913
                   [utxo "aa" 100000] 10 None fresh
                 = (Return {| txHex := toAddress ++ ":97913;" ++ ownAddress
                                         ++ ":547;";
                              fee := 1540 |}, loaded))
    by reflexivity.
  split; [exact Hrun |].
  destruct (proj1 (@createBitcoinTransaction_change_output lib randomness
                     privateKeyHex toAddress 97913 [utxo "aa" 100000] None
                     fresh) _ _ _ (or_introl Hrun))
    as (api & keyPair & payment & changeAddress & signed & tx
        & _ & _ & _ & _ & Hx & Hhex & _ & _ & _ & _ & H547 & _).
  exists changeAddress, signed, tx.
  split; [exact Hx | split; [exact Hhex |]].
  apply H547. vm_compute. reflexivity.
Defined.

(** C4 as stated fails when the change is dust: from 100,000 satoshis, an
    amount of 97,914 at 10 sat/vB leaves a change of 546, no change output is
    created, and the returned fee plus the amount is 99,454, not 100,000.
    It also fails beyond 2^53 satoshis: the values 2^53 and 1, an amount of
    1000 and a fee of 212 give a change output of 9007199254739780, one
    satoshi less than the total input minus amount and fee.  And it fails
    for a fee rate that is not a number: the build succeeds with the
    destination output alone and the fee NaN. *)
Lemma createBitcoinTransaction_balance_counterexample :
  (Bitcoin.createBitcoinTransaction privateKeyHex toAddress 97914
     [utxo "aa" 100000] 10 None fresh
   = (Return {| txHex := toAddress ++ ":97914;"; fee := 1540 |}, loaded) /\
   97914 + 1540 <= sum_values [utxo "aa" 100000] /\
   1540 + 97914 <> sum_values [utxo "aa" 100000]) /\
  (Bitcoin.createBitcoinTransaction privateKeyHex toAddress 1000
     [utxo "aa" (2 ^ 53); utxo "bb" 1] 1 None fresh
   = (Return {| txHex := toAddress ++ ":1000;" ++ ownAddress
                           ++ ":9007199254739780;";
                fee := 212 |}, loaded) /\
   sum_values [utxo "aa" (2 ^ 53); utxo "bb" 1]
   <> 9007199254739780 + 1000 + 212) /\
  (Bitcoin.createBitcoinTransaction_NaN privateKeyHex toAddress 50000
     [utxo "aa" 100000] None fresh
   = (Return (toAddress ++ ":50000;"), loaded) /\
   50000 < sum_values [utxo "aa" 100000]).
Proof.
  split; [| split].
  - split; [reflexivity | split]; vm_compute; discriminate.
  - split; [vm_compute; reflexivity | vm_compute; discriminate].
  - split; reflexivity.
Qed.

Lemma createBitcoinTransaction_balance_witness :
  Bitcoin.createBitcoinTransaction privateKeyHex toAddress 97914
    [utxo "aa" 100000] 10 None fresh
  = (Return {| txHex := toAddress ++ ":97914;"; fee := 1540 |}, loaded) /\
  exact_range [utxo "aa" 100000] 97914 10 /\
  exists change signed,
    sum_values [utxo "aa" 100000] = change + 97914 + 1540 /\
    change = 546 /\
    txOutputs signed = [{| out_address := toAddress; out_value := 97914 |}].
Proof.
  assert (Hrun : Bitcoin.createBitcoinTransaction privateKeyHex toAddress 97914
                   [utxo "aa" 100000] 10 None fresh
                 = (Return {| txHex := toAddress ++ ":97914;"; fee := 1540 |},
                    loaded))
    by reflexivity.
  assert (Hrange : exact_range [utxo "aa" 100000] 97914 10) by in_range.
  split; [exact Hrun | split; [exact Hrange |]].
  destruct (@createBitcoinTransaction_balance lib randomness
              _ _ _ _ _ _ _ _ _ (or_introl Hrun) Hrange)
    as (change & signed & tx & _ & _ & _ & Hsum & _ & _ & Hsmall & _).
  simpl fee in Hsum.
  assert (Hc : change = 546).
  { assert (Hs : sum_values [utxo "aa" 100000] = 100000) by reflexivity.
    rewrite Hs in Hsum. lia. }
  exists change, signed.
  split; [exact Hsum | split; [exact Hc |]].
  apply Hsmall. lia.
Defined.

(** C5 as stated fails: the estimated size of one input and two outputs is
    57.5 + 86 + 10.5 = 154 vbytes, so the fee at 10 sat/vB is 1540, not
    1535, and the change is 48460, not 48465. *)
Lemma createBitcoinTransaction_scenario_counterexample :
  Bitcoin.estimatedSize [utxo "aa" 100000] = 154%Q /\
  Bitcoin.createBitcoinTransaction privateKeyHex toAddress 50000
    [utxo "aa" 100000] 10 None fresh
  = (Return {| txHex := toAddress ++ ":50000;" ++ ownAddress ++ ":48460;";
               fee := 1540 |}, loaded) /\
  1540 <> 1535 /\
  100000 - 50000 - 1540 <> 48465.
Proof.
  split; [vm_compute; reflexivity |].
  split; [reflexivity |].
  split; discriminate.
Qed.

Lemma createBitcoinTransaction_scenario_witness :
  value (utxo "aa" 100000) = 100000 /\
  Bitcoin.createBitcoinTransaction privateKeyHex toAddress 50000
    [utxo "aa" 100000] 10 None fresh
  = (Return {| txHex := toAddress ++ ":50000;" ++ ownAddress ++ ":48460;";
               fee := 1540 |}, loaded) /\
  exists f draft,
    change draft = 48460 /\
    txOutputs (psbt draft)
    = [{| out_address := toAddress; out_value := 50000 |};
       {| out_address := changeAddress f; out_value := 48460 |}].
Proof.
  assert (Hrun : Bitcoin.createBitcoinTransaction privateKeyHex toAddress 50000
                   [utxo "aa" 100000] 10 None fresh
                 = (Return {| txHex := toAddress ++ ":50000;" ++ ownAddress
                                         ++ ":48460;";
                              fee := 1540 |}, loaded))
    by reflexivity.
  split; [reflexivity | split; [exact Hrun |]].
  destruct (@createBitcoinTransaction_scenario lib randomness privateKeyHex
              toAddress (utxo "aa" 100000) None fresh _ loaded eq_refl Hrun)
    as (_ & f & draft & _ & _ & Hch & _ & Ho).
  exists f, draft. split; [exact Hch | exact Ho].
Defined.

(** C7 as stated fails on a page where the entry point has not run: the
    same key on the same network gives the empty string before the first
    call of the builder and the address after it. *)
Lemma nostrPubkeyToBitcoinAddress_deterministic_counterexample :
  fst (Bitcoin.nostrPubkeyToBitcoinAddress privateKeyHex None fresh)
  = Return "" /\
  fst (Bitcoin.nostrPubkeyToBitcoinAddress privateKeyHex None
         (snd (Bitcoin.createBitcoinTransaction privateKeyHex toAddress 50000
                 [utxo "aa" 100000] 10 None fresh)))
  = Return ownAddress /\
  ownAddress <> "".
Proof.
  split; [reflexivity | split; [reflexivity | discriminate]].
Qed.

Lemma nostrPubkeyToBitcoinAddress_deterministic_witness :
  eccLib started = eccLib loaded /\
  fst (Bitcoin.nostrPubkeyToBitcoinAddress privateKeyHex None started)
  = Return ownAddress /\
  fst (Bitcoin.nostrPubkeyToBitcoinAddress privateKeyHex None loaded)
  = Return ownAddress.
Proof.
  assert (H : eccLib started = eccLib loaded) by reflexivity.
  assert (E : fst (Bitcoin.nostrPubkeyToBitcoinAddress privateKeyHex None
                     started) = Return ownAddress)
    by reflexivity.
  split; [exact H | split; [exact E |]].
  rewrite <- (proj1 (@nostrPubkeyToBitcoinAddress_deterministic lib
                       randomness privateKeyHex None started loaded H)).
  exact E.
Defined.

(** C8 as stated fails on a key text of the wrong length that decodes to 32
    bytes: [Buffer.from] stops at the first pair that is not hex and drops a
    single last digit, so a valid key followed by zz (66 characters) or by
    one more digit (65 characters) gets the address of the key, not the
    empty string. *)
Lemma nostrPubkeyToBitcoinAddress_malformed_counterexample :
  String.length privateKeyHex = 64%nat /\
  String.length (privateKeyHex ++ "zz") = 66%nat /\
  fst (Bitcoin.nostrPubkeyToBitcoinAddress (privateKeyHex ++ "zz") None started)
  = Return ownAddress /\
  String.length (privateKeyHex ++ "0") = 65%nat /\
  fst (Bitcoin.nostrPubkeyToBitcoinAddress (privateKeyHex ++ "0") None started)
  = Return ownAddress /\
  ownAddress <> "".
Proof.
  repeat split; try reflexivity. discriminate.
Qed.

Lemma nostrPubkeyToBitcoinAddress_malformed_witness :
  rejected "abcd" (Bitcoin.getNetwork Bitcoin.mainnet) /\
  fst (Bitcoin.nostrPubkeyToBitcoinAddress "abcd" None started) = Return "" /\
  List.length (Buffer_from_hex (privateKeyHex ++ "01")) = 33%nat /\
  fst (Bitcoin.nostrPubkeyToBitcoinAddress (privateKeyHex ++ "01") None
         started) = Return "".
Proof.
  assert (H : rejected "abcd" (Bitcoin.getNetwork Bitcoin.mainnet)).
  { exists (LibraryError "Expected property internalPubkey of type Buffer(Length: 32)").
    reflexivity. }
  split; [exact H |].
  split.
  - exact (proj1 (proj2 (@nostrPubkeyToBitcoinAddress_malformed lib "abcd" None
                           started)) H).
  - split; [reflexivity |].
    refine (proj1 (proj2 (proj2 (@nostrPubkeyToBitcoinAddress_malformed lib
                                   (privateKeyHex ++ "01") None started)))
              _ _).
    + intros internalPubkey btcNetwork Hlen. simpl.
      destruct (List.length internalPubkey =? 32)%nat eqn:E.
      * apply Nat.eqb_eq in E. contradiction.
      * eexists. reflexivity.
    + vm_compute. discriminate.
Defined.

(** C10 as stated fails for txHex: the signatures are made with fresh
    random bytes.  With the signatures shown, the mainnet-only builder whose
    signer draws 00...00 and the parameterised builder whose signer draws
    ff...ff return the same fee and two different transactions; so do two
    calls of one builder. *)
Lemma mainnet_module_agrees_counterexample :
  fst (@BitcoinMainnet.createBitcoinTransaction signing (draws Byte.x00)
         privateKeyHex toAddress 50000 [utxo "aa" 100000] 10 signing_started)
  = Return {| txHex := toAddress ++ ":50000;" ++ ownAddress ++ ":48460;"
                       ++ "sig:0000000000000000000000000000000000000000000000000000000000000000;";
              fee := 1540 |} /\
  fst (@Bitcoin.createBitcoinTransaction signing (draws Byte.xff)
         privateKeyHex toAddress 50000 [utxo "aa" 100000] 10
         (Some Bitcoin.mainnet) signing_started)
  = Return {| txHex := toAddress ++ ":50000;" ++ ownAddress ++ ":48460;"
                       ++ "sig:ffffffffffffffffffffffffffffffffffffffffffffffffffffffffffffffff;";
              fee := 1540 |} /\
  fst (@Bitcoin.createBitcoinTransaction signing (draws Byte.x00)
         privateKeyHex toAddress 50000 [utxo "aa" 100000] 10
         (Some Bitcoin.mainnet) signing_started)
  <> fst (@Bitcoin.createBitcoinTransaction signing (draws Byte.xff)
            privateKeyHex toAddress 50000 [utxo "aa" 100000] 10
            (Some Bitcoin.mainnet) signing_started).
Proof.
  split; [vm_compute; reflexivity |].
  split; [vm_compute; reflexivity |].
  vm_compute. discriminate.
Qed.

Lemma btcToSats_satsToBTC_round_trip_witness :
  (0.00012345 == 12345 # 100000000)%Q /\
  (Z.abs 12345 < 2 ^ 25 * 10 ^ 8)%Z /\
  Bitcoin.btcToSats (Binary64.fl 0.00012345) = 12345 /\
  Bitcoin.satsToBTC 12345 = Some "0.00012345" /\
  decimal_value "0.00012345" = Some 0.00012345%Q.
Proof.
  assert (Hd : (0.00012345 == 12345 # 100000000)%Q) by reflexivity.
  assert (Hs : (Z.abs 12345 < 2 ^ 25 * 10 ^ 8)%Z) by reflexivity.
  split; [exact Hd | split; [exact Hs |]].
  split; [exact (proj1 (@btcToSats_satsToBTC_round_trip _ _ Hd Hs)) |].
  split; vm_compute; reflexivity.
Defined.

(** C9 as stated fails from 2^25 BTC on.  33554432.00000019 has 8 decimal
    places; the nearest binary64 value times 100000000 is
    3355443200000019.5, which [Math.round] takes to 3355443200000020, and
    the way back gives 33554432.00000020. *)
Lemma btcToSats_satsToBTC_round_trip_counterexample :
  (Binary64.fl 33554432.00000019 .* 100000000 == 3355443200000019.5)%Q /\
  Bitcoin.btcToSats (Binary64.fl 33554432.00000019) = 3355443200000020 /\
  Bitcoin.satsToBTC
    (inject_Z (Bitcoin.btcToSats (Binary64.fl 33554432.00000019)))
  = Some "33554432.00000020" /\
  decimal_value "33554432.00000020" = Some 33554432.00000020%Q /\
  ~ (33554432.00000020 == 33554432.00000019)%Q.
Proof.
  split; [vm_compute; reflexivity |].
  split; [vm_compute; reflexivity |].
  split; [vm_compute; reflexivity |].
  split; [vm_compute; reflexivity |].
  unfold Qeq. simpl. discriminate.
Qed.

End Runs.

(** * Further properties of the code *)

(** ** Conversions, the other way round *)

Section ConversionFacts.

Import Binary64.

Local Open Scope Q_scope.

(** X1.  The round trip the other way.  For every satoshi value s below
    2^25 * 10^8 in magnitude, [satsToBTC] prints a numeral, and [btcToSats]
    takes the number that numeral denotes back to s.  Hence [satsToBTC]
    prints different strings for different values of that range. *)
Theorem satsToBTC_btcToSats_round_trip s :
  (Z.abs s < 2 ^ 25 * 10 ^ 8)%Z ->
  (exists str v,
      Bitcoin.satsToBTC (inject_Z s) = Some str /\
      decimal_value str = Some v /\
      Bitcoin.btcToSats (fl v) = s) /\
  (forall s',
      (Z.abs s' < 2 ^ 25 * 10 ^ 8)%Z ->
      Bitcoin.satsToBTC (inject_Z s') = Bitcoin.satsToBTC (inject_Z s) ->
      s' = s).
Proof.
  intros Hs.
  assert (Hback : forall t, (Z.abs t < 2 ^ 25 * 10 ^ 8)%Z ->
            exists str v,
              Bitcoin.satsToBTC (inject_Z t) = Some str /\
              decimal_value str = Some v /\
              Bitcoin.btcToSats (fl v) = t).
  { intros t Ht.
    destruct (decimal_value_fixed_digits t) as (v & Hv & Heq).
    eexists. exists v. split; [apply satsToBTC_fl; exact Ht |].
    split; [exact Hv |].
    rewrite (fl_comp Heq). apply btcToSats_fl. exact Ht. }
  split; [apply Hback; exact Hs |].
  intros s' Hs' E.
  destruct (Hback s Hs) as (str & v & H1 & H2 & H3).
  destruct (Hback s' Hs') as (str' & v' & H1' & H2' & H3').
  rewrite H1, H1' in E. inversion E. subst str'.
  rewrite H2 in H2'. inversion H2'. subst v'. congruence.
Qed.

(** X2.  Whatever finite number it is given, [satsToBTC] prints an
    optional minus sign, at least one digit, a point and exactly eight
    digits; only from 10^21 on does [toFixed] leave the fixed notation.
    (Of NaN and the infinities, which are no values of [Q], [toFixed] prints
    the name.)  The copy of the function on the main page and the one of the
    mainnet-only module are the same function. *)
Theorem satsToBTC_format sats :
  match Bitcoin.satsToBTC sats with
  | Some str =>
      exists a b,
        str = ((if Qle_bool 0 (sats ./ 100000000) then "" else "-")
               ++ a ++ "." ++ b)%string /\
        nonempty a = true /\ all_digits a = true /\
        String.length b = 8%nat /\ all_digits b = true
  | None => 1000000000000000000000 <= Qabs (sats ./ 100000000)
  end /\
  Index.satsToBTC sats = Bitcoin.satsToBTC sats /\
  BitcoinMainnet.satsToBTC sats = Bitcoin.satsToBTC sats.
Proof.
  split; [| split; reflexivity].
  unfold Bitcoin.satsToBTC, toFixed.
  set (x := sats ./ 100000000).
  change (inject_Z (10 ^ 21)) with 1000000000000000000000.
  destruct (Qle_bool 1000000000000000000000 (Qabs x)) eqn:E.
  - apply Qle_bool_iff. exact E.
  - set (n := Qfloor (Qabs x * inject_Z (10 ^ Z.of_nat 8) + (1 # 2))).
    assert (Hn : (0 <= n)%Z).
    { unfold n. change 0%Z with (Qfloor 0). apply Qfloor_resp_le.
      pose proof (Qabs_nonneg x) as Hx.
      change (inject_Z (10 ^ Z.of_nat 8)) with 100000000. lra. }
    destruct (@fixed_digits_8 n Hn) as (a & b & Hf & Ha & Hb & Hna & Hlb & _).
    exists a, b. rewrite Hf. repeat split; assumption.
Qed.

(** X19.  [btcToSats] never misses by a whole satoshi.  For every number
    whose product with 10^8 is below 2^52 in magnitude, the result lies
    between that product rounded down and rounded up; when the product is a
    whole number of satoshis, the result is that number.  The mainnet-only
    module has the same function. *)
Theorem btcToSats_nearest btc :
  Qabs (btc * 100000000) < 4503599627370496 ->
  (Qfloor (btc * 100000000) <= Bitcoin.btcToSats btc
   <= Qceiling (btc * 100000000))%Z /\
  (forall s : Z, btc * 100000000 == inject_Z s -> Bitcoin.btcToSats btc = s) /\
  BitcoinMainnet.btcToSats btc = Bitcoin.btcToSats btc.
Proof.
  intros Hb. set (t := btc * 100000000) in *.
  assert (Ht : - (4503599627370496) < t < 4503599627370496).
  { apply Qabs_Qlt_condition. exact Hb. }
  assert (Hy : t - (1 # 4) <= fl t <= t + (1 # 4)).
  { destruct (@fl_near t 52) as [Hlo Hhi];
      [rewrite pow2_52; lra | rewrite pow2_52; lra | unfold emin; lia |].
    rewrite pow2_m2 in Hlo, Hhi. split; assumption. }
  unfold Bitcoin.btcToSats, BitcoinMainnet.btcToSats, Number_mul, Math_round.
  fold t. set (y := fl t) in *.
  pose proof (Qfloor_le (y + (1 # 2))) as H1.
  pose proof (Qlt_floor (y + (1 # 2))) as H2.
  rewrite inject_Z_plus in H2. change (inject_Z 1) with 1 in H2.
  set (r := Qfloor (y + (1 # 2))) in *.
  split; [| split; [| reflexivity]].
  - pose proof (Qfloor_le t) as H3. pose proof (Qle_ceiling t) as H4.
    split.
    + assert (H : inject_Z (Qfloor t) < inject_Z (r + 1)).
      { rewrite inject_Z_plus. change (inject_Z 1) with 1. lra. }
      rewrite <- Zlt_Qlt in H. lia.
    + assert (H : inject_Z r < inject_Z (Qceiling t + 1)).
      { rewrite inject_Z_plus. change (inject_Z 1) with 1. lra. }
      rewrite <- Zlt_Qlt in H. lia.
  - intros s Hs. apply Qfloor_unique; lra.
Qed.
End ConversionFacts.

(** ** The fee estimate *)

Section FeeFacts.

Import Binary64.

Local Open Scope Q_scope.

Lemma u_value : u == 1 # 9007199254740992.
Proof. vm_compute. reflexivity. Qed.

Lemma fl_lower x : pow2 emin <= x -> x - x * u <= fl x.
Proof.
  intros Hx.
  assert (Hpos : 0 < x).
  { apply Qlt_le_trans with (pow2 emin); [apply pow2_pos | exact Hx]. }
  rewrite (fl_pos Hpos). apply round_pos_error; assumption.
Qed.

Lemma Qceiling_half z : Qceiling (z # 2) = ((z + 1) / 2)%Z.
Proof.
  unfold Qceiling, Qfloor, Qopp. cbn [Qnum Qden].
  change (Z.pos 2) with 2%Z.
  pose proof (Z.div_mod (- z) 2) as H1.
  pose proof (Z.mod_pos_bound (- z) 2) as H2.
  pose proof (Z.div_mod (z + 1) 2) as H3.
  pose proof (Z.mod_pos_bound (z + 1) 2) as H4.
  lia.
Qed.

(** With n inputs the size is (115 n + 193) / 2; for an integral rate r
    within the exact range the fee is the ceiling of the exact product. *)
Lemma estimatedFee_integer utxos r :
  let k := (115 * Z.of_nat (List.length utxos) + 193)%Z in
  (k * Z.abs r < 2 ^ 53)%Z ->
  Bitcoin.estimatedFee utxos (inject_Z r) = ((k * r + 1) / 2)%Z.
Proof.
  intros k Hb.
  assert (Hk0 : (193 <= k)%Z) by (unfold k; lia).
  rewrite <- Qceiling_half.
  unfold Bitcoin.estimatedFee, Math_ceil, Number_mul.
  apply Qceiling_comp.
  destruct (Z.eq_dec r 0) as [-> | Hr0].
  - rewrite fl_zero; [| ring]. rewrite Z.mul_0_r. reflexivity.
  - assert (Hk : (k < 2 ^ 53)%Z) by nia.
    pose proof (estimatedSize_exact utxos Hk) as Hs. fold k in Hs.
    assert (Habs : (Z.abs (k * r) < 2 ^ 53)%Z).
    { rewrite Z.abs_mul, (Z.abs_eq k) by lia. exact Hb. }
    assert (Hx : Bitcoin.estimatedSize utxos * inject_Z r == k * r # 2).
    { rewrite Hs. unfold Qeq, Qmult, inject_Z. cbn [Qnum Qden]. lia. }
    rewrite (fl_half Hx Habs). exact Hx.
Qed.

(** The estimated size is at least 1, so a rate in the normal range of
    binary64 gives a positive fee. *)
Lemma estimatedSize_bounds utxos :
  let k := (115 * Z.of_nat (List.length utxos) + 193)%Z in
  (k < 2 ^ 53)%Z ->
  Bitcoin.estimatedSize utxos == inject_Z k * (1 # 2) /\
  193 <= inject_Z k < 9007199254740992.
Proof.
  intros k Hk.
  assert (Hk0 : (193 <= k)%Z) by (unfold k; lia).
  pose proof (estimatedSize_exact utxos Hk) as Hs. fold k in Hs.
  split.
  - rewrite Hs. unfold Qeq, Qmult, inject_Z. cbn [Qnum Qden]. lia.
  - change 193 with (inject_Z 193).
    change 9007199254740992 with (inject_Z (2 ^ 53)).
    rewrite <- Zle_Qle, <- Zlt_Qlt. lia.
Qed.

Lemma estimatedFee_positive utxos feeRate :
  (115 * Z.of_nat (List.length utxos) + 193 < 2 ^ 53)%Z ->
  pow2 emin <= feeRate ->
  (1 <= Bitcoin.estimatedFee utxos feeRate)%Z.
Proof.
  intros Hk Hr.
  destruct (estimatedSize_bounds utxos Hk) as [Hs HkQ].
  set (size := Bitcoin.estimatedSize utxos) in *.
  assert (Hsize : 1 <= size) by (rewrite Hs; lra).
  unfold Bitcoin.estimatedFee, Math_ceil, Number_mul. fold size.
  assert (Hp : 0 < pow2 emin) by apply pow2_pos.
  assert (Hx : pow2 emin <= size * feeRate).
  { apply Qle_trans with (1 * feeRate); [lra |].
    apply Qmult_le_compat_r; lra. }
  pose proof (fl_lower Hx) as Hlo. rewrite u_value in Hlo.
  pose proof (Qle_ceiling (fl (size * feeRate))) as Hc.
  assert (H0 : 0 < inject_Z (Qceiling (fl (size * feeRate)))) by lra.
  change 0 with (inject_Z 0) in H0. rewrite <- Zlt_Qlt in H0. lia.
Qed.

(** X3.  Bounds of the fee estimate, for any fee rate, integral or not.
    With n inputs and k = 115 n + 193 (twice the estimated size): a rate of
    zero gives a fee of zero, a rate that is not negative a fee that is not
    negative, a rate in the normal range of binary64 (from 2^-1022) a fee of
    at least one satoshi, and a rate of at least 1 sat/vB a fee of at least
    the size rounded up, (k + 1) / 2. *)
Theorem estimatedFee_bounds utxos feeRate :
  let k := (115 * Z.of_nat (List.length utxos) + 193)%Z in
  (k < 2 ^ 53)%Z ->
  (0 <= feeRate -> (0 <= Bitcoin.estimatedFee utxos feeRate)%Z) /\
  (feeRate == 0 -> Bitcoin.estimatedFee utxos feeRate = 0%Z) /\
  (pow2 emin <= feeRate -> (1 <= Bitcoin.estimatedFee utxos feeRate)%Z) /\
  (1 <= feeRate -> ((k + 1) / 2 <= Bitcoin.estimatedFee utxos feeRate)%Z).
Proof.
  intros k Hk.
  destruct (estimatedSize_bounds utxos Hk) as [Hs HkQ]. fold k in Hs, HkQ.
  split; [| split; [| split]]; [| | apply estimatedFee_positive; exact Hk |].
  - intros Hr. unfold Bitcoin.estimatedFee, Math_ceil, Number_mul.
    change 0%Z with (Qceiling 0). apply Qceiling_resp_le.
    apply fl_nonneg. apply Qmult_le_0_compat; [rewrite Hs; lra | exact Hr].
  - intros Hr. unfold Bitcoin.estimatedFee, Math_ceil, Number_mul.
    rewrite fl_zero; [reflexivity |]. rewrite Hr. ring.
  - intros Hr. unfold Bitcoin.estimatedFee, Math_ceil, Number_mul.
    set (size := Bitcoin.estimatedSize utxos) in *.
    assert (Hx : size <= size * feeRate).
    { rewrite <- (Qmult_1_r size) at 1. apply Qmult_le_l; [rewrite Hs |]; lra. }
    assert (Hmin : pow2 emin <= size * feeRate).
    { apply Qle_trans with 1; [vm_compute; discriminate |].
      apply Qle_trans with size; [rewrite Hs; lra | exact Hx]. }
    pose proof (fl_lower Hmin) as Hlo. rewrite u_value in Hlo.
    pose proof (Qle_ceiling (fl (size * feeRate))) as Hc.
    set (c := Qceiling (fl (size * feeRate))) in *.
    assert (H1 : inject_Z k < inject_Z (2 * c + 1)).
    { rewrite inject_Z_plus, inject_Z_mult.
      change (inject_Z 1) with 1. change (inject_Z 2) with 2. lra. }
    rewrite <- Zlt_Qlt in H1.
    pose proof (Z.div_mod (k + 1) 2) as H3.
    pose proof (Z.mod_pos_bound (k + 1) 2) as H4. lia.
Qed.

(** X4.  For an integral fee rate r within the exact range the fee is the
    integer (k r + 1) / 2 with k = 115 n + 193.  It does not decrease when
    inputs are added or the rate is raised, and one more input adds between
    57 r and 58 r satoshis. *)
Theorem estimatedFee_integer_rate utxos r :
  let k := (115 * Z.of_nat (List.length utxos) + 193)%Z in
  (k * Z.abs r < 2 ^ 53)%Z ->
  Bitcoin.estimatedFee utxos (inject_Z r) = ((k * r + 1) / 2)%Z /\
  (forall utxos' r',
      let k' := (115 * Z.of_nat (List.length utxos') + 193)%Z in
      (List.length utxos <= List.length utxos')%nat ->
      (0 <= r <= r')%Z ->
      (k' * r' < 2 ^ 53)%Z ->
      (Bitcoin.estimatedFee utxos (inject_Z r)
       <= Bitcoin.estimatedFee utxos' (inject_Z r'))%Z) /\
  (forall utxo,
      (0 <= r)%Z ->
      ((k + 115) * r < 2 ^ 53)%Z ->
      (57 * r <= Bitcoin.estimatedFee (utxo :: utxos) (inject_Z r)
                 - Bitcoin.estimatedFee utxos (inject_Z r) <= 58 * r)%Z).
Proof.
  intros k Hb.
  pose proof (estimatedFee_integer utxos r Hb) as Hfee. fold k in Hfee.
  split; [exact Hfee | split].
  - intros utxos' r' k' Hlen Hr Hb'.
    assert (Hb2 : (k' * Z.abs r' < 2 ^ 53)%Z)
      by (rewrite Z.abs_eq by lia; exact Hb').
    rewrite Hfee, (estimatedFee_integer utxos' r' Hb2). fold k'.
    apply Z.div_le_mono; [lia |].
    assert (Hkk : (k <= k')%Z) by (unfold k, k'; lia).
    assert (0 <= k)%Z by (unfold k; lia).
    nia.
  - intros utxo Hr Hb'.
    assert (Hb2 : ((115 * Z.of_nat (List.length (utxo :: utxos)) + 193)
                   * Z.abs r < 2 ^ 53)%Z).
    { rewrite Z.abs_eq by lia. simpl List.length. rewrite Nat2Z.inj_succ.
      unfold k in Hb'. lia. }
    rewrite Hfee, (estimatedFee_integer (utxo :: utxos) r Hb2).
    simpl List.length. rewrite Nat2Z.inj_succ.
    replace (115 * Z.succ (Z.of_nat (List.length utxos)) + 193)%Z
      with (k + 115)%Z by (unfold k; lia).
    pose proof (Z.div_mod (k * r + 1) 2) as H1.
    pose proof (Z.mod_pos_bound (k * r + 1) 2) as H2.
    pose proof (Z.div_mod ((k + 115) * r + 1) 2) as H3.
    pose proof (Z.mod_pos_bound ((k + 115) * r + 1) 2) as H4.
    lia.
Qed.

End FeeFacts.

(** ** What a build consists of *)

Section BuildFacts.

Context {L : BitcoinLib} {R : Randomness}.

Lemma addInputs_txInputs internalPubkey btcNetwork payment utxos :
  p2tr internalPubkey btcNetwork = Return payment ->
  forall psbt total w psbt' total' w',
    Bitcoin.addInputs internalPubkey btcNetwork utxos psbt total w
      = (Return (psbt', total'), w') ->
    txInputs psbt'
    = (txInputs psbt ++ map (inputOf internalPubkey payment) utxos)%list /\
    psbt_network psbt' = psbt_network psbt /\
    signatures psbt' = signatures psbt.
Proof.
  intros Hp.
  induction utxos as [| utxo rest IH]; intros psbt total w psbt' total' w' H;
    simpl in H.
  - apply ret_inv in H. destruct H as [H _]. inversion H. subst.
    simpl. rewrite app_nil_r. repeat split; reflexivity.
  - bind_inv H as payment1 w1 E1. bind_inv H as psbt1 w2 E2. lift_inv E2.
    apply payments_p2tr_Return in E1. destruct E1 as (Hp1 & _ & _).
    rewrite Hp in Hp1. inversion Hp1. subst payment1.
    unfold addInput in E2.
    apply Outcome_bind_Return_inv in E2. destruct E2 as [[] [_ E2]].
    inversion E2. subst psbt1. clear E2.
    apply IH in H. simpl in H. destruct H as (Hin & Hnet & Hsig).
    split; [| split]; [| exact Hnet | exact Hsig].
    rewrite Hin, <- app_assoc. reflexivity.
Qed.

Lemma getECPair_initialised w :
  snd (Bitcoin.getECPair w) = initialised w /\
  exists api, fst (Bitcoin.getECPair w) = Return api.
Proof.
  unfold Bitcoin.getECPair, initialised.
  destruct (ECPair w) as [api |].
  - split; [reflexivity | exists api; reflexivity].
  - split; [reflexivity | exists ECPairFactory; reflexivity].
Qed.

Lemma createBitcoinTransaction_inputs_world privateKeyHex utxos network w :
  snd (Bitcoin.createBitcoinTransaction_inputs privateKeyHex utxos network w)
  = initialised w.
Proof.
  destruct (getECPair_initialised w) as [Hw _].
  unfold Bitcoin.createBitcoinTransaction_inputs.
  unfold bind at 1.
  destruct (Bitcoin.getECPair w) as [[api | e] w1]; simpl in Hw; subst w1;
    [| reflexivity].
  unfold bind at 1, lift at 1.
  destruct (api_fromPrivateKey api _) as [kp | e]; [| reflexivity].
  unfold bind at 1.
  destruct (payments_p2tr _ _ (initialised w)) as [[payment | e] w2] eqn:E2;
    apply payments_p2tr_world in E2; subst w2; [| reflexivity].
  destruct (address payment) as [addr |]; [| reflexivity].
  destruct (addr =? "")%string; [reflexivity |].
  unfold bind.
  destruct (Bitcoin.addInputs _ _ _ _ _ (initialised w))
    as [[[psbt1 total] | e] w3] eqn:E3;
    apply addInputs_world in E3; subst w3; reflexivity.
Qed.

Lemma createBitcoinTransaction_world
    privateKeyHex toAddress amountSats utxos feeRate network w :
  snd (Bitcoin.createBitcoinTransaction privateKeyHex toAddress amountSats
         utxos feeRate network w) = initialised w.
Proof.
  pose proof (createBitcoinTransaction_inputs_world privateKeyHex utxos
                network w) as H1.
  unfold Bitcoin.createBitcoinTransaction. unfold bind at 1.
  destruct (Bitcoin.createBitcoinTransaction_inputs _ _ _ w) as [[f | e] w1];
    simpl in H1; subst w1; [| reflexivity].
  unfold bind.
  pose proof (createBitcoinTransaction_outputs_world toAddress amountSats utxos
                feeRate f (initialised w)) as H2.
  destruct (Bitcoin.createBitcoinTransaction_outputs _ _ _ _ _ (initialised w))
    as [[draft | e] w2]; simpl in H2; subst w2; [| reflexivity].
  apply createBitcoinTransaction_sign_world.
Qed.

Lemma initialised_idempotent w : initialised (initialised w) = initialised w.
Proof.
  unfold initialised. destruct (ECPair w) eqn:E; [rewrite E |]; reflexivity.
Qed.

(** The first part, when it returns, has registered the ECC engine. *)
Lemma createBitcoinTransaction_inputs_engine
    privateKeyHex utxos network w f w' :
  Bitcoin.createBitcoinTransaction_inputs privateKeyHex utxos network w
    = (Return f, w') ->
  eccLib w' = true.
Proof.
  intros H.
  pose proof (createBitcoinTransaction_inputs_world privateKeyHex utxos
                network w) as Hw.
  rewrite H in Hw. simpl in Hw.
  unfold Bitcoin.createBitcoinTransaction_inputs in H.
  bind_inv H as api w1 E1. bind_inv H as kp w2 E2. lift_inv E2.
  bind_inv H as payment w3 E3.
  apply payments_p2tr_Return in E3. destruct E3 as (_ & He & ->).
  destruct (getECPair_initialised w) as [Hw1 _].
  rewrite E1 in Hw1. simpl in Hw1. congruence.
Qed.

Lemma createBitcoinTransaction_inputs_txInputs
    privateKeyHex utxos network w f w' :
  Bitcoin.createBitcoinTransaction_inputs privateKeyHex utxos network w
    = (Return f, w') ->
  exists payment,
    p2tr (internalPubkey f)
      (Bitcoin.getNetwork (Bitcoin.default_mainnet network)) = Return payment /\
    address payment = Some (changeAddress f) /\
    txInputs (funded f) = map (inputOf (internalPubkey f) payment) utxos /\
    psbt_network (funded f)
    = Bitcoin.getNetwork (Bitcoin.default_mainnet network) /\
    signatures (funded f) = noSignatures.
Proof.
  unfold Bitcoin.createBitcoinTransaction_inputs. intros H.
  bind_inv H as api w1 E1. bind_inv H as kp w2 E2. lift_inv E2.
  bind_inv H as payment w3 E3.
  apply payments_p2tr_Return in E3. destruct E3 as (Hp & _ & ->).
  destruct (address payment) as [addr |] eqn:Ha; [| discriminate H].
  destruct (addr =? "")%string eqn:Hne; [discriminate H |].
  bind_inv H as r w4 E4. destruct r as [psbt1 total].
  pose proof (@addInputs_txInputs _ _ _ _ Hp _ _ _ _ _ _ E4)
    as (Hin & Hnet & Hsig).
  simpl in Hin, Hnet, Hsig.
  apply ret_inv in H. destruct H as [H _]. inversion H. subst f. simpl.
  exists payment. repeat split; assumption.
Qed.

Lemma signEach_Throw signer indices e :
  fold_left (fun acc i => Outcome_bind acc (fun p => signInput p i signer))
    indices (Throw e) = Throw e.
Proof. induction indices as [| i rest IH]; simpl; [reflexivity | exact IH]. Qed.

Lemma signInputs_signEach signer count :
  forall psbt i,
    Bitcoin.signInputs psbt i count signer = signEach signer (seq i count) psbt.
Proof.
  unfold signEach.
  induction count as [| count IH]; intros psbt i; simpl.
  - reflexivity.
  - destruct (signInput psbt i signer) as [psbt1 | e]; simpl.
    + apply IH.
    + rewrite signEach_Throw. reflexivity.
Qed.

(** X5.  No coin selection: a returned transaction comes from a PSBT
    whose inputs are the supplied outputs, all of them, once each and in the
    order given, each with its txid, vout and value, the script of the
    signer's own P2TR payment and the x-only public key of the signer as
    internal key; the PSBT is on the network the call names. *)
Theorem createBitcoinTransaction_spends_every_output
    privateKeyHex toAddress amountSats utxos feeRate network w result w' :
  Bitcoin.createBitcoinTransaction privateKeyHex toAddress amountSats
    utxos feeRate network w = (Return result, w') ->
  exists f payment signed tx,
    Bitcoin.createBitcoinTransaction_inputs privateKeyHex utxos network w
      = (Return f, w') /\
    internalPubkey f = Buffer_slice (publicKey (keyPair f)) 1 33 /\
    p2tr (internalPubkey f)
      (Bitcoin.getNetwork (Bitcoin.default_mainnet network)) = Return payment /\
    txInputs signed = map (inputOf (internalPubkey f) payment) utxos /\
    List.length (txInputs signed) = List.length utxos /\
    psbt_network signed
    = Bitcoin.getNetwork (Bitcoin.default_mainnet network) /\
    extractTransaction signed = Return tx /\
    txHex result = toHex tx.
Proof.
  intros H.
  apply createBitcoinTransaction_Return in H.
  destruct H as (f & draft & Hin & Hout & Hsign).
  pose proof (createBitcoinTransaction_inputs_Return _ _ _ _ Hin)
    as (Hipk & _).
  pose proof (createBitcoinTransaction_inputs_txInputs _ _ _ _ Hin)
    as (payment & Hp & _ & Hti & Hnet & _).
  unfold Bitcoin.createBitcoinTransaction_outputs in Hout.
  destruct (_ <? 0); [discriminate Hout |].
  bind_inv Hout as psbt2 w5 E5. lift_inv E5.
  bind_inv Hout as psbt3 w6 E6.
  apply ret_inv in Hout. destruct Hout as [Hout _]. inversion Hout.
  subst draft. clear Hout.
  assert (H3 : txInputs psbt3 = txInputs (funded f) /\
               psbt_network psbt3 = psbt_network (funded f)).
  { apply addOutput_Return in E5. destruct E5 as (Hn5 & Hi5 & _).
    destruct (Bitcoin.dustLimit <? _).
    - lift_inv E6. apply addOutput_Return in E6.
      destruct E6 as (Hn6 & Hi6 & _). split; congruence.
    - apply ret_inv in E6. destruct E6 as [E6 _]. inversion E6. subst.
      split; assumption. }
  destruct H3 as [Hi3 Hn3].
  unfold Bitcoin.createBitcoinTransaction_sign in Hsign. simpl in Hsign.
  bind_inv Hsign as signer w2 E2. lift_inv E2.
  bind_inv Hsign as psbt4 w3 E3. lift_inv E3.
  bind_inv Hsign as psbt5 w4 E4. lift_inv E4.
  bind_inv Hsign as tx w7 E7. lift_inv E7.
  apply ret_inv in Hsign. destruct Hsign as [Hsign _]. inversion Hsign.
  subst result. simpl.
  assert (H4 : txInputs psbt4 = txInputs psbt3 /\
               psbt_network psbt4 = psbt_network psbt3).
  { clear - E3. revert E3. generalize 0%nat. generalize psbt3.
    induction (List.length utxos) as [| count IH]; intros p i E; simpl in E.
    - inversion E. split; reflexivity.
    - apply Outcome_bind_Return_inv in E. destruct E as (p1 & E1 & E).
      apply IH in E. destruct E as [Hi Hn].
      unfold signInput in E1.
      apply Outcome_bind_Return_inv in E1. destruct E1 as (s & _ & E1).
      inversion E1. subst p1. simpl in *. split; assumption. }
  destruct H4 as [Hi4 Hn4].
  assert (H5 : txInputs psbt5 = txInputs psbt4 /\
               psbt_network psbt5 = psbt_network psbt4).
  { unfold finalizeAllInputs in E4.
    apply Outcome_bind_Return_inv in E4. destruct E4 as (s & _ & E4).
    inversion E4. split; reflexivity. }
  destruct H5 as [Hi5 Hn5].
  exists f, payment, psbt5, tx.
  assert (Hall : txInputs psbt5
                 = map (inputOf (internalPubkey f) payment) utxos)
    by congruence.
  repeat split; try assumption; try reflexivity.
  - rewrite Hall. apply length_map.
  - congruence.
Qed.

(** X6.  A returned transaction was signed input by input: with the key
    pair tweaked by the TapTweak hash of its x-only public key, at the
    indices 0, 1, ... up to the number of inputs of the PSBT, each once and
    in that order, then finalised and extracted. *)
Theorem createBitcoinTransaction_signs_every_input
    privateKeyHex toAddress amountSats utxos feeRate network w result w' :
  Bitcoin.createBitcoinTransaction privateKeyHex toAddress amountSats
    utxos feeRate network w = (Return result, w') ->
  exists f draft tweakedSigner signedPsbt finalPsbt tx,
    Bitcoin.createBitcoinTransaction_inputs privateKeyHex utxos network w
      = (Return f, w') /\
    Bitcoin.createBitcoinTransaction_outputs toAddress amountSats utxos
      feeRate f w' = (Return draft, w') /\
    tweak (keyPair f) (taggedHash "TapTweak" (internalPubkey f))
      = Return tweakedSigner /\
    signEach tweakedSigner (seq 0 (List.length (txInputs (psbt draft))))
      (psbt draft) = Return signedPsbt /\
    finalizeAllInputs signedPsbt = Return finalPsbt /\
    extractTransaction finalPsbt = Return tx /\
    txHex result = toHex tx.
Proof.
  intros H.
  apply createBitcoinTransaction_Return in H.
  destruct H as (f & draft & Hin & Hout & Hsign).
  pose proof (createBitcoinTransaction_inputs_txInputs _ _ _ _ Hin)
    as (payment & _ & _ & Hti & _).
  pose proof (createBitcoinTransaction_outputs_Return _ _ _ _ _ _ Hout)
    as (_ & Hf & _ & _ & Hi & _).
  assert (Hlen : List.length (txInputs (psbt draft)) = List.length utxos).
  { rewrite Hi, Hti. apply length_map. }
  pose proof Hsign as Hrun.
  unfold Bitcoin.createBitcoinTransaction_sign in Hsign.
  bind_inv Hsign as signer w2 E2. apply lift_inv in E2. destruct E2 as [E2 _].
  bind_inv Hsign as psbt4 w3 E3. apply lift_inv in E3. destruct E3 as [E3 _].
  bind_inv Hsign as psbt5 w4 E4. apply lift_inv in E4. destruct E4 as [E4 _].
  bind_inv Hsign as tx w7 E7. apply lift_inv in E7. destruct E7 as [E7 _].
  apply ret_inv in Hsign. destruct Hsign as [Hsign _].
  assert (Hhex : txHex result = toHex tx) by (inversion Hsign; reflexivity).
  rewrite signInputs_signEach in E3. rewrite Hf in E2.
  exists f, draft, signer, psbt4, psbt5, tx.
  rewrite Hlen. repeat split; assumption.
Qed.

(** X7.  What a call of the builder does to the state outside, whether it
    returns or throws: it writes nothing to the console, and it leaves
    [ECPair] set; if [ECPair] was [null] it has registered the ECC engine and
    created [ECPair], otherwise the state is the one it found.  A further
    call changes nothing.  So after one call on a page whose [ECPair] was
    [null], address derivation finds the ECC engine and returns the address
    [p2tr] computes. *)
Theorem createBitcoinTransaction_state
    privateKeyHex toAddress amountSats utxos feeRate network w :
  let w' := snd (Bitcoin.createBitcoinTransaction privateKeyHex toAddress
                   amountSats utxos feeRate network w) in
  w' = initialised w /\
  console w' = console w /\
  ECPair w' <> None /\
  (forall privateKeyHex2 toAddress2 amountSats2 utxos2 feeRate2 network2,
      snd (Bitcoin.createBitcoinTransaction privateKeyHex2 toAddress2
             amountSats2 utxos2 feeRate2 network2 w') = w') /\
  (ECPair w = None ->
   forall pubkeyHex network2,
     Bitcoin.nostrPubkeyToBitcoinAddress pubkeyHex network2 w'
     = match p2tr (Buffer_from_hex pubkeyHex)
               (Bitcoin.getNetwork (Bitcoin.default_mainnet network2)) with
       | Return payment => (Return (or_empty (address payment)), w')
       | Throw e =>
           (Return "", logged w' "Error generating Bitcoin address:" e)
       end).
Proof.
  intros w'.
  assert (Hw : w' = initialised w) by apply createBitcoinTransaction_world.
  split; [exact Hw |].
  split; [rewrite Hw; unfold initialised; destruct (ECPair w); reflexivity |].
  split.
  { rewrite Hw. unfold initialised.
    destruct (ECPair w) eqn:E; [rewrite E |]; discriminate. }
  split.
  { intros. rewrite createBitcoinTransaction_world, Hw.
    apply initialised_idempotent. }
  intros Hnone pubkeyHex network2.
  rewrite nostrPubkeyToBitcoinAddress_unfold.
  rewrite Hw. unfold initialised, logged. rewrite Hnone. simpl.
  destruct (p2tr _ _); reflexivity.
Qed.

(** X8.  The change goes to the wallet's own address.  When the builder
    returns, the change address it derived from the private key is not
    empty, and it is the string that [nostrPubkeyToBitcoinAddress], the main
    page and the send dialog derive on that network from the public key that
    belongs to the private key (its x-only public key in hex), in every
    state with the ECC engine registered and in the state the builder
    leaves. *)
Theorem createBitcoinTransaction_change_address
    privateKeyHex toAddress amountSats utxos feeRate network w result w' :
  Bitcoin.createBitcoinTransaction privateKeyHex toAddress amountSats
    utxos feeRate network w = (Return result, w') ->
  exists f,
    Bitcoin.createBitcoinTransaction_inputs privateKeyHex utxos network w
      = (Return f, w') /\
    changeAddress f <> "" /\
    forall pubkeyHex w0,
      Buffer_from_hex pubkeyHex = Buffer_slice (publicKey (keyPair f)) 1 33 ->
      eccLib w0 = true ->
      Bitcoin.nostrPubkeyToBitcoinAddress pubkeyHex network w0
      = (Return (changeAddress f), w0) /\
      Index.bitcoinAddress (Some {| pubkey := pubkeyHex |})
        (Bitcoin.default_mainnet network) w0
      = (Return (changeAddress f), w0) /\
      (forall d : SendBitcoinDialog.Dialog,
          SendBitcoinDialog.user d = Some {| pubkey := pubkeyHex |} ->
          SendBitcoinDialog.network d = Bitcoin.default_mainnet network ->
          SendBitcoinDialog.senderAddress d w0
          = (Return (changeAddress f), w0)) /\
      Bitcoin.nostrPubkeyToBitcoinAddress pubkeyHex network w'
      = (Return (changeAddress f), w').
Proof.
  intros H.
  apply createBitcoinTransaction_Return in H.
  destruct H as (f & draft & Hin & _ & _).
  pose proof (createBitcoinTransaction_inputs_Return _ _ _ _ Hin)
    as (Hipk & (payment & Hp & Ha) & Hne & _).
  pose proof (createBitcoinTransaction_inputs_engine _ _ _ _ Hin) as He.
  exists f. split; [exact Hin | split; [exact Hne |]].
  intros pubkeyHex w0 Hkey Hw0.
  assert (Hgen : forall w1, eccLib w1 = true ->
            Bitcoin.nostrPubkeyToBitcoinAddress pubkeyHex network w1
            = (Return (changeAddress f), w1)).
  { intros w1 Hw1. rewrite nostrPubkeyToBitcoinAddress_unfold, Hw1.
    rewrite Hkey, <- Hipk, Hp, Ha. reflexivity. }
  split; [apply Hgen; exact Hw0 | split; [| split; [| apply Hgen; exact He]]].
  - rewrite <- (Hgen w0 Hw0).
    unfold Index.bitcoinAddress, Bitcoin.nostrPubkeyToBitcoinAddress.
    reflexivity.
  - intros d Hu Hn. unfold SendBitcoinDialog.senderAddress.
    rewrite Hu, Hn. simpl pubkey.
    rewrite <- (Hgen w0 Hw0).
    unfold Bitcoin.nostrPubkeyToBitcoinAddress.
    destruct network; reflexivity.
Qed.

(** X9.  Every transaction the builder returns pays a fee.  Within the
    exact range (values that are not negative, all sums below 2^53
    satoshis) and for a fee rate in the normal range of binary64, the
    returned fee is at least one satoshi, so the supplied values exceed the
    amount, and nothing can be sent from an empty list of outputs.  The
    outputs of the transaction and the returned fee together never exceed
    the supplied values, and fall short of them by at most the dust
    limit. *)
Theorem createBitcoinTransaction_pays_the_fee
    privateKeyHex toAddress amountSats utxos feeRate network w result w' :
  Bitcoin.createBitcoinTransaction privateKeyHex toAddress amountSats
    utxos feeRate network w = (Return result, w') ->
  exact_range utxos amountSats feeRate ->
  115 * Z.of_nat (List.length utxos) + 193 < 2 ^ 53 ->
  (Binary64.pow2 Binary64.emin <= feeRate)%Q ->
  1 <= fee result /\
  amountSats < sum_values utxos /\
  utxos <> [] /\
  exists signed tx,
    extractTransaction signed = Return tx /\
    txHex result = toHex tx /\
    sum_outputs (txOutputs signed) + fee result <= sum_values utxos /\
    sum_values utxos <= sum_outputs (txOutputs signed) + fee result + 546.
Proof.
  intros H Hrange Hk Hrate.
  destruct (createBitcoinTransaction_outcome _ _ _ _ _ _ _ H)
    as (f & signed & tx & _ & Hfee & Hpos & Hx & Hhex & Ho).
  destruct (exact_range_arith Hrange) as (_ & _ & Hsum & Hsub & _).
  rewrite Hsum, Hsub in Hpos, Ho.
  destruct Hrange as (_ & _ & Ha & _).
  pose proof (@estimatedFee_positive utxos feeRate Hk Hrate) as Hone.
  set (change0 := sum_values utxos - amountSats
                  - Bitcoin.estimatedFee utxos feeRate) in *.
  split; [rewrite Hfee; exact Hone |].
  split; [unfold change0 in Hpos; lia |].
  split.
  { intros ->. unfold change0, sum_values in Hpos. simpl in Hpos. lia. }
  exists signed, tx. split; [exact Hx | split; [exact Hhex |]].
  rewrite Ho, Hfee. unfold sum_outputs.
  destruct (546 <? change0) eqn:E; simpl.
  - apply Z.ltb_lt in E. unfold change0 in *. lia.
  - apply Z.ltb_ge in E. unfold change0 in *. lia.
Qed.

End BuildFacts.

(** ** What address derivation returns *)

Section AddressOutcome.

Context {L : BitcoinLib} {R : Randomness}.

(** X10.  [nostrPubkeyToBitcoinAddress] always returns, and leaves the ECC
    engine and [ECPair] as they were.  A string that is not empty is the
    address [p2tr] computed, with the ECC engine registered and nothing
    written to the console; the state changes only by one console entry,
    the error [p2tr] threw or the missing engine, and then the result is the
    empty string. *)
Theorem nostrPubkeyToBitcoinAddress_outcome pubkeyHex network w :
  exists a w',
    Bitcoin.nostrPubkeyToBitcoinAddress pubkeyHex network w = (Return a, w') /\
    eccLib w' = eccLib w /\
    ECPair w' = ECPair w /\
    (a <> "" ->
     w' = w /\
     eccLib w = true /\
     exists payment,
       p2tr (Buffer_from_hex pubkeyHex)
         (Bitcoin.getNetwork (Bitcoin.default_mainnet network))
       = Return payment /\
       address payment = Some a) /\
    (w' <> w ->
     a = "" /\
     exists e,
       w' = logged w "Error generating Bitcoin address:" e /\
       (eccLib w = true ->
        p2tr (Buffer_from_hex pubkeyHex)
          (Bitcoin.getNetwork (Bitcoin.default_mainnet network)) = Throw e)).
Proof.
  rewrite nostrPubkeyToBitcoinAddress_unfold.
  destruct (eccLib w) eqn:Hw.
  - destruct (p2tr (Buffer_from_hex pubkeyHex) _) as [payment | e] eqn:Hp.
    + exists (or_empty (address payment)), w.
      split; [reflexivity |].
      split; [first [reflexivity | exact Hw] | split; [reflexivity |]].
      split.
      * intros Ha. split; [reflexivity | split; [reflexivity |]].
        exists payment. split; [reflexivity |].
        destruct (address payment) as [s |]; [reflexivity |].
        simpl in Ha. exfalso. apply Ha. reflexivity.
      * intros Hne. exfalso. apply Hne. reflexivity.
    + eexists. eexists.
      split; [reflexivity |].
      split; [first [reflexivity | exact Hw] | split; [reflexivity |]].
      split.
      * intros Ha. exfalso. apply Ha. reflexivity.
      * intros _. split; [reflexivity |].
        exists e. split; [unfold logged; rewrite Hw; reflexivity |].
        intros _. reflexivity.
  - eexists. eexists.
    split; [reflexivity |].
    split; [first [reflexivity | exact Hw] | split; [reflexivity |]].
    split.
    + intros Ha. exfalso. apply Ha. reflexivity.
    + intros _. split; [reflexivity |].
      eexists. split; [unfold logged; rewrite Hw; reflexivity |].
      intros H. discriminate H.
Qed.

End AddressOutcome.

(** ** Addresses from an npub *)

Section NpubFacts.

Context {L : BitcoinLib} {R : Randomness} {P : Platform}.

Lemma nostrPubkeyToBitcoinAddress_default pubkeyHex network w :
  Bitcoin.nostrPubkeyToBitcoinAddress pubkeyHex
    (Some (Bitcoin.default_mainnet network)) w
  = Bitcoin.nostrPubkeyToBitcoinAddress pubkeyHex network w.
Proof. destruct network; reflexivity. Qed.

Lemma npubToBitcoinAddress_unfold npub network w :
  BitcoinIO.npubToBitcoinAddress npub network w
  = match nip19_decode npub with
    | Return (Decoded_npub pubkeyHex) =>
        Bitcoin.nostrPubkeyToBitcoinAddress pubkeyHex network w
    | Return _ =>
        (Throw (Error_of "Invalid npub format"),
         logged w "Error converting npub to Bitcoin address:"
           (Error_of "Invalid npub format"))
    | Throw e =>
        (Throw e, logged w "Error converting npub to Bitcoin address:" e)
    end.
Proof.
  unfold BitcoinIO.npubToBitcoinAddress, try_catch, bind, lift.
  destruct (nip19_decode npub) as [[pubkeyHex | data | type] | e];
    try reflexivity.
  rewrite nostrPubkeyToBitcoinAddress_default.
  destruct (nostrPubkeyToBitcoinAddress_returns pubkeyHex network w)
    as (a & w1 & ->).
  reflexivity.
Qed.

(** X11.  [npubToBitcoinAddress] throws exactly when [nip19.decode] throws
    or decodes something that is not an npub; the error is written to the
    console once and thrown again unchanged.  For an npub it is
    [nostrPubkeyToBitcoinAddress] on the decoded key: a key that [p2tr]
    rejects gives the empty string, not an error.  The mainnet-only module
    does the same. *)
Theorem npubToBitcoinAddress_outcome npub network w :
  BitcoinIO.npubToBitcoinAddress npub network w
  = match nip19_decode npub with
    | Return (Decoded_npub pubkeyHex) =>
        Bitcoin.nostrPubkeyToBitcoinAddress pubkeyHex network w
    | Return _ =>
        (Throw (Error_of "Invalid npub format"),
         logged w "Error converting npub to Bitcoin address:"
           (Error_of "Invalid npub format"))
    | Throw e =>
        (Throw e, logged w "Error converting npub to Bitcoin address:" e)
    end /\
  (forall pubkeyHex,
      nip19_decode npub = Return (Decoded_npub pubkeyHex) ->
      rejected pubkeyHex
        (Bitcoin.getNetwork (Bitcoin.default_mainnet network)) ->
      fst (BitcoinIO.npubToBitcoinAddress npub network w) = Return "") /\
  (Bitcoin.default_mainnet network = Bitcoin.mainnet ->
   BitcoinMainnetIO.npubToBitcoinAddress npub w
   = BitcoinIO.npubToBitcoinAddress npub network w).
Proof.
  split; [apply npubToBitcoinAddress_unfold | split].
  - intros pubkeyHex Hd [e He].
    rewrite npubToBitcoinAddress_unfold, Hd, nostrPubkeyToBitcoinAddress_unfold.
    destruct (eccLib w); [rewrite He |]; reflexivity.
  - intros Hn.
    unfold BitcoinMainnetIO.npubToBitcoinAddress,
      BitcoinIO.npubToBitcoinAddress, try_catch, bind, lift.
    destruct (nip19_decode npub) as [[pubkeyHex | data | type] | e];
      try reflexivity.
    rewrite nostrPubkeyToBitcoinAddress_default.
    rewrite (mainnet_nostrPubkeyToBitcoinAddress pubkeyHex network w Hn).
    reflexivity.
Qed.

End NpubFacts.

(** ** The send dialog *)

Section DialogFacts.

Context {L : BitcoinLib} {R : Randomness} {P : Platform}.

Import SendBitcoinDialog.

Lemma recipientAddress_unfold (d : Dialog) w :
  recipientAddress d w
  = if String.prefix "npub1" (recipient d) then
      match nip19_decode (recipient d) with
      | Return (Decoded_npub pubkeyHex) =>
          Bitcoin.nostrPubkeyToBitcoinAddress pubkeyHex (Some (network d)) w
      | Return _ =>
          (Throw (Error_of "Invalid recipient address or npub"),
           logged w "Error converting npub to Bitcoin address:"
             (Error_of "Invalid npub format"))
      | Throw e =>
          (Throw (Error_of "Invalid recipient address or npub"),
           logged w "Error converting npub to Bitcoin address:" e)
      end
    else if String.prefix "bc1" (recipient d)
            || String.prefix "tb1" (recipient d) then
      (Return (recipient d), w)
    else (Throw (Error_of "Invalid recipient address or npub"), w).
Proof.
  unfold recipientAddress, try_catch.
  destruct (String.prefix "npub1" (recipient d)).
  - rewrite npubToBitcoinAddress_unfold.
    destruct (nip19_decode (recipient d)) as [[pubkeyHex | data | type] | e];
      try reflexivity.
    destruct (nostrPubkeyToBitcoinAddress_returns pubkeyHex
                (Some (network d)) w) as (a & w1 & ->).
    reflexivity.
  - destruct (String.prefix "bc1" (recipient d)
              || String.prefix "tb1" (recipient d)); reflexivity.
Qed.

(** X12.  Parsing the recipient in the send dialog.  An entry that starts
    with npub1 goes through [npubToBitcoinAddress]; one that starts with bc1
    or tb1 is taken as it is, on every network and without further checks;
    anything else is refused.  Every failure, whatever its cause, is thrown
    as 'Invalid recipient address or npub'.  An npub whose key [p2tr]
    rejects yields the empty address. *)
Theorem recipientAddress_outcome (d : Dialog) w :
  recipientAddress d w
  = (if String.prefix "npub1" (recipient d) then
       match nip19_decode (recipient d) with
       | Return (Decoded_npub pubkeyHex) =>
           Bitcoin.nostrPubkeyToBitcoinAddress pubkeyHex (Some (network d)) w
       | Return _ =>
           (Throw (Error_of "Invalid recipient address or npub"),
            logged w "Error converting npub to Bitcoin address:"
              (Error_of "Invalid npub format"))
       | Throw e =>
           (Throw (Error_of "Invalid recipient address or npub"),
            logged w "Error converting npub to Bitcoin address:" e)
       end
     else if String.prefix "bc1" (recipient d)
             || String.prefix "tb1" (recipient d) then
       (Return (recipient d), w)
     else (Throw (Error_of "Invalid recipient address or npub"), w)) /\
  (forall e w',
      recipientAddress d w = (Throw e, w') ->
      e = Error_of "Invalid recipient address or npub") /\
  (forall pubkeyHex,
      String.prefix "npub1" (recipient d) = true ->
      nip19_decode (recipient d) = Return (Decoded_npub pubkeyHex) ->
      rejected pubkeyHex (Bitcoin.getNetwork (network d)) ->
      fst (recipientAddress d w) = Return "").
Proof.
  split; [apply recipientAddress_unfold |].
  split.
  2: { intros pubkeyHex Hpre Hd [e He].
       rewrite recipientAddress_unfold, Hpre, Hd,
         nostrPubkeyToBitcoinAddress_unfold.
       simpl Bitcoin.default_mainnet.
       destruct (eccLib w); [rewrite He |]; reflexivity. }
  intros e w'. rewrite recipientAddress_unfold.
  destruct (String.prefix "npub1" (recipient d)).
  - destruct (nip19_decode (recipient d)) as [[pubkeyHex | data | type] | e1];
      try (intros H; inversion H; reflexivity).
    destruct (nostrPubkeyToBitcoinAddress_returns pubkeyHex
                (Some (network d)) w) as (a & w1 & ->).
    intros H. discriminate H.
  - destruct (String.prefix "bc1" (recipient d)
              || String.prefix "tb1" (recipient d));
      intros H; inversion H; reflexivity.
Qed.

(** The balance shown is the rounded sum of the loaded values, and below
    2^53 satoshis their sum. *)
Lemma totalBalance_sum (d : Dialog) us :
  utxos d = Some us ->
  Forall (fun utxo => 0 <= value utxo) us ->
  sum_values us < 2 ^ 53 ->
  totalBalance d = sum_values us.
Proof.
  intros H Hv Hb. unfold totalBalance. rewrite H.
  apply rounded_sum_exact; assumption.
Qed.

Variable fetch : Fetch.

(** What a resolved [mutationFn] went through. *)
Lemma mutationFn_Return (d : Dialog) w sent w' :
  mutationFn fetch d w = (Return sent, w') ->
  is_some (user d) = true /\
  hasNsecAccess d = true /\
  exists privateKey us rates to btc built w1 w2 response,
    getPrivateKey d w = (Return (Some privateKey), w1) /\
    privateKey <> "" /\
    utxos d = Some us /\
    us <> [] /\
    feeRates d = Some rates /\
    recipientAddress d w1 = (Return to, w2) /\
    parseFloat (amount d) = Some btc /\
    0 < Bitcoin.btcToSats btc /\
    Bitcoin.createBitcoinTransaction privateKey to (Bitcoin.btcToSats btc) us
      (feeRateMap rates (feeSpeed d)) (Some (network d)) w2
    = (Return built, w') /\
    fetch {| url := Bitcoin.getApiUrl (network d) ++ "/tx";
             method := "POST"; body := Some (txHex built) |}
    = Return response /\
    ok response = true /\
    text response = Return (txId sent) /\
    sentFee sent = fee built.
Proof.
  unfold mutationFn. intros H.
  destruct (is_some (user d)) eqn:Hu; [| discriminate H].
  destruct (hasNsecAccess d) eqn:Hn; [| discriminate H].
  simpl in H.
  split; [reflexivity | split; [reflexivity |]].
  bind_inv H as key w1 E1.
  destruct key as [privateKey |]; [| discriminate H].
  destruct (privateKey =? "")%string eqn:Hk; [discriminate H |].
  destruct (utxos d) as [[| u us] |] eqn:Hus; try discriminate H.
  destruct (feeRates d) as [rates |] eqn:Hr; [| discriminate H].
  bind_inv H as to w2 E2.
  destruct (parseFloat (amount d)) as [btc |] eqn:Hp; [| discriminate H].
  destruct (Bitcoin.btcToSats btc <=? 0) eqn:Ha; [discriminate H |].
  apply Z.leb_gt in Ha.
  bind_inv H as built w3 E3.
  bind_inv H as id w4 E4. apply lift_inv in E4. destruct E4 as [E4 ->].
  apply ret_inv in H. destruct H as [H ->].
  unfold BitcoinIO.broadcastTransaction in E4. simpl in E4.
  apply Outcome_bind_Return_inv in E4. destruct E4 as (response & Hf & E4).
  destruct (ok response) eqn:Hok; simpl in E4.
  - exists privateKey, (u :: us), rates, to, btc, built, w1, w2, response.
    inversion H. simpl.
    repeat split; try assumption; try reflexivity.
    + intros ->. discriminate Hk.
    + discriminate.
  - destruct (text response); discriminate E4.
Qed.

(** X13.  What a successful send went through: the user is logged in with
    an nsec, the private key is there, at least one output and the fee rates
    are loaded, the recipient parsed, the amount is a number that converts
    to a positive number of satoshis, the builder returned for exactly these
    values and the rate of the chosen speed, and the explorer of the chosen
    network answered the POST of that transaction's hex to its /tx with the
    id returned.  The fee reported is the fee the builder returned; for a
    rate that is a number and not negative it is the estimate for that rate,
    and within the exact range (values that are not negative, all sums
    below 2^53 satoshis) amount plus fee do not exceed the balance shown. *)
Theorem mutationFn_sent (d : Dialog) w sent w' :
  mutationFn fetch d w = (Return sent, w') ->
  is_some (user d) = true /\
  hasNsecAccess d = true /\
  exists privateKey us rates to btc built w1 w2 response,
    getPrivateKey d w = (Return (Some privateKey), w1) /\
    privateKey <> "" /\
    utxos d = Some us /\
    us <> [] /\
    feeRates d = Some rates /\
    recipientAddress d w1 = (Return to, w2) /\
    parseFloat (amount d) = Some btc /\
    0 < Bitcoin.btcToSats btc /\
    Bitcoin.createBitcoinTransaction privateKey to (Bitcoin.btcToSats btc) us
      (feeRateMap rates (feeSpeed d)) (Some (network d)) w2
    = (Return built, w') /\
    fetch {| url := Bitcoin.getApiUrl (network d) ++ "/tx";
             method := "POST"; body := Some (txHex built) |}
    = Return response /\
    ok response = true /\
    text response = Return (txId sent) /\
    sentFee sent = fee built /\
    ((0 <= feeRateMap rates (feeSpeed d))%Q ->
     sentFee sent
     = Bitcoin.estimatedFee us (feeRateMap rates (feeSpeed d))) /\
    (exact_range us (Bitcoin.btcToSats btc) (feeRateMap rates (feeSpeed d)) ->
     Bitcoin.btcToSats btc + sentFee sent <= totalBalance d).
Proof.
  intros H.
  destruct (mutationFn_Return _ _ H)
    as (Hu & Hn & privateKey & us & rates & to & btc & built & w1 & w2
        & response & Hk & Hne & Hus & Hnil & Hr & Hto & Hp & Ha & Hb & Hf
        & Hok & Ht & Hfee).
  split; [exact Hu | split; [exact Hn |]].
  exists privateKey, us, rates, to, btc, built, w1, w2, response.
  destruct (createBitcoinTransaction_outcome _ _ _ _ _ _ _ Hb)
    as (f & signed & tx & _ & Hest & Hpos & _).
  repeat (split; [assumption |]).
  split; [intros _; congruence |].
  intros Hrange.
  destruct (exact_range_arith Hrange) as (_ & _ & Hsum & Hsub & _).
  destruct Hrange as (Hv & Hs & _).
  rewrite (totalBalance_sum _ Hus Hv Hs).
  rewrite Hsum, Hsub in Hpos. rewrite Hfee, Hest. lia.
Qed.

(** X14.  Send Max cannot be sent.  The button fills in the whole balance
    shown; for loaded values that are not negative and a balance below
    2^25 BTC that is their sum, and the dialog reads the amount back as
    exactly the balance.  So with a rate that is a number and not negative
    and a positive fee estimate (balance plus fee below 2^53 satoshis)
    nothing is left for the fee: the send never resolves, does not depend
    on the network, and once key, recipient and inputs are in place it fails
    with the insufficient-funds error for balance + fee against balance. *)
Theorem sendMax_insufficient_funds (d d' : Dialog) us rates w :
  (forall s v, decimal_value s = Some v ->
               parseFloat s = Some (Binary64.fl v)) ->
  utxos d = Some us ->
  feeRates d = Some rates ->
  Forall (fun utxo => 0 <= value utxo) us ->
  0 < sum_values us < 2 ^ 25 * 10 ^ 8 ->
  (0 <= feeRateMap rates (feeSpeed d))%Q ->
  0 < Bitcoin.estimatedFee us (feeRateMap rates (feeSpeed d)) ->
  sum_values us + Bitcoin.estimatedFee us (feeRateMap rates (feeSpeed d))
    < 2 ^ 53 ->
  sendMax d = Some d' ->
  totalBalance d = sum_values us /\
  (exists btc,
      parseFloat (amount d') = Some btc /\
      Bitcoin.btcToSats btc = totalBalance d) /\
  (forall sent w', mutationFn fetch d' w <> (Return sent, w')) /\
  (forall fetch', mutationFn fetch' d' w = mutationFn fetch d' w) /\
  (forall privateKey w1 to w2 f w3,
      is_some (user d) = true ->
      hasNsecAccess d = true ->
      getPrivateKey d w = (Return (Some privateKey), w1) ->
      privateKey <> "" ->
      recipientAddress d' w1 = (Return to, w2) ->
      Bitcoin.createBitcoinTransaction_inputs privateKey us
        (Some (network d)) w2 = (Return f, w3) ->
      mutationFn fetch d' w
      = (Throw (InsufficientFunds
                  (sum_values us
                   + Bitcoin.estimatedFee us (feeRateMap rates (feeSpeed d)))
                  (sum_values us)), w3)).
Proof.
  intros Hparse Hus Hr Hval Hsum Hrate Hfee Hbound Hmax.
  assert (Hrange : exact_range us (sum_values us)
                     (feeRateMap rates (feeSpeed d))).
  { unfold exact_range. repeat split; try assumption; lia. }
  assert (Hnil : us <> []).
  { intros ->. unfold sum_values in Hsum. simpl in Hsum. lia. }
  assert (Htot : totalBalance d = sum_values us)
    by (apply (totalBalance_sum _ Hus Hval); lia).
  set (total := sum_values us) in *.
  assert (Hb : (Z.abs total < 2 ^ 25 * 10 ^ 8)%Z) by lia.
  unfold sendMax in Hmax. rewrite Htot, (@satsToBTC_fl total Hb) in Hmax.
  injection Hmax as Hd'. symmetry in Hd'.
  destruct (decimal_value_fixed_digits total) as (v & Hv & Heq).
  set (a := ((if (total <? 0)%Z then "-" else "")
             ++ fixed_digits (Z.abs total) 8)%string) in *.
  assert (Hpa : parseFloat a = Some (Binary64.fl v))
    by (apply Hparse; exact Hv).
  assert (Hsats : Bitcoin.btcToSats (Binary64.fl v) = total).
  { rewrite (@fl_comp _ _ Heq). apply btcToSats_fl. exact Hb. }
  assert (Hrun : forall fetch0,
            mutationFn fetch0 d' w
            = if negb (is_some (user d)) || negb (hasNsecAccess d) then
                (Throw (Error_of
                          "You must be logged in with nsec to send Bitcoin"), w)
              else
                match getPrivateKey d w with
                | (Return (Some privateKey), w1) =>
                    if (privateKey =? "")%string then
                      (Throw (Error_of "Failed to access private key"), w1)
                    else
                      match us with
                      | [] => (Throw (Error_of "No UTXOs available"), w1)
                      | _ :: _ =>
                          match recipientAddress d' w1 with
                          | (Return to, w2) =>
                              match Bitcoin.createBitcoinTransaction_inputs
                                      privateKey us (Some (network d)) w2 with
                              | (Return f, w3) =>
                                  (Throw (InsufficientFunds
                                            (total + Bitcoin.estimatedFee us
                                               (feeRateMap rates (feeSpeed d)))
                                            total), w3)
                              | (Throw e, w3) => (Throw e, w3)
                              end
                          | (Throw e, w2) => (Throw e, w2)
                          end
                      end
                | (Return None, w1) =>
                    (Throw (Error_of "Failed to access private key"), w1)
                | (Throw e, w1) => (Throw e, w1)
                end).
  { intros fetch0. unfold mutationFn. rewrite Hd'.
    cbn [user hasNsecAccess
      getPrivateKey network amount feeSpeed utxos feeRates].
    rewrite Hus, Hr, Hpa, Hsats.
    destruct (negb (is_some (user d)) || negb (hasNsecAccess d));
      [reflexivity |].
    unfold bind at 1.
    destruct (getPrivateKey d w) as [[[privateKey |] | e] w1];
      try reflexivity.
    destruct (privateKey =? "")%string; [reflexivity |].
    destruct us as [| u rest]; [reflexivity |].
    unfold bind at 1.
    match goal with
    | |- context [recipientAddress ?x w1] =>
        destruct (recipientAddress x w1) as [[to | e] w2]
    end; [| reflexivity].
    replace (total <=? 0) with false by (symmetry; apply Z.leb_gt; lia).
    unfold bind at 1.
    rewrite createBitcoinTransaction_short by (assumption || (fold total; lia)).
    fold total.
    destruct (Bitcoin.createBitcoinTransaction_inputs privateKey (u :: rest)
                (Some (network d)) w2) as [[f | e] w3]; reflexivity. }
  split; [exact Htot |].
  split.
  { exists (Binary64.fl v). rewrite Hd'. cbn [amount]. split; [exact Hpa |].
    rewrite Htot. exact Hsats. }
  split.
  { intros sent w'. rewrite Hrun.
    destruct (negb (is_some (user d)) || negb (hasNsecAccess d));
      [discriminate |].
    destruct (getPrivateKey d w) as [[[privateKey |] | e] w1];
      try discriminate.
    destruct (privateKey =? "")%string; [discriminate |].
    destruct us as [| u rest]; [discriminate |].
    destruct (recipientAddress d' w1) as [[to | e] w2]; [| discriminate].
    destruct (Bitcoin.createBitcoinTransaction_inputs _ _ _ w2)
      as [[f | e] w3]; discriminate. }
  split.
  { intros fetch'. rewrite !Hrun. reflexivity. }
  intros privateKey w1 to w2 f w3 Hu Hn Hk Hne Hto Hin.
  rewrite Hrun, Hu, Hn, Hk. simpl.
  destruct (privateKey =? "")%string eqn:E;
    [apply String.eqb_eq in E; contradiction |].
  destruct us as [| u rest]; [contradiction |].
  rewrite Hto, Hin. reflexivity.
Qed.

End DialogFacts.

(** ** The explorer *)

Section ExplorerFacts.

Import Bitcoin.

Lemma prefix_nil q : String.prefix "" q = true.
Proof. destruct q; reflexivity. Qed.

Lemma prefix_app p : forall r, String.prefix p (p ++ r) = true.
Proof.
  induction p as [| c p IH]; intros r; simpl; [apply prefix_nil |].
  destruct (ascii_dec c c) as [_ | Hc]; [apply IH | contradiction].
Qed.

(** Two prefixes of one string: one is a prefix of the other. *)
Lemma prefix_comparable u : forall p q,
  String.prefix p u = true -> String.prefix q u = true ->
  String.prefix p q = true \/ String.prefix q p = true.
Proof.
  induction u as [| c u IH]; intros p q Hp Hq.
  - destruct p; [left; apply prefix_nil | discriminate Hp].
  - destruct p as [| a p]; [left; apply prefix_nil |].
    destruct q as [| b q]; [right; apply prefix_nil |].
    simpl in Hp, Hq |- *.
    destruct (ascii_dec a c) as [-> | _]; [| discriminate Hp].
    destruct (ascii_dec b c) as [-> | _]; [| discriminate Hq].
    destruct (ascii_dec c c) as [_ | Hc]; [| contradiction].
    apply IH; assumption.
Qed.

Lemma under_disjoint base base' req :
  String.prefix (base ++ "/") (base' ++ "/") = false ->
  String.prefix (base' ++ "/") (base ++ "/") = false ->
  under base req = true -> under base' req = false.
Proof.
  intros H1 H2 Hu. unfold under in *.
  destruct (String.prefix (base' ++ "/") (url req)) eqn:E; [| reflexivity].
  destruct (prefix_comparable _ _ _ Hu E); congruence.
Qed.

Lemma fetchUTXOs_agree network fetch fetch' address :
  agree_under (getApiUrl network) fetch fetch' ->
  BitcoinIO.fetchUTXOs fetch address (Some network)
  = BitcoinIO.fetchUTXOs fetch' address (Some network).
Proof.
  intros H. unfold BitcoinIO.fetchUTXOs. rewrite H; [reflexivity |].
  destruct network; reflexivity.
Qed.

Lemma getFeeRates_agree network fetch fetch' :
  agree_under (getApiUrl network) fetch fetch' ->
  BitcoinIO.getFeeRates fetch (Some network)
  = BitcoinIO.getFeeRates fetch' (Some network).
Proof.
  intros H. unfold BitcoinIO.getFeeRates. rewrite H; [reflexivity |].
  destruct network; reflexivity.
Qed.

Lemma broadcastTransaction_agree network fetch fetch' txHex :
  agree_under (getApiUrl network) fetch fetch' ->
  BitcoinIO.broadcastTransaction fetch txHex (Some network)
  = BitcoinIO.broadcastTransaction fetch' txHex (Some network).
Proof.
  intros H. unfold BitcoinIO.broadcastTransaction. rewrite H; [reflexivity |].
  destruct network; reflexivity.
Qed.

(** X15.  Each network has its own explorer.  [fetchUTXOs], [getFeeRates]
    and [broadcastTransaction] depend on the network only through the
    answers to requests under the API base of the network they are called
    for, and the mainnet-only module only through those under
    blockstream.info; no request lies under the bases of two networks, nor
    under a network's base and blockstream.info's. *)
Theorem explorer_requests_stay_on_network network :
  (forall fetch fetch',
      agree_under (getApiUrl network) fetch fetch' ->
      (forall address,
          BitcoinIO.fetchUTXOs fetch address (Some network)
          = BitcoinIO.fetchUTXOs fetch' address (Some network)) /\
      BitcoinIO.getFeeRates fetch (Some network)
      = BitcoinIO.getFeeRates fetch' (Some network) /\
      (forall txHex,
          BitcoinIO.broadcastTransaction fetch txHex (Some network)
          = BitcoinIO.broadcastTransaction fetch' txHex (Some network))) /\
  (forall fetch fetch',
      agree_under "https://blockstream.info/api" fetch fetch' ->
      (forall address,
          BitcoinMainnetIO.fetchUTXOs fetch address
          = BitcoinMainnetIO.fetchUTXOs fetch' address) /\
      (forall txHex,
          BitcoinMainnetIO.broadcastTransaction fetch txHex
          = BitcoinMainnetIO.broadcastTransaction fetch' txHex)) /\
  (forall network' req,
      under (getApiUrl network) req = true ->
      under (getApiUrl network') req = true ->
      network' = network) /\
  (forall req,
      under (getApiUrl network) req = true ->
      under "https://blockstream.info/api" req = false).
Proof.
  split; [| split; [| split]].
  - intros fetch fetch' H. split; [| split].
    + intros address. apply fetchUTXOs_agree. exact H.
    + apply getFeeRates_agree. exact H.
    + intros txHex. apply broadcastTransaction_agree. exact H.
  - intros fetch fetch' H. split.
    + intros address. unfold BitcoinMainnetIO.fetchUTXOs.
      rewrite H; reflexivity.
    + intros txHex. unfold BitcoinMainnetIO.broadcastTransaction.
      rewrite H; reflexivity.
  - intros network' req H1 H2.
    destruct network, network'; try reflexivity;
      match type of H1 with
      | under ?b _ = true =>
          match type of H2 with
          | under ?b' _ = true =>
              rewrite (@under_disjoint b b' req eq_refl eq_refl H1) in H2
          end
      end; discriminate H2.
  - intros req H. destruct network;
      match type of H with
      | under ?b _ = true =>
          exact (@under_disjoint b "https://blockstream.info/api" req
                   eq_refl eq_refl H)
      end.
Qed.

Lemma or_else_one v :
  falsy (Some (or_else v (JSON_number 1))) = false /\
  (falsy v = false -> Some (or_else v (JSON_number 1)) = v) /\
  (falsy v = true -> or_else v (JSON_number 1) = JSON_number 1).
Proof.
  unfold or_else. destruct v as [a |].
  - destruct (falsy (Some a)) eqn:E.
    + split; [reflexivity | split; [intros H; discriminate H | reflexivity]].
    + split; [exact E | split; [reflexivity | intros H; discriminate H]].
  - split; [reflexivity | split; [intros H; discriminate H | reflexivity]].
Qed.

(** X16.  [getFeeRates] returns no rate that counts as false.  When it
    returns, the explorer answered the request for the recommended fees of
    the network with a document other than null, and each of the five rates
    is the value of its key in that document when that value counts as true,
    and the number 1 when it is missing, zero, null, false or empty. *)
Theorem getFeeRates_defaults fetch network rates :
  BitcoinIO.getFeeRates fetch network = Return rates ->
  exists response data,
    fetch (GET (getApiUrl (default_mainnet network) ++ "/v1/fees/recommended"))
    = Return response /\
    ok response = true /\
    json response = Return data /\
    forall field key,
      In (field, key) fee_fields ->
      exists v,
        JSON_get data key = Return v /\
        field rates = or_else v (JSON_number 1) /\
        falsy (Some (field rates)) = false /\
        (falsy v = false -> Some (field rates) = v) /\
        (falsy v = true -> field rates = JSON_number 1).
Proof.
  unfold BitcoinIO.getFeeRates. intros H.
  apply Outcome_bind_Return_inv in H. destruct H as (response & Hf & H).
  destruct (ok response) eqn:Hok; [| discriminate H]. simpl in H.
  apply Outcome_bind_Return_inv in H. destruct H as (data & Hj & H).
  apply Outcome_bind_Return_inv in H. destruct H as (v1 & H1 & H).
  apply Outcome_bind_Return_inv in H. destruct H as (v2 & H2 & H).
  apply Outcome_bind_Return_inv in H. destruct H as (v3 & H3 & H).
  apply Outcome_bind_Return_inv in H. destruct H as (v4 & H4 & H).
  apply Outcome_bind_Return_inv in H. destruct H as (v5 & H5 & H).
  inversion H. subst rates. clear H.
  exists response, data. repeat split; try assumption.
  intros field key Hin. unfold fee_fields in Hin. simpl in Hin.
  destruct Hin as [E | [E | [E | [E | [E | []]]]]]; inversion E; subst;
    [exists v1 | exists v2 | exists v3 | exists v4 | exists v5];
    (split; [assumption |]); (split; [reflexivity |]); cbn;
    apply or_else_one.
Qed.

(** X17.  The explorer link of the success screen.  On every network,
    removing '/api' from the API base removes its last part: the link is the
    base of the network's explorer followed by /tx/ and the transaction id,
    and different networks link to different pages. *)
Theorem explorerUrl_link network :
  (SendBitcoinDialog.explorerUrl network ++ "/api")%string
  = getApiUrl network /\
  (forall txId,
      SendBitcoinDialog.explorerTxUrl network txId
      = (match network with
         | mainnet => "https://mempool.space/tx/"
         | testnet => "https://mempool.space/testnet/tx/"
         | testnet4 => "https://mempool.space/testnet4/tx/"
         end ++ txId)%string) /\
  (forall network',
      SendBitcoinDialog.explorerUrl network'
      = SendBitcoinDialog.explorerUrl network ->
      network' = network).
Proof.
  split; [destruct network; reflexivity | split].
  - intros txId. destruct network; reflexivity.
  - intros network'. destruct network, network'; intros H;
      try reflexivity; discriminate H.
Qed.

End ExplorerFacts.

(** ** The dialog and the network *)

Section DialogNetworkFacts.

Context {L : BitcoinLib} {R : Randomness} {P : Platform}.

Import SendBitcoinDialog.

(** [mutationFn] is a local part, which ends in an error or in a signed
    transaction, followed by the broadcast of that transaction. *)
Lemma mutationFn_split (d : Dialog) w :
  exists pre : Outcome TxResult * World,
    (forall fetch,
        mutationFn fetch d w
        = match pre with
          | (Return built, w3) =>
              match BitcoinIO.broadcastTransaction fetch (txHex built)
                      (Some (network d)) with
              | Return id =>
                  (Return {| txId := id; sentFee := fee built |}, w3)
              | Throw e => (Throw e, w3)
              end
          | (Throw e, w3) => (Throw e, w3)
          end) /\
    (forall built w3,
        pre = (Return built, w3) ->
        exists privateKey us rates to btc w1 w2,
          getPrivateKey d w = (Return (Some privateKey), w1) /\
          utxos d = Some us /\
          feeRates d = Some rates /\
          recipientAddress d w1 = (Return to, w2) /\
          parseFloat (amount d) = Some btc /\
          0 < Bitcoin.btcToSats btc /\
          Bitcoin.createBitcoinTransaction privateKey to
            (Bitcoin.btcToSats btc) us (feeRateMap rates (feeSpeed d))
            (Some (network d)) w2 = (Return built, w3)).
Proof.
  destruct (negb (is_some (user d)) || negb (hasNsecAccess d)) eqn:Hg.
  { eexists (Throw _, w). split; [| intros ? ? H; discriminate H].
    intros fetch. unfold mutationFn. rewrite Hg. reflexivity. }
  destruct (getPrivateKey d w) as [[[privateKey |] | e] w1] eqn:Hk.
  2: { eexists (Throw _, w1). split; [| intros ? ? H; discriminate H].
       intros fetch. unfold mutationFn, bind. rewrite Hg, Hk. reflexivity. }
  2: { exists (Throw e, w1). split; [| intros ? ? H; discriminate H].
       intros fetch. unfold mutationFn, bind. rewrite Hg, Hk. reflexivity. }
  destruct (privateKey =? "")%string eqn:Hne.
  { eexists (Throw _, w1). split; [| intros ? ? H; discriminate H].
    intros fetch. unfold mutationFn, bind. rewrite Hg, Hk, Hne. reflexivity. }
  destruct (utxos d) as [[| u us] |] eqn:Hus.
  1, 3: eexists (Throw _, w1); (split; [| intros ? ? H; discriminate H]);
    intros fetch; unfold mutationFn, bind; rewrite Hg, Hk, Hne, Hus;
    reflexivity.
  destruct (feeRates d) as [rates |] eqn:Hr.
  2: { eexists (Throw _, w1). split; [| intros ? ? H; discriminate H].
       intros fetch. unfold mutationFn, bind.
       rewrite Hg, Hk, Hne, Hus, Hr. reflexivity. }
  destruct (recipientAddress d w1) as [[to | e] w2] eqn:Hto.
  2: { exists (Throw e, w2). split; [| intros ? ? H; discriminate H].
       intros fetch. unfold mutationFn, bind.
       rewrite Hg, Hk, Hne, Hus, Hr, Hto. reflexivity. }
  destruct (parseFloat (amount d)) as [btc |] eqn:Hp.
  2: { eexists (Throw _, w2). split; [| intros ? ? H; discriminate H].
       intros fetch. unfold mutationFn, bind.
       rewrite Hg, Hk, Hne, Hus, Hr, Hto, Hp. reflexivity. }
  destruct (Bitcoin.btcToSats btc <=? 0) eqn:Ha.
  { eexists (Throw _, w2). split; [| intros ? ? H; discriminate H].
    intros fetch. unfold mutationFn, bind.
    rewrite Hg, Hk, Hne, Hus, Hr, Hto, Hp, Ha. reflexivity. }
  exists (Bitcoin.createBitcoinTransaction privateKey to (Bitcoin.btcToSats btc)
            (u :: us) (feeRateMap rates (feeSpeed d)) (Some (network d)) w2).
  split.
  - intros fetch. unfold mutationFn, bind.
    rewrite Hg, Hk, Hne, Hus, Hr, Hto, Hp, Ha.
    destruct (Bitcoin.createBitcoinTransaction _ _ _ _ _ _ w2)
      as [[built | e] w3]; [| reflexivity].
    unfold lift, ret.
    destruct (BitcoinIO.broadcastTransaction fetch (txHex built)
                (Some (network d))); reflexivity.
  - intros built w3 Hb.
    exists privateKey, (u :: us), rates, to, btc, w1, w2.
    apply Z.leb_gt in Ha. repeat split; try assumption; reflexivity.
Qed.

(** X18.  The send dialog and the network.  A send depends on the network
    only through the answers to requests under the API base of the chosen
    network.  When it fails, either it failed before any request, with the
    same error whatever the network would have answered, or a transaction
    was built and signed and it is its broadcast that failed. *)
Theorem mutationFn_network_use (d : Dialog) w fetch :
  (forall fetch',
      agree_under (Bitcoin.getApiUrl (network d)) fetch fetch' ->
      mutationFn fetch' d w = mutationFn fetch d w) /\
  (forall e w',
      mutationFn fetch d w = (Throw e, w') ->
      (forall fetch', mutationFn fetch' d w = (Throw e, w')) \/
      (exists privateKey us rates to btc built w1 w2,
          getPrivateKey d w = (Return (Some privateKey), w1) /\
          utxos d = Some us /\
          feeRates d = Some rates /\
          recipientAddress d w1 = (Return to, w2) /\
          parseFloat (amount d) = Some btc /\
          0 < Bitcoin.btcToSats btc /\
          Bitcoin.createBitcoinTransaction privateKey to
            (Bitcoin.btcToSats btc) us (feeRateMap rates (feeSpeed d))
            (Some (network d)) w2 = (Return built, w') /\
          BitcoinIO.broadcastTransaction fetch (txHex built)
            (Some (network d)) = Throw e)).
Proof.
  destruct (mutationFn_split d w) as (pre & Hrun & Hpre).
  split.
  - intros fetch' Hagree. rewrite !Hrun.
    destruct pre as [[built | e] w3]; [| reflexivity].
    rewrite (@broadcastTransaction_agree (network d) fetch fetch'
               (txHex built) Hagree).
    reflexivity.
  - intros e w' H. rewrite Hrun in H.
    destruct pre as [[built | e0] w3].
    + right.
      destruct (Hpre built w3 eq_refl)
        as (privateKey & us & rates & to & btc & w1 & w2 & Hk & Hus & Hr
            & Hto & Hp & Ha & Hb).
      destruct (BitcoinIO.broadcastTransaction fetch (txHex built)
                  (Some (network d))) as [id | e1] eqn:Hbc;
        [discriminate H |].
      inversion H. subst e1 w3.
      exists privateKey, us, rates, to, btc, built, w1, w2.
      repeat split; assumption.
    + left. intros fetch'. rewrite Hrun. exact H.
Qed.

End DialogNetworkFacts.

(** ** The further properties on concrete inputs *)

Section FurtherRuns.

Import TestLib TestPlatform TestPage.

Lemma satsToBTC_btcToSats_round_trip_witness :
  (Z.abs 12345 < 2 ^ 25 * 10 ^ 8)%Z /\
  exists str v,
    Bitcoin.satsToBTC 12345 = Some str /\
    decimal_value str = Some v /\
    Bitcoin.btcToSats (Binary64.fl v) = 12345.
Proof.
  split; [reflexivity |].
  exact (proj1 (@satsToBTC_btcToSats_round_trip 12345 eq_refl)).
Defined.

Lemma estimatedFee_bounds_witness :
  (115 * Z.of_nat (List.length [utxo "aa" 100000]) + 193 < 2 ^ 53)%Z /\
  (1 <= 2.5)%Q /\
  (154 <= Bitcoin.estimatedFee [utxo "aa" 100000] 2.5)%Z.
Proof.
  assert (Hk : (115 * Z.of_nat (List.length [utxo "aa" 100000]) + 193
                < 2 ^ 53)%Z) by reflexivity.
  assert (Hr : (1 <= 2.5)%Q) by (vm_compute; discriminate).
  split; [exact Hk | split; [exact Hr |]].
  exact (proj2 (proj2 (proj2 (@estimatedFee_bounds [utxo "aa" 100000] 2.5 Hk)))
           Hr).
Defined.

Lemma estimatedFee_integer_rate_witness :
  ((115 * Z.of_nat (List.length [utxo "aa" 100000]) + 193) * Z.abs 10
   < 2 ^ 53)%Z /\
  Bitcoin.estimatedFee [utxo "aa" 100000] (inject_Z 10) = 1540.
Proof.
  assert (Hk : ((115 * Z.of_nat (List.length [utxo "aa" 100000]) + 193)
                * Z.abs 10 < 2 ^ 53)%Z) by reflexivity.
  split; [exact Hk |].
  exact (proj1 (@estimatedFee_integer_rate [utxo "aa" 100000] 10 Hk)).
Defined.

Lemma createBitcoinTransaction_spends_every_output_witness :
  Bitcoin.createBitcoinTransaction privateKeyHex toAddress 50000
    [utxo "aa" 60000; utxo "bb" 40000] 10 None fresh
  = (Return {| txHex := toAddress ++ ":50000;" ++ ownAddress ++ ":47885;";
               fee := 2115 |}, loaded) /\
  exists f payment signed,
    txInputs signed
    = [inputOf (internalPubkey f) payment (utxo "aa" 60000);
       inputOf (internalPubkey f) payment (utxo "bb" 40000)].
Proof.
  assert (Hrun : Bitcoin.createBitcoinTransaction privateKeyHex toAddress 50000
                   [utxo "aa" 60000; utxo "bb" 40000] 10 None fresh
                 = (Return {| txHex := toAddress ++ ":50000;" ++ ownAddress
                                         ++ ":47885;";
                              fee := 2115 |}, loaded))
    by reflexivity.
  split; [exact Hrun |].
  destruct (@createBitcoinTransaction_spends_every_output lib randomness
              _ _ _ _ _ _ _ _ _ Hrun)
    as (f & payment & signed & tx & _ & _ & _ & Hin & _).
  exists f, payment, signed. exact Hin.
Defined.

Lemma createBitcoinTransaction_signs_every_input_witness :
  Bitcoin.createBitcoinTransaction privateKeyHex toAddress 50000
    [utxo "aa" 60000; utxo "bb" 40000] 10 None fresh
  = (Return {| txHex := toAddress ++ ":50000;" ++ ownAddress ++ ":47885;";
               fee := 2115 |}, loaded) /\
  exists draft tweakedSigner signedPsbt,
    List.length (txInputs (psbt draft)) = 2%nat /\
    signEach tweakedSigner [0%nat; 1%nat] (psbt draft) = Return signedPsbt.
Proof.
  assert (Hrun : Bitcoin.createBitcoinTransaction privateKeyHex toAddress 50000
                   [utxo "aa" 60000; utxo "bb" 40000] 10 None fresh
                 = (Return {| txHex := toAddress ++ ":50000;" ++ ownAddress
                                         ++ ":47885;";
                              fee := 2115 |}, loaded))
    by reflexivity.
  split; [exact Hrun |].
  destruct (@createBitcoinTransaction_signs_every_input lib randomness
              _ _ _ _ _ _ _ _ _ Hrun)
    as (f & draft & signer & signedPsbt & finalPsbt & tx & Hin & Hout & _
        & Hs & _).
  pose proof (createBitcoinTransaction_inputs_txInputs _ _ _ _ Hin)
    as (payment & _ & _ & Hti & _).
  pose proof (createBitcoinTransaction_outputs_Return _ _ _ _ _ _ Hout)
    as (_ & _ & _ & _ & Hi & _).
  assert (Hlen : List.length (txInputs (psbt draft)) = 2%nat).
  { rewrite Hi, Hti. reflexivity. }
  exists draft, signer, signedPsbt. split; [exact Hlen |].
  rewrite Hlen in Hs. exact Hs.
Defined.

Lemma createBitcoinTransaction_change_address_witness :
  Bitcoin.createBitcoinTransaction privateKeyHex toAddress 50000
    [utxo "aa" 100000] 10 None fresh
  = (Return {| txHex := toAddress ++ ":50000;" ++ ownAddress ++ ":48460;";
               fee := 1540 |}, loaded) /\
  Bitcoin.nostrPubkeyToBitcoinAddress privateKeyHex None loaded
  = (Return ownAddress, loaded) /\
  exists f, changeAddress f = ownAddress.
Proof.
  assert (Hrun : Bitcoin.createBitcoinTransaction privateKeyHex toAddress 50000
                   [utxo "aa" 100000] 10 None fresh
                 = (Return {| txHex := toAddress ++ ":50000;" ++ ownAddress
                                         ++ ":48460;";
                              fee := 1540 |}, loaded))
    by reflexivity.
  assert (Haddr : Bitcoin.nostrPubkeyToBitcoinAddress privateKeyHex None loaded
                  = (Return ownAddress, loaded)) by reflexivity.
  split; [exact Hrun | split; [exact Haddr |]].
  destruct (@createBitcoinTransaction_change_address lib randomness
              _ _ _ _ _ _ _ _ _ Hrun)
    as (f & Hin & _ & Hsame).
  exists f.
  assert (Hkey : Buffer_from_hex privateKeyHex
                 = Buffer_slice (publicKey (keyPair f)) 1 33).
  { assert (Hf : Bitcoin.createBitcoinTransaction_inputs privateKeyHex
                    [utxo "aa" 100000] None fresh
                  = (Return
                       {| keyPair := from_hex privateKeyHex;
                          internalPubkey := from_hex privateKeyHex;
                          changeAddress := ownAddress;
                          funded :=
                            {| psbt_network := "bc";
                               txInputs :=
                                 [inputOf (from_hex privateKeyHex)
                                    {| address := Some ownAddress;
                                       output :=
                                         Some (Byte.x51 :: Byte.x20
                                                 :: from_hex privateKeyHex) |}
                                    (utxo "aa" 100000)];
                               txOutputs := [];
                               signatures := ([], false) |};
                          totalInput := 100000 |}, loaded))
      by reflexivity.
    rewrite Hf in Hin. inversion Hin. reflexivity. }
  destruct (Hsame privateKeyHex loaded Hkey eq_refl) as (H1 & _).
  rewrite Haddr in H1. inversion H1. reflexivity.
Defined.

Lemma createBitcoinTransaction_pays_the_fee_witness :
  Bitcoin.createBitcoinTransaction privateKeyHex toAddress 50000
    [utxo "aa" 100000] 10 None fresh
  = (Return {| txHex := toAddress ++ ":50000;" ++ ownAddress ++ ":48460;";
               fee := 1540 |}, loaded) /\
  exact_range [utxo "aa" 100000] 50000 10 /\
  115 * Z.of_nat (List.length [utxo "aa" 100000]) + 193 < 2 ^ 53 /\
  (Binary64.pow2 Binary64.emin <= 10)%Q /\
  1 <= 1540 /\
  50000 < sum_values [utxo "aa" 100000].
Proof.
  assert (Hrun : Bitcoin.createBitcoinTransaction privateKeyHex toAddress 50000
                   [utxo "aa" 100000] 10 None fresh
                 = (Return {| txHex := toAddress ++ ":50000;" ++ ownAddress
                                         ++ ":48460;";
                              fee := 1540 |}, loaded))
    by reflexivity.
  assert (Hk : 115 * Z.of_nat (List.length [utxo "aa" 100000]) + 193 < 2 ^ 53)
    by reflexivity.
  assert (Hr : (Binary64.pow2 Binary64.emin <= 10)%Q)
    by (vm_compute; discriminate).
  assert (Hrange : exact_range [utxo "aa" 100000] 50000 10).
  { unfold exact_range.
    repeat match goal with
           | |- _ /\ _ => split
           | |- Forall _ _ => constructor
           end; vm_compute; (reflexivity || discriminate). }
  split; [exact Hrun | split; [exact Hrange |]].
  split; [exact Hk | split; [exact Hr |]].
  destruct (@createBitcoinTransaction_pays_the_fee lib randomness
              _ _ _ _ _ _ _ _ _ Hrun Hrange Hk Hr) as (H1 & H2 & _).
  split; [exact H1 | exact H2].
Defined.

Lemma mutationFn_sent_witness :
  SendBitcoinDialog.mutationFn (accepting "txid" JSON_null) (dialog "0.0005")
    fresh
  = (Return {| SendBitcoinDialog.txId := "txid";
               SendBitcoinDialog.sentFee := 1540 |}, loaded) /\
  exists built,
    accepting "txid" JSON_null
      {| url := "https://mempool.space/api/tx"; method := "POST";
         body := Some (txHex built) |}
    = Return {| ok := true; text := Return "txid";
                json := Return JSON_null |} /\
    1540 = Bitcoin.estimatedFee [utxo "aa" 100000] 10.
Proof.
  assert (Hrun : SendBitcoinDialog.mutationFn (accepting "txid" JSON_null)
                   (dialog "0.0005") fresh
                 = (Return {| SendBitcoinDialog.txId := "txid";
                              SendBitcoinDialog.sentFee := 1540 |}, loaded))
    by reflexivity.
  split; [exact Hrun |].
  destruct (@mutationFn_sent lib randomness platform _ _ _ _ _ Hrun)
    as (_ & _ & privateKey & us & r & to & btc & built & w1 & w2 & response
        & _ & _ & Hus & _ & Hr & _ & _ & _ & _ & _ & _ & _ & _ & Hfee & _).
  exists built. split; [reflexivity |].
  inversion Hus. inversion Hr. subst us r.
  apply Hfee. vm_compute. discriminate.
Defined.

Lemma sendMax_insufficient_funds_witness :
  SendBitcoinDialog.sendMax (dialog "") = Some (dialog "0.00100000") /\
  SendBitcoinDialog.mutationFn (accepting "txid" JSON_null)
    (dialog "0.00100000") fresh
  = (Throw (InsufficientFunds 101540 100000), loaded) /\
  forall sent w',
    SendBitcoinDialog.mutationFn (accepting "txid" JSON_null)
      (dialog "0.00100000") fresh <> (Return sent, w').
Proof.
  assert (Hmax : SendBitcoinDialog.sendMax (dialog "")
                 = Some (dialog "0.00100000")) by reflexivity.
  split; [exact Hmax | split; [reflexivity |]].
  assert (Hparse : forall s v, decimal_value s = Some v ->
                      parseFloat s = Some (Binary64.fl v)).
  { intros s v H. simpl. rewrite H. reflexivity. }
  refine (proj1 (proj2 (proj2
            (@sendMax_insufficient_funds lib randomness platform
               (accepting "txid" JSON_null) (dialog "") (dialog "0.00100000")
               [utxo "aa" 100000] rates fresh Hparse eq_refl eq_refl _ _ _ _ _
               Hmax)))).
  - repeat constructor. vm_compute. discriminate.
  - split; reflexivity.
  - vm_compute. discriminate.
  - reflexivity.
  - reflexivity.
Defined.

Lemma getFeeRates_defaults_witness :
  BitcoinIO.getFeeRates (accepting "" recommended) None
  = Return {| BitcoinIO.fastestFee := JSON_number 12;
              BitcoinIO.halfHourFee := JSON_number 1;
              BitcoinIO.hourFee := JSON_number 1;
              BitcoinIO.economyFee := JSON_number 1;
              BitcoinIO.minimumFee := JSON_number 1 |} /\
  falsy (Some (JSON_number 12)) = false /\
  falsy (Some (JSON_number 1)) = false.
Proof.
  assert (Hrun : BitcoinIO.getFeeRates (accepting "" recommended) None
                 = Return {| BitcoinIO.fastestFee := JSON_number 12;
                             BitcoinIO.halfHourFee := JSON_number 1;
                             BitcoinIO.hourFee := JSON_number 1;
                             BitcoinIO.economyFee := JSON_number 1;
                             BitcoinIO.minimumFee := JSON_number 1 |})
    by reflexivity.
  split; [exact Hrun |].
  destruct (@getFeeRates_defaults _ _ _ Hrun)
    as (response & data & _ & _ & _ & Hall).
  split.
  - destruct (Hall BitcoinIO.fastestFee "fastestFee" (or_introl eq_refl))
      as (v & _ & _ & H & _).
    exact H.
  - destruct (Hall BitcoinIO.halfHourFee "halfHourFee"
                (or_intror (or_introl eq_refl)))
      as (v & _ & _ & H & _).
    exact H.
Defined.

Lemma btcToSats_nearest_witness :
  (Qabs (0.5 * 100000000) < 4503599627370496)%Q /\
  Bitcoin.btcToSats 0.5 = 50000000.
Proof.
  assert (Hb : (Qabs (0.5 * 100000000) < 4503599627370496)%Q) by reflexivity.
  split; [exact Hb |].
  apply (proj1 (proj2 (@btcToSats_nearest 0.5 Hb))). reflexivity.
Defined.

End FurtherRuns.
